(** * tweet-x-deleter: the scan-act-confirm automaton, embedded and verified

    A shallow embedding of the JavaScript sources of the repository:

    - [src/delete-x-content.js] in its Chrome DevTools form (handles are
      [uid] attributes) and in its Playwright form (handles are [ref]
      attributes): the snapshot interpreter ([findTweetElements],
      [findMoreButtonInTweet], ...), the classifier [isRepost], the URL
      derivation [getProfileUrl] and the pagination loop [deleteContent];
    - [src/remove-inactive-followers.js] in its two forms: [isInactive],
      [getFollowerElements], [checkUserActivity] and the follower loop.

    JavaScript strings are modelled as [string] (a sequence of code units),
    values that may be of any JavaScript type as [JsValue], exceptions as
    the [Throw] constructor of [Except], and the host primitives (snapshot,
    click, dialog, script) as functions on an abstract host state. *)

From Stdlib Require Import ZArith QArith List String Ascii Bool Lia.
From stdpp Require Import gmap strings list.

Local Open Scope string_scope.

(** ** JavaScript strings *)

Module Js.

(** The double quote and the apostrophe, by code point. *)
Definition dquote : ascii := ascii_of_nat 34.
Definition squote : ascii := ascii_of_nat 39.
Definition newline : ascii := ascii_of_nat 10.

(** [hay.includes(needle)]. *)
Fixpoint includes (hay needle : string) : bool :=
  String.prefix needle hay ||
  match hay with
  | EmptyString => false
  | String _ hay' => includes hay' needle
  end.

(** [s.split('\n')]: never empty, the empty string gives one empty line. *)
Fixpoint split_lines (s : string) : list string :=
  match s with
  | EmptyString => [EmptyString]
  | String c s' =>
      if Ascii.eqb c newline then EmptyString :: split_lines s'
      else match split_lines s' with
           | l :: ls => String c l :: ls
           | [] => [String c EmptyString]
           end
  end.

(** [s.substring(n)] for [n] within the string. *)
Fixpoint drop (n : nat) (s : string) : string :=
  match n, s with
  | O, _ => s
  | S n', String _ s' => drop n' s'
  | S _, EmptyString => EmptyString
  end.

(** The longest prefix of [s] free of the characters [stop], and the rest:
    what a greedy negated class [[^...]+] consumes. *)
Fixpoint span (stop : ascii -> bool) (s : string) : string * string :=
  match s with
  | EmptyString => (EmptyString, EmptyString)
  | String c s' =>
      if stop c then (EmptyString, s)
      else let (run, rest) := span stop s' in (String c run, rest)
  end.

(** One attempt of the regular expression [attr Q ([^Q]+) Q] at the start
    of [s], where [Q] is the class of quote characters [quote]. The greedy
    run is maximal, so it is followed by a quote or by the end of the
    string; giving characters back cannot make the closing quote match,
    hence the attempt succeeds exactly when the maximal run is not empty
    and a quote follows it. *)
Definition match_here (attr : string) (quote : ascii -> bool) (s : string)
  : option string :=
  if String.prefix attr s then
    match drop (String.length attr) s with
    | String q body =>
        if quote q then
          match span quote body with
          | (String c run, String _ _) => Some (String c run)
          | _ => None
          end
        else None
    | EmptyString => None
    end
  else None.

(** [line.match(re)] then [match[1]]: the leftmost attempt that succeeds. *)
Fixpoint match_handle (attr : string) (quote : ascii -> bool) (line : string)
  : option string :=
  match match_here attr quote line with
  | Some h => Some h
  | None =>
      match line with
      | EmptyString => None
      | String _ line' => match_handle attr quote line'
      end
  end.

(** Every character of [s] satisfies [p]. *)
Fixpoint all (p : ascii -> bool) (s : string) : bool :=
  match s with
  | EmptyString => true
  | String c s' => p c && all p s'
  end.

(** [lines.join] with the newline as separator. *)
Fixpoint join_lines (lines : list string) : string :=
  match lines with
  | [] => EmptyString
  | [l] => l
  | l :: rest => l +:+ String newline (join_lines rest)
  end.

(** A handle used as a condition: [null] and the empty string are falsy. *)
Definition truthy_handle (h : option string) : bool :=
  match h with
  | Some (String _ _) => true
  | _ => false
  end.

End Js.

(** ** JavaScript values and exceptions *)

#[warnings="-register-all"]
Inductive JsValue : Type :=
| JUndefined
| JNull
| JBool (b : bool)
| JNumber (n : Z)
| JString (s : string)
| JArray (items : list JsValue)
| JObject (props : list (string * JsValue)).

Inductive Except (A : Type) : Type :=
| Ok (a : A)
| Throw (message : string).
Arguments Ok {A} a.
Arguments Throw {A} message.

Definition bindE {A B} (x : Except A) (f : A -> Except B) : Except B :=
  match x with
  | Ok a => f a
  | Throw m => Throw m
  end.

Definition truthy (v : JsValue) : bool :=
  match v with
  | JUndefined | JNull => false
  | JBool b => b
  | JNumber n => negb (n =? 0)%Z
  | JString s => negb (String.eqb s "")
  | JArray _ | JObject _ => true
  end.

Fixpoint assoc (k : string) (props : list (string * JsValue)) : JsValue :=
  match props with
  | [] => JUndefined
  | (k', v) :: rest => if String.eqb k k' then v else assoc k rest
  end.

(** [v.content]: reading a property of [undefined] or [null] throws; a
    primitive or an array has no property of that name. *)
Definition get_content (v : JsValue) : Except JsValue :=
  match v with
  | JUndefined | JNull =>
      Throw "TypeError: Cannot read properties of undefined"
  | JObject props => Ok (assoc "content" props)
  | _ => Ok JUndefined
  end.

(** [v.split('\n')]: only strings have the method. *)
Definition split_method (v : JsValue) : Except (list string) :=
  match v with
  | JString s => Ok (Js.split_lines s)
  | _ => Throw "TypeError: split is not a function"
  end.

(** A candidate item: its handle and the snapshot line it was found on
    ([{uid, text}] in one form of the script, [{ref, text}] in the other). *)
Record Tweet : Type := mkTweet { handle : string; text : string }.

(** [isRepost(tweet)]: [tweet.text && (... || ... || ...)]. The result is the
    empty string itself when the text is empty, a boolean otherwise. The
    function is the same in both forms of the script. *)
Definition isRepost (tweet : Tweet) : JsValue :=
  if String.eqb (text tweet) "" then JString ""
  else JBool (Js.includes (text tweet) "Reposted" ||
              Js.includes (text tweet) "retweeted" ||
              Js.includes (text tweet) "repost").

(** The kind of a candidate, as the branch [if (isRepost(tweet))] decides. *)
Inductive Kind : Type := ordinaryPost | repost.

Definition kind (tweet : Tweet) : Kind :=
  if truthy (isRepost tweet) then repost else ordinaryPost.

(** A raw context contains one of the repost markers. *)
Definition has_marker (raw : string) : bool :=
  Js.includes raw "Reposted" || Js.includes raw "retweeted" ||
  Js.includes raw "repost".

(** ** URL derivation *)

(** The own properties of the object literal [CONTENT_TYPES]. *)
Definition CONTENT_TYPES : gmap string string :=
  <["POSTS" := ""]> (<["REPLIES" := "/with_replies"]> (<["REPOSTS" := ""]> ∅)).

(** [CONTENT_TYPES] is a plain object: a key it does not own is looked up on
    [Object.prototype], whose property names are these. *)
Definition Object_prototype : list string :=
  [ "constructor"; "toString"; "toLocaleString"; "valueOf"; "hasOwnProperty";
    "isPrototypeOf"; "propertyIsEnumerable"; "__proto__";
    "__defineGetter__"; "__defineSetter__";
    "__lookupGetter__"; "__lookupSetter__" ].

Definition inherited (key : string) : bool :=
  existsb (String.eqb key) Object_prototype.

(** What string concatenation makes of an inherited property: the source
    text of a built-in function, or the tag of the prototype object. *)
Definition inherited_text (key : string) : string :=
  if String.eqb key "__proto__" then "[object Object]"
  else "function " +:+
       (if String.eqb key "constructor" then "Object" else key) +:+
       "() { [native code] }".

(** [CONTENT_TYPES[contentType] || ''], already converted for [+]. An own
    value is a string, falsy when empty; an inherited one is truthy. *)
Definition suffix_of (contentType : string) : string :=
  match CONTENT_TYPES !! contentType with
  | Some s => if String.eqb s "" then "" else s
  | None => if inherited contentType then inherited_text contentType else ""
  end.

Definition baseUrl (username : string) : string := "https://x.com/" +:+ username.

Definition getProfileUrl (username contentType : string) : string :=
  baseUrl username +:+ suffix_of contentType.

(** ** The snapshot interpreter, Chrome DevTools form *)

Module DevTools.

(** The character class of the two quote characters. *)
Definition quote (c : ascii) : bool :=
  Ascii.eqb c Js.dquote || Ascii.eqb c Js.squote.

(** [line.match(re)] and its first group, for the expression that reads
    [uid=], a quote of either sort, one or more characters that are not
    quotes, and a quote of either sort. *)
Definition match_uid (line : string) : option string :=
  Js.match_handle "uid=" quote line.

(** [snapshot.content ? snapshot.content.split('\n') : []]. *)
Definition snapshot_lines (snapshot : JsValue) : Except (list string) :=
  bindE (get_content snapshot) (fun content =>
    if truthy content then split_method content else Ok []).

Fixpoint findTweetElements_loop (lines : list string) : list Tweet :=
  match lines with
  | [] => []
  | line :: rest =>
      if Js.includes line "article" then
        match match_uid line with
        | Some uid => mkTweet uid line :: findTweetElements_loop rest
        | None => findTweetElements_loop rest
        end
      else findTweetElements_loop rest
  end.

Definition findTweetElements (snapshot : JsValue) : Except (list Tweet) :=
  bindE (snapshot_lines snapshot) (fun lines =>
    Ok (findTweetElements_loop lines)).

(** The loop of [findMoreButtonInTweet]; [inTweetContext] is the flag. *)
Fixpoint findMoreButton_loop (uid : string) (inTweetContext : bool)
    (lines : list string) : option string :=
  match lines with
  | [] => None
  | line :: rest =>
      let inTweetContext := Js.includes line uid || inTweetContext in
      match
        (if inTweetContext &&
            (Js.includes line "More" || Js.includes line "caret")
         then match_uid line else None)
      with
      | Some found => Some found
      | None =>
          if inTweetContext && Js.includes line "article" &&
             negb (Js.includes line uid)
          then None
          else findMoreButton_loop uid inTweetContext rest
      end
  end.

Definition findMoreButtonInTweet (snapshot : JsValue) (tweet : Tweet)
  : Except (option string) :=
  bindE (snapshot_lines snapshot) (fun lines =>
    Ok (findMoreButton_loop (handle tweet) false lines)).

Fixpoint findDeleteButton_loop (lines : list string) : option string :=
  match lines with
  | [] => None
  | line :: rest =>
      if Js.includes line "Delete" || Js.includes line "delete" then
        match match_uid line with
        | Some found => Some found
        | None => findDeleteButton_loop rest
        end
      else findDeleteButton_loop rest
  end.

Definition findDeleteButton (snapshot : JsValue) : Except (option string) :=
  bindE (snapshot_lines snapshot) (fun lines =>
    Ok (findDeleteButton_loop lines)).

Fixpoint findUnretweetButton_loop (uid : string) (inTweetContext : bool)
    (lines : list string) : option string :=
  match lines with
  | [] => None
  | line :: rest =>
      let inTweetContext := Js.includes line uid || inTweetContext in
      match
        (if inTweetContext && Js.includes line "unretweet"
         then match_uid line else None)
      with
      | Some found => Some found
      | None =>
          if inTweetContext && Js.includes line "article" &&
             negb (Js.includes line uid)
          then None
          else findUnretweetButton_loop uid inTweetContext rest
      end
  end.

Definition findUnretweetButton (snapshot : JsValue) (tweet : Tweet)
  : Except (option string) :=
  bindE (snapshot_lines snapshot) (fun lines =>
    Ok (findUnretweetButton_loop (handle tweet) false lines)).

Fixpoint findUnretweetConfirmButton_loop (lines : list string)
  : option string :=
  match lines with
  | [] => None
  | line :: rest =>
      if Js.includes line "Undo" then
        match match_uid line with
        | Some found => Some found
        | None => findUnretweetConfirmButton_loop rest
        end
      else findUnretweetConfirmButton_loop rest
  end.

Definition findUnretweetConfirmButton (snapshot : JsValue)
  : Except (option string) :=
  bindE (snapshot_lines snapshot) (fun lines =>
    Ok (findUnretweetConfirmButton_loop lines)).

End DevTools.

(** ** The host and the effects of the controller *)

(** What the controller asks of the host, in the order it asks. The newest
    event is at the head of a log. *)
Inductive Event : Type :=
| EvNavigate (url : string)
| EvSnapshot (snapshot : JsValue)
| EvClick (target : string)
| EvDialog
| EvScript (source : string).

(** The host primitives ([mcpTools]) over an abstract host state [H]: each
    call may change the page and may raise. *)
Record Tools (H : Type) : Type := mkTools {
  navigate_page : string -> H -> Except unit * H;
  take_snapshot : H -> Except JsValue * H;
  click : string -> H -> Except unit * H;
  handle_dialog : H -> Except unit * H;
  evaluate_script : string -> H -> Except unit * H
}.
Arguments navigate_page {H} _ _ _.
Arguments take_snapshot {H} _ _.
Arguments click {H} _ _ _.
Arguments handle_dialog {H} _ _.
Arguments evaluate_script {H} _ _ _.

Record World (H : Type) : Type := mkWorld { host : H; log : list Event }.
Arguments mkWorld {H} host log.
Arguments host {H} _.
Arguments log {H} _.

(** An [async] computation: it runs on the world and returns or throws. *)
Definition M (H A : Type) : Type := World H -> Except A * World H.

Definition ret {H A} (a : A) : M H A := fun w => (Ok a, w).

Definition bind {H A B} (c : M H A) (k : A -> M H B) : M H B :=
  fun w =>
    match c w with
    | (Ok a, w') => k a w'
    | (Throw m, w') => (Throw m, w')
    end.

Notation "'let*' x ':=' c 'in' k" := (bind c (fun x => k))
  (at level 10, x name, c at level 100, k at level 200).

Definition liftE {H A} (x : Except A) : M H A := fun w => (x, w).

(** [try { body } catch (error) { handler }]. *)
Definition try_catch {H A} (body : M H A) (handler : string -> M H A) : M H A :=
  fun w =>
    match body w with
    | (Ok a, w') => (Ok a, w')
    | (Throw m, w') => handler m w'
    end.

(** [await delay(ms)]: time is not modelled, the pause changes nothing. *)
Definition delay {H} (ms : nat) : M H unit := ret tt.

Section Primitives.
Context {H : Type} (tools : Tools H).

Definition record (e : Event) (r : Except unit * H) (w : World H)
  : Except unit * World H :=
  (fst r, mkWorld (snd r) (e :: log w)).

Definition do_navigate (url : string) : M H unit :=
  fun w => record (EvNavigate url) (navigate_page tools url (host w)) w.

(** A capture that raises yields no snapshot and leaves no event. *)
Definition do_snapshot : M H JsValue :=
  fun w =>
    match take_snapshot tools (host w) with
    | (Ok s, h) => (Ok s, mkWorld h (EvSnapshot s :: log w))
    | (Throw m, h) => (Throw m, mkWorld h (log w))
    end.

Definition do_click (target : string) : M H unit :=
  fun w => record (EvClick target) (click tools target (host w)) w.

Definition do_dialog : M H unit :=
  fun w => record EvDialog (handle_dialog tools (host w)) w.

Definition do_script (source : string) : M H unit :=
  fun w => record (EvScript source) (evaluate_script tools source (host w)) w.

End Primitives.

(** How the [try] block of one iteration was left: by falling through to
    the code after it, or by [continue]. *)
Inductive Flow : Type := Normal | ContinueLoop.

(** The variables of the loop of [deleteContent]; [hasMore] stays [true]
    until the [break], which [Finished] models. *)
Record LoopVars : Type := mkVars {
  deletedCount : nat;
  consecutiveEmptyAttempts : nat
}.

Inductive Step : Type :=
| Again (vars : LoopVars)
| Finished (vars : LoopVars).

Definition MAX_EMPTY_ATTEMPTS : nat := 3.

(** ** The pagination controller, Chrome DevTools form *)

Module DevToolsController.
Import DevTools.

Module CONFIG.
Definition betweenClicks : nat := 500.
Definition afterDeletion : nat := 1000.
Definition scrollLoad : nat := 3000.
Definition rateLimitSafe : nat := 1000.
Definition scrollAmount : string := "150".
End CONFIG.

Definition scroll_300 : string := "() => { window.scrollBy(0, 300); }".
Definition scroll_150 : string := "() => { window.scrollBy(0, 150); }".
Definition scroll_config : string :=
  "() => { window.scrollBy(0, " +:+ CONFIG.scrollAmount +:+ "); }".

Section Controller.
Context {H : Type} (tools : Tools H).

(** The branch [if (isRepost(tweet))] of the [try] block. [deletedCount]
    is incremented last, after every call that can raise, so that the
    value at a [catch] is the value at the start of the block. *)
Definition repost_path (snapshot : JsValue) (tweet : Tweet)
    (deletedCount : nat) : M H (Flow * nat) :=
  let* unretweetUid := liftE (findUnretweetButton snapshot tweet) in
  if Js.truthy_handle unretweetUid then
    let* _ := do_click tools (default "" unretweetUid) in
    let* _ := delay CONFIG.betweenClicks in
    let* confirmSnapshot := do_snapshot tools in
    let* confirmUid := liftE (findUnretweetConfirmButton confirmSnapshot) in
    if Js.truthy_handle confirmUid then
      let* _ := do_click tools (default "" confirmUid) in
      let* _ := delay CONFIG.afterDeletion in
      ret (Normal, S deletedCount)
    else ret (Normal, deletedCount)
  else ret (Normal, deletedCount).

(** The [else] branch: the regular deletion flow. *)
Definition ordinary_path (snapshot : JsValue) (tweet : Tweet)
    (deletedCount : nat) : M H (Flow * nat) :=
  let* moreButtonUid := liftE (findMoreButtonInTweet snapshot tweet) in
  if negb (Js.truthy_handle moreButtonUid) then
    ret (ContinueLoop, deletedCount)
  else
    let* _ := do_click tools (default "" moreButtonUid) in
    let* _ := delay CONFIG.betweenClicks in
    let* menuSnapshot := do_snapshot tools in
    let* deleteButtonUid := liftE (findDeleteButton menuSnapshot) in
    if negb (Js.truthy_handle deleteButtonUid) then
      ret (ContinueLoop, deletedCount)
    else
      let* _ := do_click tools (default "" deleteButtonUid) in
      let* _ := delay CONFIG.betweenClicks in
      let* _ := do_dialog tools in
      let* _ := delay CONFIG.afterDeletion in
      ret (Normal, S deletedCount).

(** The [try] block: one of the two paths, then the pacing pause. *)
Definition try_block (snapshot : JsValue) (tweet : Tweet)
    (deletedCount : nat) : M H (Flow * nat) :=
  let* r :=
    (if truthy (isRepost tweet)
     then repost_path snapshot tweet deletedCount
     else ordinary_path snapshot tweet deletedCount) in
  match fst r with
  | ContinueLoop => ret r
  | Normal => let* _ := delay CONFIG.rateLimitSafe in ret r
  end.

(** The [catch] block: scroll past the item and wait. *)
Definition catch_block (deletedCount : nat) (message : string)
  : M H (Flow * nat) :=
  let* _ := do_script tools scroll_150 in
  let* _ := delay CONFIG.scrollLoad in
  ret (Normal, deletedCount).

(** One iteration of [while (hasMore)]: one scan cycle. *)
Definition iteration (vars : LoopVars) : M H Step :=
  let* snapshot := do_snapshot tools in
  let* tweets := liftE (findTweetElements snapshot) in
  match tweets with
  | [] =>
      let attempts := S (consecutiveEmptyAttempts vars) in
      if (MAX_EMPTY_ATTEMPTS <=? attempts)%nat then
        ret (Finished (mkVars (deletedCount vars) attempts))
      else
        let* _ := do_script tools scroll_300 in
        let* _ := delay CONFIG.scrollLoad in
        ret (Again (mkVars (deletedCount vars) attempts))
  | tweet :: _ =>
      let* r := try_catch (try_block snapshot tweet (deletedCount vars))
                          (catch_block (deletedCount vars)) in
      match fst r with
      | ContinueLoop => ret (Again (mkVars (snd r) 0))
      | Normal =>
          let* _ := do_script tools scroll_config in
          let* _ := delay CONFIG.scrollLoad in
          ret (Again (mkVars (snd r) 0))
      end
  end.

(** The loop, for at most [fuel] iterations: [None] when it is still
    running after them, [Some deletedCount] when it has returned. *)
Fixpoint while_hasMore (fuel : nat) (vars : LoopVars) : M H (option nat) :=
  match fuel with
  | O => ret None
  | S fuel' =>
      let* step := iteration vars in
      match step with
      | Finished vars' => ret (Some (deletedCount vars'))
      | Again vars' => while_hasMore fuel' vars'
      end
  end.

Definition deleteContent (fuel : nat) (username contentType : string)
  : M H (option nat) :=
  let url := getProfileUrl username contentType in
  let* _ := do_navigate tools url in
  let* _ := delay CONFIG.scrollLoad in
  while_hasMore fuel (mkVars 0 0).

End Controller.
End DevToolsController.

(** ** The snapshot interpreter and the controller, Playwright form *)

Module Playwright.

Definition quote (c : ascii) : bool := Ascii.eqb c Js.dquote.

(** [line.match(re)] and its first group, for the expression that reads
    [ref=], a double quote, one or more characters other than a double
    quote, and a double quote. *)
Definition match_ref (line : string) : option string :=
  Js.match_handle "ref=" quote line.

Definition is_string (v : JsValue) : bool :=
  match v with JString _ => true | _ => false end.

(** [const content = snapshot.content || snapshot || ''] and then
    [typeof content === 'string' ? content.split('\n') : []]. *)
Definition snapshot_lines (snapshot : JsValue) : Except (list string) :=
  bindE (get_content snapshot) (fun own =>
    let content :=
      if truthy own then own
      else if truthy snapshot then snapshot
      else JString "" in
    if is_string content then split_method content else Ok []).

Fixpoint findTweetElements_loop (lines : list string) : list Tweet :=
  match lines with
  | [] => []
  | line :: rest =>
      if Js.includes line "article" then
        match match_ref line with
        | Some ref => mkTweet ref line :: findTweetElements_loop rest
        | None => findTweetElements_loop rest
        end
      else findTweetElements_loop rest
  end.

Definition findTweetElements (snapshot : JsValue) : Except (list Tweet) :=
  bindE (snapshot_lines snapshot) (fun lines =>
    Ok (findTweetElements_loop lines)).

Fixpoint findMoreButton_loop (ref : string) (inTweetContext : bool)
    (lines : list string) : option string :=
  match lines with
  | [] => None
  | line :: rest =>
      let inTweetContext := Js.includes line ref || inTweetContext in
      match
        (if inTweetContext &&
            (Js.includes line "More" || Js.includes line "caret")
         then match_ref line else None)
      with
      | Some found => Some found
      | None =>
          if inTweetContext && Js.includes line "article" &&
             negb (Js.includes line ref)
          then None
          else findMoreButton_loop ref inTweetContext rest
      end
  end.

Definition findMoreButtonInTweet (snapshot : JsValue) (tweet : Tweet)
  : Except (option string) :=
  bindE (snapshot_lines snapshot) (fun lines =>
    Ok (findMoreButton_loop (handle tweet) false lines)).

Fixpoint findDeleteButton_loop (lines : list string) : option string :=
  match lines with
  | [] => None
  | line :: rest =>
      if Js.includes line "Delete" || Js.includes line "delete" then
        match match_ref line with
        | Some found => Some found
        | None => findDeleteButton_loop rest
        end
      else findDeleteButton_loop rest
  end.

Definition findDeleteButton (snapshot : JsValue) : Except (option string) :=
  bindE (snapshot_lines snapshot) (fun lines =>
    Ok (findDeleteButton_loop lines)).

Fixpoint findConfirmButton_loop (lines : list string) : option string :=
  match lines with
  | [] => None
  | line :: rest =>
      if Js.includes line "confirmationSheetConfirm" ||
         (Js.includes line "Delete" && Js.includes line "button") then
        match match_ref line with
        | Some found => Some found
        | None => findConfirmButton_loop rest
        end
      else findConfirmButton_loop rest
  end.

Definition findConfirmButton (snapshot : JsValue) : Except (option string) :=
  bindE (snapshot_lines snapshot) (fun lines =>
    Ok (findConfirmButton_loop lines)).

Fixpoint findUnretweetButton_loop (ref : string) (inTweetContext : bool)
    (lines : list string) : option string :=
  match lines with
  | [] => None
  | line :: rest =>
      let inTweetContext := Js.includes line ref || inTweetContext in
      match
        (if inTweetContext && Js.includes line "unretweet"
         then match_ref line else None)
      with
      | Some found => Some found
      | None =>
          if inTweetContext && Js.includes line "article" &&
             negb (Js.includes line ref)
          then None
          else findUnretweetButton_loop ref inTweetContext rest
      end
  end.

Definition findUnretweetButton (snapshot : JsValue) (tweet : Tweet)
  : Except (option string) :=
  bindE (snapshot_lines snapshot) (fun lines =>
    Ok (findUnretweetButton_loop (handle tweet) false lines)).

Fixpoint findUnretweetConfirmButton_loop (lines : list string)
  : option string :=
  match lines with
  | [] => None
  | line :: rest =>
      if Js.includes line "Undo" || Js.includes line "unretweetConfirm" then
        match match_ref line with
        | Some found => Some found
        | None => findUnretweetConfirmButton_loop rest
        end
      else findUnretweetConfirmButton_loop rest
  end.

Definition findUnretweetConfirmButton (snapshot : JsValue)
  : Except (option string) :=
  bindE (snapshot_lines snapshot) (fun lines =>
    Ok (findUnretweetConfirmButton_loop lines)).

Module CONFIG.
Definition betweenClicks : nat := 150.
Definition afterDeletion : nat := 200.
Definition scrollLoad : nat := 600.
Definition rateLimitSafe : nat := 200.
Definition scrollAmount : string := "500".
End CONFIG.

Definition scroll_300 : string := "() => { window.scrollBy(0, 300); }".
Definition scroll_150 : string := "() => { window.scrollBy(0, 150); }".
Definition scroll_config : string :=
  "() => { window.scrollBy(0, " +:+ CONFIG.scrollAmount +:+ "); }".

Section Controller.
Context {H : Type} (tools : Tools H).

Definition repost_path (snapshot : JsValue) (tweet : Tweet)
    (deletedCount : nat) : M H (Flow * nat) :=
  let* unretweetRef := liftE (findUnretweetButton snapshot tweet) in
  if Js.truthy_handle unretweetRef then
    let* _ := do_click tools (default "" unretweetRef) in
    let* _ := delay CONFIG.betweenClicks in
    let* confirmSnapshot := do_snapshot tools in
    let* confirmRef := liftE (findUnretweetConfirmButton confirmSnapshot) in
    if Js.truthy_handle confirmRef then
      let* _ := do_click tools (default "" confirmRef) in
      let* _ := delay CONFIG.afterDeletion in
      ret (Normal, S deletedCount)
    else ret (Normal, deletedCount)
  else ret (Normal, deletedCount).

(** The regular deletion flow. The confirmation click is guarded by
    [if (confirmButtonRef)]; [deletedCount++] comes after the guard. *)
Definition ordinary_path (snapshot : JsValue) (tweet : Tweet)
    (deletedCount : nat) : M H (Flow * nat) :=
  let* moreButtonRef := liftE (findMoreButtonInTweet snapshot tweet) in
  if negb (Js.truthy_handle moreButtonRef) then
    ret (ContinueLoop, deletedCount)
  else
    let* _ := do_click tools (default "" moreButtonRef) in
    let* _ := delay CONFIG.betweenClicks in
    let* menuSnapshot := do_snapshot tools in
    let* deleteButtonRef := liftE (findDeleteButton menuSnapshot) in
    if negb (Js.truthy_handle deleteButtonRef) then
      ret (ContinueLoop, deletedCount)
    else
      let* _ := do_click tools (default "" deleteButtonRef) in
      let* _ := delay CONFIG.betweenClicks in
      let* confirmSnapshot := do_snapshot tools in
      let* confirmButtonRef := liftE (findConfirmButton confirmSnapshot) in
      let* _ :=
        (if Js.truthy_handle confirmButtonRef then
           let* _ := do_click tools (default "" confirmButtonRef) in
           delay CONFIG.afterDeletion
         else ret tt) in
      ret (Normal, S deletedCount).

Definition try_block (snapshot : JsValue) (tweet : Tweet)
    (deletedCount : nat) : M H (Flow * nat) :=
  let* r :=
    (if truthy (isRepost tweet)
     then repost_path snapshot tweet deletedCount
     else ordinary_path snapshot tweet deletedCount) in
  match fst r with
  | ContinueLoop => ret r
  | Normal => let* _ := delay CONFIG.rateLimitSafe in ret r
  end.

Definition catch_block (deletedCount : nat) (message : string)
  : M H (Flow * nat) :=
  let* _ := do_script tools scroll_150 in
  let* _ := delay CONFIG.scrollLoad in
  ret (Normal, deletedCount).

Definition iteration (vars : LoopVars) : M H Step :=
  let* snapshot := do_snapshot tools in
  let* tweets := liftE (findTweetElements snapshot) in
  match tweets with
  | [] =>
      let attempts := S (consecutiveEmptyAttempts vars) in
      if (MAX_EMPTY_ATTEMPTS <=? attempts)%nat then
        ret (Finished (mkVars (deletedCount vars) attempts))
      else
        let* _ := do_script tools scroll_300 in
        let* _ := delay CONFIG.scrollLoad in
        ret (Again (mkVars (deletedCount vars) attempts))
  | tweet :: _ =>
      let* r := try_catch (try_block snapshot tweet (deletedCount vars))
                          (catch_block (deletedCount vars)) in
      match fst r with
      | ContinueLoop => ret (Again (mkVars (snd r) 0))
      | Normal =>
          let* _ := do_script tools scroll_config in
          let* _ := delay CONFIG.scrollLoad in
          ret (Again (mkVars (snd r) 0))
      end
  end.

Fixpoint while_hasMore (fuel : nat) (vars : LoopVars) : M H (option nat) :=
  match fuel with
  | O => ret None
  | S fuel' =>
      let* step := iteration vars in
      match step with
      | Finished vars' => ret (Some (deletedCount vars'))
      | Again vars' => while_hasMore fuel' vars'
      end
  end.

Definition deleteContent (fuel : nat) (username contentType : string)
  : M H (option nat) :=
  let url := getProfileUrl username contentType in
  let* _ := do_navigate tools url in
  let* _ := delay CONFIG.scrollLoad in
  while_hasMore fuel (mkVars 0 0).

End Controller.
End Playwright.

(** ** Scripted hosts

    A host that serves the snapshots of a script one after the other and an
    empty page once the script is over: the feed generator of a test. *)

Module Scripted.

Definition empty_page : JsValue := JObject [("content", JString "")].

Definition serve (script : list JsValue) : Except JsValue * list JsValue :=
  match script with
  | [] => (Ok empty_page, [])
  | s :: rest => (Ok s, rest)
  end.

Definition accept {A} (h : A) : Except unit * A := (Ok tt, h).
Definition refuse {A} (h : A) : Except unit * A := (Throw "host error", h).

(** Every action succeeds. *)
Definition obliging : Tools (list JsValue) :=
  mkTools _ (fun _ => accept) serve (fun _ => accept) accept (fun _ => accept).

(** Snapshots are served, every other primitive raises. *)
Definition failing : Tools (list JsValue) :=
  mkTools _ (fun _ => accept) serve (fun _ => refuse) refuse (fun _ => refuse).

Definition page (content : string) : JsValue :=
  JObject [("content", JString content)].

Definition dq : string := String Js.dquote "".

(** The text of a page from its lines. *)
Definition unlines (lines : list string) : string := Js.join_lines lines.

Definition start (script : list JsValue) : World (list JsValue) :=
  mkWorld script [].

End Scripted.

(** ** Remove inactive followers *)

Module Followers.

Module CONFIG.
Definition inactiveDays : Z := 180.
Definition maxEmptyAttempts : nat := 3.
End CONFIG.

(** A [Date] object by its time value in milliseconds; [None] is the
    invalid date, whose time value is [NaN]. A date is always truthy. *)
Definition JsDate : Type := option Z.

Definition ms_per_day : positive := (1000 * 60 * 60 * 24)%positive.

(** [isInactive(lastTweetDate)], with [now] the value of [new Date()] and
    the argument [None] for [null] or [undefined]. The division is kept
    exact: time values are integers far below 2^53 and the quotient is
    compared with an integer, so rounding does not change the result.
    Every comparison with [NaN] is false. *)
Definition isInactive (now : Z) (lastTweetDate : option JsDate) : bool :=
  match lastTweetDate with
  | None => false
  | Some None => false
  | Some (Some t) =>
      let diffMs := (now - t)%Z in
      let diffDays := Qmake diffMs ms_per_day in
      negb (Qle_bool diffDays (inject_Z CONFIG.inactiveDays))
  end.

(** One cell of the followers list: what the script reads of it, the
    [href] of its first profile link, if it has one. *)
Record Cell : Type := mkCell { cell_id : nat; link_href : option string }.

Record Follower : Type := mkFollower { element : Cell; username : string }.

Definition slash : ascii := ascii_of_nat 47.

Fixpoint no_slash (s : string) : bool :=
  match s with
  | EmptyString => true
  | String c s' => negb (Ascii.eqb c slash) && no_slash s'
  end.

(** [href.match(re)] for the anchored expression: a slash, then one or
    more characters other than a slash, up to the end. *)
Definition profile_path (href : string) : bool :=
  match href with
  | String c (String c' rest) =>
      Ascii.eqb c slash && no_slash (String c' rest)
  | _ => false
  end.

Definition listed (names : list string) (name : string) : bool :=
  existsb (String.eqb name) names.

(** The [for] loop of [getFollowerElements] over the cells of the page. *)
Fixpoint collect (reserved : list string) (cells : list Cell)
  : list Follower :=
  match cells with
  | [] => []
  | cell :: rest =>
      match link_href cell with
      | Some href =>
          if negb (String.eqb href "") && profile_path href &&
             negb (Js.includes href "/status/")
          then
            let username := Js.drop 1 href in
            if negb (String.eqb username "") &&
               negb (listed reserved username)
            then mkFollower cell username :: collect reserved rest
            else collect reserved rest
          else collect reserved rest
      | None => collect reserved rest
      end
  end.

(** [followers.filter(f => { if (seen.has(..)) return false; seen.add(..);
    return true; })]. *)
Fixpoint dedupe (seen : gset string) (followers : list Follower)
  : list Follower :=
  match followers with
  | [] => []
  | f :: rest =>
      if decide (username f ∈ seen) then dedupe seen rest
      else f :: dedupe ({[username f]} ∪ seen) rest
  end.

(** The profile page as [checkUserActivity] reads it. *)
Record TweetNode : Type := mkTweetNode {
  (** [querySelector('time')], then [getAttribute('datetime')]. *)
  time_datetime : option (option string)
}.

Record ProfileDoc : Type := mkDoc {
  pageText : string;
  tweets : list TweetNode
}.

(** The object that [checkUserActivity] returns; an absent [skip] or
    [inactive] reads as [undefined], which is falsy. *)
Record Activity : Type := mkActivity {
  hasActivity : bool;
  reason : option string;
  skip : bool;
  lastTweetDate : option JsDate;
  inactive : bool
}.

Definition no_activity (why : string) : Activity :=
  mkActivity false (Some why) false None false.

Record ActionResult : Type := mkResult { success : bool; error : string }.

Record Performance : Type := mkPerformance {
  totalChecked : nat;
  totalRemoved : nat;
  totalSkipped : nat;
  totalFailed : nat;
  errors : list string;
  removedUsers : list string
}.

Definition checked (p : Performance) : Performance :=
  mkPerformance (S (totalChecked p)) (totalRemoved p) (totalSkipped p)
                (totalFailed p) (errors p) (removedUsers p).

Definition removed (user : string) (p : Performance) : Performance :=
  mkPerformance (totalChecked p) (S (totalRemoved p)) (totalSkipped p)
                (totalFailed p) (errors p) (removedUsers p ++ [user]).

Definition skipped (p : Performance) : Performance :=
  mkPerformance (totalChecked p) (totalRemoved p) (S (totalSkipped p))
                (totalFailed p) (errors p) (removedUsers p).

Definition failed (message : string) (p : Performance) : Performance :=
  mkPerformance (totalChecked p) (totalRemoved p) (totalSkipped p)
                (S (totalFailed p)) (errors p ++ [message]) (removedUsers p).

(** What a run does, newest first: a username enters
    [processedUsernames], the check of a follower begins (the console
    line that names it), a removal is attempted. *)
Inductive FEvent : Type :=
| Added (user : string)
| Checking (user : string)
| Removing (user : string).

Record State (H : Type) : Type := mkState {
  page : H;
  processedUsernames : gset string;
  consecutiveEmpty : nat;
  performance : Performance;
  events : list FEvent
}.
Arguments mkState {H} _ _ _ _ _.
Arguments page {H} _.
Arguments processedUsernames {H} _.
Arguments consecutiveEmpty {H} _.
Arguments performance {H} _.
Arguments events {H} _.

Definition with_page {H} (h : H) (st : State H) : State H :=
  mkState h (processedUsernames st) (consecutiveEmpty st)
          (performance st) (events st).

Definition with_performance {H} (f : Performance -> Performance)
    (st : State H) : State H :=
  mkState (page st) (processedUsernames st) (consecutiveEmpty st)
          (f (performance st)) (events st).

Definition emit {H} (e : FEvent) (st : State H) : State H :=
  mkState (page st) (processedUsernames st) (consecutiveEmpty st)
          (performance st) (e :: events st).

(** The skeleton shared by the two forms of the script: the [while (true)]
    loop around the list scan, the filter and the per-follower body. *)
Section Loop.
Context {H : Type}.
(** [document.querySelectorAll] on the followers page. *)
Variable query_cells : H -> list Cell.
(** [window.scrollBy(0, CONFIG.scrollAmount)]. *)
Variable scrollBy : H -> H.
Variable getFollowerElements : list Cell -> list Follower.
(** The [try]/[catch] of one follower, up to the end of the iteration. *)
Variable body : Follower -> State H -> State H.

Definition newFollowers (st : State H) : list Follower :=
  filter (λ f, username f ∉ processedUsernames st)
         (getFollowerElements (query_cells (page st))).

(** One iteration: [inl] to go on, [inr] at the [break]. *)
Definition iteration (st : State H) : State H + State H :=
  match newFollowers st with
  | [] =>
      let attempts := S (consecutiveEmpty st) in
      let st' := mkState (page st) (processedUsernames st) attempts
                         (performance st) (events st) in
      if (CONFIG.maxEmptyAttempts <=? attempts)%nat then inr st'
      else inl (with_page (scrollBy (page st')) st')
  | follower :: _ =>
      let st1 :=
        mkState (page st)
                ({[username follower]} ∪ processedUsernames st)
                0
                (checked (performance st))
                (Checking (username follower) ::
                 Added (username follower) :: events st) in
      inl (body follower st1)
  end.

(** [None] while the loop is still running after [fuel] iterations. *)
Fixpoint run (fuel : nat) (st : State H) : option (State H) :=
  match fuel with
  | O => None
  | S fuel' =>
      match iteration st with
      | inr st' => Some st'
      | inl st' => run fuel' st'
      end
  end.

(** The state after at most [fuel] iterations, finished or not. *)
Fixpoint progress (fuel : nat) (st : State H) : State H :=
  match fuel with
  | O => st
  | S fuel' =>
      match iteration st with
      | inr st' => st'
      | inl st' => progress fuel' st'
      end
  end.

End Loop.

(** The form that removes a follower by blocking and unblocking. *)
Module BlockUnblock.

Definition reserved : list string :=
  ["home"; "explore"; "notifications"; "messages"; "settings"].

Definition getFollowerElements (cells : list Cell) : list Follower :=
  collect reserved cells.

(** [checkUserActivity] once the profile page is loaded; [parse] is
    [new Date(datetime)]. *)
Definition checkUserActivity (now : Z) (parse : string -> JsDate)
    (doc : ProfileDoc) : Activity :=
  match tweets doc with
  | [] => no_activity "no_tweets_visible"
  | firstTweet :: _ =>
      match time_datetime firstTweet with
      | None => no_activity "no_timestamp"
      | Some (Some (String c d)) =>
          let date := parse (String c d) in
          let inactive := isInactive now (Some date) in
          mkActivity (negb inactive) None false (Some date) inactive
      | Some _ => no_activity "parse_error"
      end
  end.

Record Browser (H : Type) : Type := mkBrowser {
  query_cells : H -> list Cell;
  scrollBy : H -> H;
  (** Load the profile of a user and read the page; may raise. *)
  open_profile : string -> H -> Except ProfileDoc * H;
  blockUser : string -> H -> Except ActionResult * H;
  unblockUser : string -> H -> Except ActionResult * H;
  (** [window.location.href = followersUrl]. *)
  back_to_list : H -> H;
  clock : H -> Z
}.
Arguments query_cells {H} _ _.
Arguments scrollBy {H} _ _.
Arguments open_profile {H} _ _ _.
Arguments blockUser {H} _ _ _.
Arguments unblockUser {H} _ _ _.
Arguments back_to_list {H} _ _.
Arguments clock {H} _ _.

Section Body.
Context {H : Type} (browser : Browser H) (parse : string -> JsDate).

Definition caught (user message : string) (h : H) (st : State H)
  : State H :=
  with_page (back_to_list browser h)
    (with_performance (failed ("Error: " +:+ user +:+ " - " +:+ message)) st).

Definition body (follower : Follower) (st : State H) : State H :=
  let user := username follower in
  match open_profile browser user (page st) with
  | (Throw m, h) => caught user m h st
  | (Ok doc, h) =>
      let activity := checkUserActivity (clock browser h) parse doc in
      if inactive activity then
        let st := emit (Removing user) st in
        match blockUser browser user h with
        | (Throw m, h) => caught user m h st
        | (Ok blockResult, h) =>
            if success blockResult then
              match unblockUser browser user h with
              | (Throw m, h) => caught user m h st
              | (Ok unblockResult, h) =>
                  with_page (back_to_list browser h)
                    (with_performance
                       (if success unblockResult then removed user
                        else failed ("Unblock failed: " +:+ user))
                       st)
              end
            else
              with_page (back_to_list browser h)
                (with_performance
                   (failed ("Block failed: " +:+ user +:+ " - " +:+
                            error blockResult))
                   st)
        end
      else
        with_page (back_to_list browser h) (with_performance skipped st)
  end.

Definition main (fuel : nat) (st : State H) : option (State H) :=
  run (query_cells browser) (scrollBy browser) getFollowerElements
      body fuel st.

Definition main_progress (fuel : nat) (st : State H) : State H :=
  progress (query_cells browser) (scrollBy browser) getFollowerElements
           body fuel st.

End Body.
End BlockUnblock.

(** The form that checks profiles in a popup window and removes with the
    menu of the follower's own card. *)
Module Popup.

Definition reserved : list string :=
  ["home"; "explore"; "notifications"; "messages"; "settings"; "i"].

Definition getFollowerElements (cells : list Cell) : list Follower :=
  dedupe ∅ (collect reserved cells).

(** [checkUserActivity(popup, username)]; reading [popup.document] may
    raise, which the function's own [catch] turns into a result. *)
Definition checkUserActivity (now : Z) (parse : string -> JsDate)
    (document : Except ProfileDoc) : Activity :=
  match document with
  | Throw m => no_activity ("error: " +:+ m)
  | Ok doc =>
      if Js.includes (pageText doc) "These posts are protected" ||
         Js.includes (pageText doc) "posts are protected"
      then mkActivity true (Some "protected_account") true None false
      else
        match tweets doc with
        | [] => no_activity "no_tweets_visible"
        | firstTweet :: _ =>
            match time_datetime firstTweet with
            | None => no_activity "no_timestamp"
            | Some (Some (String c d)) =>
                let date := parse (String c d) in
                let inactive := isInactive now (Some date) in
                mkActivity (negb inactive) None false (Some date) inactive
            | Some _ => no_activity "parse_error"
            end
        end
  end.

Record Browser (H : Type) : Type := mkBrowser {
  query_cells : H -> list Cell;
  scrollBy : H -> H;
  (** [window.open]: [false] when the popup was blocked; may raise. *)
  window_open : string -> H -> Except bool * H;
  waitForPopupLoad : H -> bool * H;
  popup_document : H -> Except ProfileDoc;
  popup_close : H -> H;
  (** [removeFollower] has a [catch] of its own and always returns. *)
  removeFollower : Follower -> H -> ActionResult * H;
  clock : H -> Z
}.
Arguments query_cells {H} _ _.
Arguments scrollBy {H} _ _.
Arguments window_open {H} _ _ _.
Arguments waitForPopupLoad {H} _ _.
Arguments popup_document {H} _ _.
Arguments popup_close {H} _ _.
Arguments removeFollower {H} _ _ _.
Arguments clock {H} _ _.

Section Body.
Context {H : Type} (browser : Browser H) (parse : string -> JsDate).

Definition body (follower : Follower) (st : State H) : State H :=
  let user := username follower in
  match window_open browser ("https://x.com/" +:+ user) (page st) with
  | (Throw m, h) =>
      with_page h
        (with_performance (failed ("Error: " +:+ user +:+ " - " +:+ m)) st)
  | (Ok false, h) =>
      with_page h (with_performance (failed ("Popup blocked: " +:+ user)) st)
  | (Ok true, h) =>
      match waitForPopupLoad browser h with
      | (false, h) =>
          with_page (popup_close browser h)
            (with_performance (failed ("Load failed: " +:+ user)) st)
      | (true, h) =>
          let activity :=
            checkUserActivity (clock browser h) parse
                              (popup_document browser h) in
          let h := popup_close browser h in
          if skip activity then
            with_page h (with_performance skipped st)
          else if inactive activity then
            let st := emit (Removing user) st in
            let (removeResult, h) := removeFollower browser follower h in
            with_page h
              (with_performance
                 (if success removeResult then removed user
                  else failed ("Remove failed: " +:+ user +:+ " - " +:+
                               error removeResult))
                 st)
          else
            with_page h (with_performance skipped st)
      end
  end.

Definition main (fuel : nat) (st : State H) : option (State H) :=
  run (query_cells browser) (scrollBy browser) getFollowerElements
      body fuel st.

Definition main_progress (fuel : nat) (st : State H) : State H :=
  progress (query_cells browser) (scrollBy browser) getFollowerElements
           body fuel st.

End Body.
End Popup.

Definition initial {H} (h : H) : State H :=
  mkState h ∅ 0 (mkPerformance 0 0 0 0 [] []) [].

(** The usernames added to [processedUsernames], newest first. *)
Fixpoint added (l : list FEvent) : list string :=
  match l with
  | [] => []
  | Added user :: older => user :: added older
  | _ :: older => added older
  end.

(** The usernames whose check began, newest first. *)
Fixpoint checking (l : list FEvent) : list string :=
  match l with
  | [] => []
  | Checking user :: older => user :: checking older
  | _ :: older => checking older
  end.

(** Every check begins directly after its username entered the set. *)
Fixpoint AddedFirst (l : list FEvent) : Prop :=
  match l with
  | [] => True
  | Checking user :: older =>
      match older with
      | Added user' :: _ => user' = user
      | _ => False
      end /\ AddedFirst older
  | _ :: older => AddedFirst older
  end.

(** The discipline of [processedUsernames] in a state of the loop: the
    usernames added are pairwise distinct, they are the members of the
    set, the checks begun are the checks of exactly those usernames, and
    each began directly after its username was added. *)
Definition Disciplined {H} (st : State H) : Prop :=
  NoDup (added (events st)) /\
  checking (events st) = added (events st) /\
  AddedFirst (events st) /\
  (forall user, user ∈ added (events st) <-> user ∈ processedUsernames st).

(** What a run shows at the state [st], the candidates of the next scan
    being [candidates st]: no username was checked twice, every check began
    directly after its username entered the set, the usernames checked are
    in the set, and no candidate of the next scan is. *)
Definition CheckedOnce {H} (candidates : State H -> list Follower)
    (st : State H) : Prop :=
  NoDup (checking (events st)) /\
  AddedFirst (events st) /\
  (forall user, user ∈ checking (events st) ->
                user ∈ processedUsernames st) /\
  (forall f, f ∈ candidates st -> username f ∉ processedUsernames st).


(** What a body may do to the state of the loop: it leaves
    [processedUsernames] alone and records at most a removal attempt on
    the follower it was given. *)
Definition modest {H} (body : Follower -> State H -> State H) : Prop :=
  forall follower st,
    processedUsernames (body follower st) = processedUsernames st /\
    (events (body follower st) = events st \/
     events (body follower st) = Removing (username follower) :: events st).

End Followers.

(** ** Concrete snapshots and hosts *)

Module Examples.
Import Scripted.

(** Two adjacent containers, each with one More button of its own. The
    text of the first item happens to contain the handle of the second. *)
Definition two_items : JsValue :=
  page (unlines [ "article uid='10'";
                  "  text 'posted 12 hours ago'";
                  "  button 'More' uid='11'";
                  "article uid='12'";
                  "  button 'More' uid='13'" ]).

Definition item_A : Tweet := mkTweet "10" "article uid='10'".
Definition item_B : Tweet := mkTweet "12" "article uid='12'".

(** A tool result as the Model Context Protocol shapes it: [content] is an
    array of parts. *)
Definition mcp_result : JsValue :=
  JObject [("content",
            JArray [JObject [("type", JString "text");
                             ("text", JString "article uid='1'")]])].

Definition attr (name value : string) : string :=
  name +:+ "=" +:+ dq +:+ value +:+ dq.

(** One ordinary post, its menu, and a page on which no confirmation
    control can be found (Playwright form). *)
Definition pw_feed : JsValue :=
  page (unlines [ "article [" +:+ attr "ref" "e1" +:+ "]";
                  "  button More [" +:+ attr "ref" "e2" +:+ "]" ]).
Definition pw_menu : JsValue :=
  page ("menuitem Delete [" +:+ attr "ref" "e9" +:+ "]").
Definition pw_no_confirm : JsValue := page "main timeline".

(** One ordinary post and its menu (Chrome DevTools form). *)
Definition dt_feed : JsValue :=
  page (unlines [ "article uid='1'"; "  button More uid='2'" ]).
Definition dt_menu : JsValue := page "menuitem Delete uid='9'".

(** A post whose More button cannot be found. *)
Definition dt_bare : JsValue := page "article uid='1'".

(** A repost with its undo control, and the confirmation that follows. *)
Definition dt_repost : JsValue :=
  page (unlines [ "article 'You reposted' uid='5'";
                  "  button unretweet uid='6'" ]).
Definition dt_undo : JsValue := page "menuitem 'Undo repost' uid='7'".

(** The feed of a test: [K] ordinary posts, each served with its menu. *)
Fixpoint feed_of (K : nat) : list JsValue :=
  match K with
  | O => []
  | S K' => dt_feed :: dt_menu :: feed_of K'
  end.

End Examples.

(** ** What the properties speak of *)

(** The handles passed to the click primitive, newest first. *)
Fixpoint clicks (l : list Event) : list string :=
  match l with
  | [] => []
  | EvClick target :: older => target :: clicks older
  | _ :: older => clicks older
  end.

Module Staleness.

(** The handle [target] was read from [snapshot] by one of the lookups of
    the interpreter; the two lookups scoped to an item are taken at the
    first candidate of that same snapshot. Chrome DevTools form. *)
Definition extracted_uid (snapshot : JsValue) (target : string) : Prop :=
  (exists tweet rest,
      DevTools.findTweetElements snapshot = Ok (tweet :: rest) /\
      (DevTools.findMoreButtonInTweet snapshot tweet = Ok (Some target) \/
       DevTools.findUnretweetButton snapshot tweet = Ok (Some target))) \/
  DevTools.findDeleteButton snapshot = Ok (Some target) \/
  DevTools.findUnretweetConfirmButton snapshot = Ok (Some target).

(** The same for the Playwright form, which has one lookup more. *)
Definition extracted_ref (snapshot : JsValue) (target : string) : Prop :=
  (exists tweet rest,
      Playwright.findTweetElements snapshot = Ok (tweet :: rest) /\
      (Playwright.findMoreButtonInTweet snapshot tweet = Ok (Some target) \/
       Playwright.findUnretweetButton snapshot tweet = Ok (Some target))) \/
  Playwright.findDeleteButton snapshot = Ok (Some target) \/
  Playwright.findConfirmButton snapshot = Ok (Some target) \/
  Playwright.findUnretweetConfirmButton snapshot = Ok (Some target).

(** Every click in the log comes directly after the capture of the
    snapshot its handle was read from: between that capture and the click
    the host was asked for nothing, so no later snapshot exists and no
    action has touched the page. *)
Fixpoint Fresh (extracted : JsValue -> string -> Prop) (l : list Event)
  : Prop :=
  match l with
  | [] => True
  | EvClick target :: older =>
      match older with
      | EvSnapshot snapshot :: _ => extracted snapshot target
      | _ => False
      end /\ Fresh extracted older
  | _ :: older => Fresh extracted older
  end.

(** A world whose newest event is the capture of [snapshot], over a
    fresh log. *)
Definition just_captured {H} (extracted : JsValue -> string -> Prop)
    (snapshot : JsValue) (w : World H) : Prop :=
  exists older,
    log w = EvSnapshot snapshot :: older /\ Fresh extracted older.

End Staleness.

Module Feed.
Import DevTools DevToolsController.

Section Feed.
Context {H : Type} (tools : Tools H).

(** The result of the [try] block entered with a count of [n], from
    its result when entered with a count of zero. *)
Definition shift (n : nat) (r : Except (Flow * nat)) : Except (Flow * nat) :=
  match r with
  | Ok (flow, d) => Ok (flow, n + d)
  | Throw m => Throw m
  end.

(** How an iteration goes on after the [try] block returned or threw
    [r] in world [w2], when the action on the item changed the count by
    [d]: the scroll that ends the iteration, nothing after a
    [continue], both scrolls after a [catch]. *)
Definition settles (d : nat) (r : Except (Flow * nat)) (w2 w' : World H)
  : Prop :=
  match r with
  | Ok (Normal, d') =>
      d' = d /\ do_script tools scroll_config w2 = (Ok tt, w')
  | Ok (ContinueLoop, d') => d' = d /\ w2 = w'
  | Throw _ =>
      d = 0 /\
      exists w3, do_script tools scroll_150 w2 = (Ok tt, w3) /\
                 do_script tools scroll_config w3 = (Ok tt, w')
  end.

(** A scan cycle from [w] to [w'] that finds candidates and whose
    action on the first one deletes [d] items: one when the action
    succeeds, none when it fails. *)
Definition acts (d : nat) (w w' : World H) : Prop :=
  exists snapshot w1 tweet rest,
    do_snapshot tools w = (Ok snapshot, w1) /\
    findTweetElements snapshot = Ok (tweet :: rest) /\
    settles d (fst (try_block tools snapshot tweet 0 w1))
              (snd (try_block tools snapshot tweet 0 w1)) w'.

(** The next [n] scan cycles find no candidate, and the scroll between
    two of them works. *)
Fixpoint EmptyScans (n : nat) (w : World H) : Prop :=
  match n with
  | O => True
  | S n' =>
      exists snapshot w1,
        do_snapshot tools w = (Ok snapshot, w1) /\
        findTweetElements snapshot = Ok [] /\
        match n' with
        | O => True
        | S _ =>
            exists w', do_script tools scroll_300 w1 = (Ok tt, w') /\
                       EmptyScans n' w'
        end
  end.

(** A feed that yields candidates for exactly [K] scan cycles, the
    action deleting [d] items in each, and nothing on the scans after. *)
Fixpoint Yields (d K : nat) (w : World H) : Prop :=
  match K with
  | O => EmptyScans MAX_EMPTY_ATTEMPTS w
  | S K' => exists w', acts d w w' /\ Yields d K' w'
  end.

(** The same three notions as functions that run the host: the world
    after an item cycle that deletes [d] items, if the cycle at [w] is
    one; whether the next [n] scans are empty; whether the feed is as
    [Yields] says. *)
Definition after_try (d : nat) (r : Except (Flow * nat)) (w2 : World H)
  : option (World H) :=
  match r with
  | Ok (Normal, d') =>
      if (d' =? d)%nat then
        match do_script tools scroll_config w2 with
        | (Ok _, w') => Some w'
        | _ => None
        end
      else None
  | Ok (ContinueLoop, d') => if (d' =? d)%nat then Some w2 else None
  | Throw _ =>
      if (d =? 0)%nat then
        match do_script tools scroll_150 w2 with
        | (Ok _, w3) =>
            match do_script tools scroll_config w3 with
            | (Ok _, w') => Some w'
            | _ => None
            end
        | _ => None
        end
      else None
  end.

Definition item_cycle (d : nat) (w : World H) : option (World H) :=
  match do_snapshot tools w with
  | (Ok snapshot, w1) =>
      match findTweetElements snapshot with
      | Ok (tweet :: _) =>
          after_try d (fst (try_block tools snapshot tweet 0 w1))
                      (snd (try_block tools snapshot tweet 0 w1))
      | _ => None
      end
  | _ => None
  end.

Fixpoint empty_scans (n : nat) (w : World H) : bool :=
  match n with
  | O => true
  | S n' =>
      match do_snapshot tools w with
      | (Ok snapshot, w1) =>
          match findTweetElements snapshot with
          | Ok [] =>
              match n' with
              | O => true
              | S _ =>
                  match do_script tools scroll_300 w1 with
                  | (Ok _, w') => empty_scans n' w'
                  | _ => false
                  end
              end
          | _ => false
          end
      | _ => false
      end
  end.

Fixpoint yields (d K : nat) (w : World H) : bool :=
  match K with
  | O => empty_scans MAX_EMPTY_ATTEMPTS w
  | S K' =>
      match item_cycle d w with
      | Some w' => yields d K' w'
      | None => false
      end
  end.

End Feed.
End Feed.

(** ** What the further properties speak of *)

Module Lines.

Definition found (o : option string) : bool :=
  match o with
  | Some _ => true
  | None => false
  end.

(** A line that [findTweetElements] takes for an item container. *)
Definition is_container_uid (line : string) : bool :=
  Js.includes line "article" && found (DevTools.match_uid line).

Definition is_container_ref (line : string) : bool :=
  Js.includes line "article" && found (Playwright.match_ref line).

(** A line that mentions one of two words. *)
Definition mentions (word word' line : string) : bool :=
  Js.includes line word || Js.includes line word'.

(** A handle as the expressions of the interpreter capture it: not empty
    and free of the quote characters [quote]. *)
Definition well_formed (quote : ascii -> bool) (h : string) : Prop :=
  h <> "" /\ Js.all (fun c => negb (quote c)) h = true.

End Lines.

Module Carried.

(** The handle [h] is the first handle of a line of the snapshot that
    satisfies [wanted] (Chrome DevTools form). *)
Definition by_line (snapshot : JsValue) (wanted : string -> bool)
    (h : string) : Prop :=
  exists lines line,
    DevTools.snapshot_lines snapshot = Ok lines /\
    line ∈ lines /\ wanted line = true /\
    DevTools.match_uid line = Some h.

End Carried.

Module Reliable.
Import DevTools.

Section Reliable.
Context {H : Type} (tools : Tools H).

(** Hosts on which a snapshot can always be captured and read, a script
    always runs, and a page always loads: the primitives that the loop
    calls outside its [try] block. *)
Definition snapshots_work : Prop :=
  forall h, exists snapshot h' tweets,
    take_snapshot tools h = (Ok snapshot, h') /\
    findTweetElements snapshot = Ok tweets.

Definition scripts_work : Prop :=
  forall source h, exists h', evaluate_script tools source h = (Ok tt, h').

Definition navigation_works : Prop :=
  forall url h, exists h', navigate_page tools url h = (Ok tt, h').

End Reliable.
End Reliable.

Module EmptyScans.
Import DevTools DevToolsController.

Definition empty_snapshot (snapshot : JsValue) : Prop :=
  findTweetElements snapshot = Ok [].

(** The newest events of the log are [c] empty scans, each followed by the
    scroll that looks for more ([c] below the maximum). *)
Definition trailing (c : nat) (l : list Event) : Prop :=
  match c with
  | 0 => True
  | 1 => exists s1 older,
           l = EvScript scroll_300 :: EvSnapshot s1 :: older /\
           empty_snapshot s1
  | 2 => exists s1 s2 older,
           l = EvScript scroll_300 :: EvSnapshot s2 ::
               EvScript scroll_300 :: EvSnapshot s1 :: older /\
           empty_snapshot s1 /\ empty_snapshot s2
  | _ => False
  end.

(** The log ends with three empty scans in a row, two scrolls between
    them and nothing after the third. *)
Definition ended_on_three (l : list Event) : Prop :=
  exists s1 s2 s3 older,
    l = EvSnapshot s3 :: EvScript scroll_300 :: EvSnapshot s2 ::
        EvScript scroll_300 :: EvSnapshot s1 :: older /\
    empty_snapshot s1 /\ empty_snapshot s2 /\ empty_snapshot s3.

End EmptyScans.

Module Counting.

Definition vars_of (step : Step) : LoopVars :=
  match step with Again vars | Finished vars => vars end.

(** What one scan cycle adds to the count, it has paid for in clicks. *)
Definition paid (vars : LoopVars) (l : list Event) (vars' : LoopVars)
    (l' : list Event) : Prop :=
  exists k, deletedCount vars' = deletedCount vars + k /\
            2 * k + length (clicks l) <= length (clicks l').

End Counting.

(** ** All content types *)

(** The object that [deleteAllContent] returns. *)
Record Summary : Type := mkSummary {
  posts : nat;
  replies : nat;
  reposts : nat;
  total : nat
}.

(** The addresses passed to the navigation primitive, newest first. *)
Fixpoint navigations (l : list Event) : list string :=
  match l with
  | [] => []
  | EvNavigate url :: older => url :: navigations older
  | _ :: older => navigations older
  end.

Module AllContent.
Section Controller.
Context {H : Type} (tools : Tools H).

(** [deleteAllContent] over a [deleteContent]; each of the two runs gets
    [fuel] iterations, and the whole is still running ([None]) when one of
    them is. *)
Definition sequence (deleteContent : string -> string -> M H (option nat))
    (username : string) : M H (option Summary) :=
  let summary := mkSummary 0 0 0 0 in
  let* p := deleteContent username "POSTS" in
  match p with
  | None => ret None
  | Some p =>
      let summary := mkSummary p (replies summary) (reposts summary)
                               (total summary) in
      let* r := deleteContent username "REPLIES" in
      match r with
      | None => ret None
      | Some r =>
          let summary := mkSummary (posts summary) r (reposts summary)
                                   (total summary) in
          let summary := mkSummary (posts summary) (replies summary)
                                   (reposts summary)
                                   (posts summary + replies summary) in
          ret (Some summary)
      end
  end.

Definition devtools_deleteAllContent (fuel : nat) (username : string)
  : M H (option Summary) :=
  sequence (DevToolsController.deleteContent tools fuel) username.

Definition playwright_deleteAllContent (fuel : nat) (username : string)
  : M H (option Summary) :=
  sequence (Playwright.deleteContent tools fuel) username.

End Controller.
End AllContent.

Module Listing.
Import Followers.

(** What makes a cell of the page a follower entry: its first profile link
    points to a slash followed by the username, which is not empty, holds
    no slash and is not one of the reserved names. *)
Definition candidate (reserved : list string) (cells : list Cell)
    (f : Follower) : Prop :=
  element f ∈ cells /\
  link_href (element f) = Some (String slash (username f)) /\
  username f <> "" /\
  no_slash (username f) = true /\
  listed reserved (username f) = false.

(** [f] stands in [followers] with no entry of the same username before
    it. *)
Definition first_of_its_name (followers : list Follower) (f : Follower)
  : Prop :=
  exists before after,
    followers = (before ++ f :: after)%list /\
    username f ∉ (username <$> before).

End Listing.

Module Ledger.
Import Followers.

(** What a body leaves alone: the set, the counter of empty scans, the
    checks begun and their count. *)
Definition steady {H} (body : Follower -> State H -> State H) : Prop :=
  forall follower st,
    processedUsernames (body follower st) = processedUsernames st /\
    consecutiveEmpty (body follower st) = consecutiveEmpty st /\
    checking (events (body follower st)) = checking (events st) /\
    totalChecked (performance (body follower st)) =
      totalChecked (performance st).

(** The usernames on which a removal was attempted, newest first. *)
Fixpoint removing (l : list FEvent) : list string :=
  match l with
  | [] => []
  | Removing user :: older => user :: removing older
  | _ :: older => removing older
  end.

(** A body settles the follower it was given in exactly one way: removed
    (after an attempt at removal), skipped, or failed with a message. *)
Definition settles_one {H} (body : Follower -> State H -> State H) : Prop :=
  forall follower st,
    (performance (body follower st) =
       removed (username follower) (performance st) /\
     events (body follower st) =
       Removing (username follower) :: events st) \/
    ((performance (body follower st) = skipped (performance st) \/
      exists message,
        performance (body follower st) = failed message (performance st)) /\
     (events (body follower st) = events st \/
      events (body follower st) =
        Removing (username follower) :: events st)).

(** The books of a run balance. *)
Definition balanced {H} (st : State H) : Prop :=
  let p := performance st in
  totalChecked p = totalRemoved p + totalSkipped p + totalFailed p /\
  totalChecked p = length (checking (events st)) /\
  length (removedUsers p) = totalRemoved p /\
  length (errors p) = totalFailed p /\
  (forall user, user ∈ removedUsers p -> user ∈ removing (events st)).

End Ledger.

(** ** The page actions of the follower scripts *)

Module Dom.
Import Followers.

(** The selectors that the scripts pass to the document: the test id
    userActions; a button whose label holds More; a button that opens a
    menu; the role menuitem; the test id confirmationSheetConfirm; a button
    below the test id placementTracking. *)
Inductive Selector : Type :=
| userActions
| labelled_More
| opens_a_menu
| menuitem
| confirmationSheetConfirm
| placementTracking_button.

Record Node : Type := mkNode { node_id : nat; textContent : string }.

Inductive Target : Type :=
| OnNode (node : Node)
| OnBody.

(** The document of the window in which the script runs. Queries read the
    page; a click changes it and may raise. *)
Record Document (H : Type) : Type := mkDocument {
  querySelector : Selector -> H -> option Node;
  querySelectorAll : Selector -> H -> list Node;
  (** [element.querySelector] on the cell of a follower. *)
  element_querySelector : Cell -> Selector -> H -> option Node;
  click : Target -> H -> Except unit * H
}.
Arguments querySelector {H} _ _ _.
Arguments querySelectorAll {H} _ _ _.
Arguments element_querySelector {H} _ _ _ _.
Arguments click {H} _ _ _.

(** The page and the clicks made on it, newest first. *)
Record Page (H : Type) : Type := mkPage { dom : H; clicked : list Target }.
Arguments mkPage {H} _ _.
Arguments dom {H} _.
Arguments clicked {H} _.

Definition D (H A : Type) : Type := Page H -> Except A * Page H.

Definition ret {H A} (a : A) : D H A := fun p => (Ok a, p).

Definition bind {H A B} (c : D H A) (k : A -> D H B) : D H B :=
  fun p =>
    match c p with
    | (Ok a, p') => k a p'
    | (Throw m, p') => (Throw m, p')
    end.

Notation "'let+' x ':=' c 'in' k" := (bind c (fun x => k))
  (at level 10, x name, c at level 100, k at level 200).

Definition try_catch {H A} (body : D H A) (handler : string -> D H A)
  : D H A :=
  fun p =>
    match body p with
    | (Ok a, p') => (Ok a, p')
    | (Throw m, p') => handler m p'
    end.

Definition delay {H} (ms : nat) : D H unit := ret tt.

(** [a || b] on two results of a query. *)
Definition or_else (a b : option Node) : option Node :=
  match a with Some n => Some n | None => b end.

Definition mentions (phrase : string) (item : Node) : bool :=
  Js.includes (textContent item) phrase.

Definition succeeded : ActionResult := mkResult true "".
Definition gave_up (why : string) : ActionResult := mkResult false why.

Section Actions.
Context {H : Type} (document : Document H).

Definition read {A} (f : H -> A) : D H A := fun p => (Ok (f (dom p)), p).

Definition do_click (target : Target) : D H unit :=
  fun p =>
    let r := click document target (dom p) in
    (fst r, mkPage (snd r) (target :: clicked p)).

(** The three places where the button of a card is looked for. *)
Definition card_button (followerElement : Cell) (h : H) : option Node :=
  or_else (element_querySelector document followerElement userActions h)
    (or_else (element_querySelector document followerElement labelled_More h)
       (element_querySelector document followerElement opens_a_menu h)).

(** [removeFollower(followerElement, username)] of the popup form. *)
Definition removeFollower (followerElement : Cell) (username : string)
  : D H ActionResult :=
  try_catch
    (let+ moreButton := read (card_button followerElement) in
     match moreButton with
     | None => ret (gave_up "No more button on card")
     | Some moreButton =>
         let+ _ := do_click (OnNode moreButton) in
         let+ _ := delay 1000 in
         let+ menuItems := read (querySelectorAll document menuitem) in
         match find (mentions "Remove this follower") menuItems with
         | None =>
             let+ _ := do_click OnBody in
             ret (gave_up "No remove button found")
         | Some removeButton =>
             let+ _ := do_click (OnNode removeButton) in
             let+ _ := delay 1000 in
             let+ confirmButton :=
               read (querySelector document confirmationSheetConfirm) in
             match confirmButton with
             | Some confirmButton =>
                 let+ _ := do_click (OnNode confirmButton) in
                 let+ _ := delay 3000 in
                 ret succeeded
             | None => ret (gave_up "No confirm button")
             end
         end
     end)
    (fun message => ret (gave_up message)).

(** [blockUser(username)] of the form that blocks and unblocks; it has no
    [catch] of its own. *)
Definition blockUser (username : string) : D H ActionResult :=
  let+ moreButton := read (querySelector document userActions) in
  match moreButton with
  | None => ret (gave_up "No user actions button")
  | Some moreButton =>
      let+ _ := do_click (OnNode moreButton) in
      let+ _ := delay 500 in
      let+ menuItems := read (querySelectorAll document menuitem) in
      match find (mentions "Block") menuItems with
      | None =>
          let+ _ := do_click OnBody in
          ret (gave_up "No block button found")
      | Some blockButton =>
          let+ _ := do_click (OnNode blockButton) in
          let+ _ := delay 500 in
          let+ confirmButton :=
            read (querySelector document confirmationSheetConfirm) in
          match confirmButton with
          | Some confirmButton =>
              let+ _ := do_click (OnNode confirmButton) in
              let+ _ := delay 1000 in
              ret succeeded
          | None => ret (gave_up "No confirm button")
          end
      end
  end.

(** The second way of [unblockUser], through the menu of the profile. *)
Definition unblock_by_menu : D H ActionResult :=
  let+ moreButton := read (querySelector document userActions) in
  match moreButton with
  | Some moreButton =>
      let+ _ := do_click (OnNode moreButton) in
      let+ _ := delay 500 in
      let+ menuItems := read (querySelectorAll document menuitem) in
      match find (mentions "Unblock") menuItems with
      | Some item =>
          let+ _ := do_click (OnNode item) in
          let+ _ := delay 1000 in
          ret succeeded
      | None => ret (gave_up "Could not unblock")
      end
  | None => ret (gave_up "Could not unblock")
  end.

(** [unblockUser(username)]: the button that reads Blocked first, the menu
    when that button is missing or its confirmation does not show. *)
Definition unblockUser (username : string) : D H ActionResult :=
  let+ blockedButton := read (querySelector document placementTracking_button) in
  match blockedButton with
  | Some blockedButton =>
      if mentions "Blocked" blockedButton then
        let+ _ := do_click (OnNode blockedButton) in
        let+ _ := delay 500 in
        let+ confirmButton :=
          read (querySelector document confirmationSheetConfirm) in
        match confirmButton with
        | Some confirmButton =>
            let+ _ := do_click (OnNode confirmButton) in
            let+ _ := delay 1000 in
            ret succeeded
        | None => unblock_by_menu
        end
      else unblock_by_menu
  | None => unblock_by_menu
  end.

End Actions.
End Dom.

Module Outcome.
Import Followers Dom.

Section Outcomes.
Context {H : Type} (document : Document H).

(** The clicks that lead to a confirmed action: the button that opens the
    menu, the first entry of the menu that mentions [phrase], and the
    button of the confirmation sheet, none of which raised. *)
Definition confirmed (phrase : string) (opener : H -> option Node)
    (p p' : Page H) : Prop :=
  exists more item confirm h1 h2 h3,
    opener (dom p) = Some more /\
    click document (OnNode more) (dom p) = (Ok tt, h1) /\
    find (mentions phrase) (querySelectorAll document menuitem h1) =
      Some item /\
    click document (OnNode item) h1 = (Ok tt, h2) /\
    querySelector document confirmationSheetConfirm h2 = Some confirm /\
    click document (OnNode confirm) h2 = (Ok tt, h3) /\
    p' = mkPage h3 (OnNode confirm :: OnNode item :: OnNode more ::
                    clicked p).

(** Unblocked with the button that reads Blocked, and confirmed. *)
Definition unblocked_by_button (p p' : Page H) : Prop :=
  exists blocked confirm h1 h2,
    querySelector document placementTracking_button (dom p) =
      Some blocked /\
    mentions "Blocked" blocked = true /\
    click document (OnNode blocked) (dom p) = (Ok tt, h1) /\
    querySelector document confirmationSheetConfirm h1 = Some confirm /\
    click document (OnNode confirm) h1 = (Ok tt, h2) /\
    p' = mkPage h2 (OnNode confirm :: OnNode blocked :: clicked p).

(** Unblocked with the entry of the menu, from the page [q]; nothing is
    confirmed on this way. *)
Definition unblocked_by_menu (q p' : Page H) : Prop :=
  exists more item h1 h2,
    querySelector document userActions (dom q) = Some more /\
    click document (OnNode more) (dom q) = (Ok tt, h1) /\
    find (mentions "Unblock") (querySelectorAll document menuitem h1) =
      Some item /\
    click document (OnNode item) h1 = (Ok tt, h2) /\
    p' = mkPage h2 (OnNode item :: OnNode more :: clicked q).

(** The page on which the menu is tried: the page as it was, or the page
    after a click on the button that reads Blocked which no confirmation
    sheet followed. *)
Definition menu_tried_from (p q : Page H) : Prop :=
  q = p \/
  exists blocked h0,
    querySelector document placementTracking_button (dom p) =
      Some blocked /\
    mentions "Blocked" blocked = true /\
    click document (OnNode blocked) (dom p) = (Ok tt, h0) /\
    querySelector document confirmationSheetConfirm h0 = None /\
    q = mkPage h0 (OnNode blocked :: clicked p).

End Outcomes.
End Outcome.

(** ** The reading of relative timestamps *)

Module TimeText.
Import Followers.

Definition is_digit (c : ascii) : bool :=
  (48 <=? nat_of_ascii c)%nat && (nat_of_ascii c <=? 57)%nat.

Definition is_upper (c : ascii) : bool :=
  (65 <=? nat_of_ascii c)%nat && (nat_of_ascii c <=? 90)%nat.

Definition is_lower (c : ascii) : bool :=
  (97 <=? nat_of_ascii c)%nat && (nat_of_ascii c <=? 122)%nat.

(** The class of white space, among the code units of a [string]: tab,
    line feed, vertical tab, form feed, carriage return, space and the
    no-break space. *)
Definition is_space (c : ascii) : bool :=
  let n := nat_of_ascii c in
  ((9 <=? n)%nat && (n <=? 13)%nat) || (n =? 32)%nat || (n =? 160)%nat.

(** One or more digits and nothing else. *)
Definition digits (s : string) : bool :=
  negb (String.eqb s "") && Js.all is_digit s.

(** [parseInt] of a string of digits. *)
Fixpoint value_from (acc : Z) (s : string) : Z :=
  match s with
  | EmptyString => acc
  | String c s' => value_from (10 * acc + Z.of_nat (nat_of_ascii c - 48)) s'
  end.

Definition parseInt (s : string) : Z := value_from 0 s.

(** The string without its last code unit, and that code unit. *)
Fixpoint split_last (s : string) : option (string * ascii) :=
  match s with
  | EmptyString => None
  | String c s' =>
      match split_last s' with
      | None => Some (EmptyString, c)
      | Some (init, last) => Some (String c init, last)
      end
  end.

Definition one_of (units : list ascii) (c : ascii) : bool :=
  existsb (Ascii.eqb c) units.

(** The anchored expressions for digits followed by one letter: the first
    group when the string matches. *)
Definition digits_then (units : list ascii) (s : string) : option string :=
  match split_last s with
  | Some (ds, c) => if digits ds && one_of units c then Some ds else None
  | None => None
  end.

Fixpoint skip_spaces (s : string) : string :=
  match s with
  | String c s' => if is_space c then skip_spaces s' else s
  | EmptyString => EmptyString
  end.

(** The anchored expressions for a capital, two small letters, white
    space and a number of [count] digits: the two groups when the string
    matches. *)
Definition month_then (count : nat -> bool) (s : string)
  : option (string * string) :=
  match s with
  | String a (String b (String c (String w rest))) =>
      if is_upper a && is_lower b && is_lower c && is_space w then
        let number := skip_spaces rest in
        if Js.all is_digit number && count (String.length number)
        then Some (String a (String b (String c "")), number)
        else None
      else None
  | _ => None
  end.

Definition months : list string :=
  ["Jan"; "Feb"; "Mar"; "Apr"; "May"; "Jun";
   "Jul"; "Aug"; "Sep"; "Oct"; "Nov"; "Dec"].

(** [months.indexOf(name)], [None] for the result [-1]. *)
Fixpoint indexOf (names : list string) (name : string) : option Z :=
  match names with
  | [] => None
  | n :: rest =>
      if String.eqb n name then Some 0%Z
      else option_map Z.succ (indexOf rest name)
  end.

(** [new Date(value)] for a number that is an integer: a time value
    beyond the range of dates gives the invalid date. *)
Definition date_of (value : Z) : JsDate :=
  if (Z.abs value <=? 8640000000000000)%Z then Some value else None.

(** What the function asks of the calendar in local time. *)
Record Calendar : Type := mkCalendar {
  getFullYear : Z -> Z;
  (** [new Date(year, monthIndex, day)]. *)
  local_date : Z -> Z -> Z -> JsDate;
  (** [date.setFullYear(year)], the date after the call. *)
  setFullYear : Z -> JsDate -> JsDate
}.

(** [date > now]; the invalid date compares false. *)
Definition later_than (date : JsDate) (now : Z) : bool :=
  match date with
  | Some t => (now <? t)%Z
  | None => false
  end.

(** The result of [match] as a condition: an array is truthy, [null] is
    not. *)
Definition matched {A} (m : option A) : bool :=
  match m with Some _ => true | None => false end.

Definition lower_s : ascii := ascii_of_nat 115.
Definition lower_m : ascii := ascii_of_nat 109.
Definition lower_h : ascii := ascii_of_nat 104.
Definition lower_d : ascii := ascii_of_nat 100.

(** [parseLastTweetDate(timeText)] at the time [now]; [None] is [null]. *)
Definition parseLastTweetDate (calendar : Calendar) (now : Z)
    (timeText : string) : option JsDate :=
  if String.eqb timeText "" then None
  else if matched (digits_then [lower_s; lower_m; lower_h] timeText)
  then Some (Some now)
  else
    match digits_then [lower_d] timeText with
    | Some group =>
        let days := parseInt group in
        Some (date_of (now - days * 24 * 60 * 60 * 1000))
    | None =>
        let month_and_year :=
          match month_then (fun n => (n =? 4)%nat) timeText with
          | Some (name, number) =>
              match indexOf months name with
              | Some monthIndex =>
                  Some (local_date calendar (parseInt number) monthIndex 15)
              | None => None
              end
          | None => None
          end in
        match month_then (fun n => (1 <=? n)%nat && (n <=? 2)%nat)
                         timeText with
        | Some (name, number) =>
            match indexOf months name with
            | Some monthIndex =>
                let year := getFullYear calendar now in
                let date := local_date calendar year monthIndex
                                       (parseInt number) in
                Some (if later_than date now
                      then setFullYear calendar (year - 1) date
                      else date)
            | None => month_and_year
            end
        | None => month_and_year
        end
    end.

End TimeText.

Module CarriedRef.

(** The handle [h] is the first handle of a line of the snapshot that
    satisfies [wanted] (Playwright form). *)
Definition by_line (snapshot : JsValue) (wanted : string -> bool)
    (h : string) : Prop :=
  exists lines line,
    Playwright.snapshot_lines snapshot = Ok lines /\
    line ∈ lines /\ wanted line = true /\
    Playwright.match_ref line = Some h.

(** The lines that [findConfirmButton] accepts. *)
Definition confirms (line : string) : bool :=
  Js.includes line "confirmationSheetConfirm" ||
  (Js.includes line "Delete" && Js.includes line "button").

End CarriedRef.

(** The snapshots captured and the dialogs handled, counted. *)
Fixpoint captures (l : list Event) : nat :=
  match l with
  | [] => 0
  | EvSnapshot _ :: older => S (captures older)
  | _ :: older => captures older
  end.

Fixpoint dialogs (l : list Event) : nat :=
  match l with
  | [] => 0
  | EvDialog :: older => S (dialogs older)
  | _ :: older => dialogs older
  end.

(** ** Waiting for the popup *)

Module PopupLoad.

Section Wait.
Context {H : Type}.
(** One turn of the loop: the pause, then the reading of the document of
    the popup and of its [readyState], which raises when the popup is on
    another origin or closed. [Ok true] when the document is there and
    complete. *)
Variable poll : H -> Except bool * H.

(** [waitForPopupLoad(popup, maxAttempts)]: the [for] loop with its
    [try]/[catch], which swallows what the reading raises. *)
Fixpoint waitForPopupLoad (maxAttempts : nat) (h : H) : bool * H :=
  match maxAttempts with
  | O => (false, h)
  | S remaining =>
      match poll h with
      | (Ok true, h') => (true, h')
      | (Ok false, h') => waitForPopupLoad remaining h'
      | (Throw _, h') => waitForPopupLoad remaining h'
      end
  end.

End Wait.

(** The default of the parameter [maxAttempts]. *)
Definition maxAttempts : nat := 10.

End PopupLoad.

(** * Properties *)

Lemma append_empty_r (s : string) : s +:+ "" = s.
Proof.
  induction s as [|c s IH]; [reflexivity |].
  change (String c (s +:+ "") = String c s). now rewrite IH.
Qed.

(** ** The string functions are the JavaScript ones *)

Module JsFacts.
Import Js.

Lemma append_cons (c : ascii) (s t : string) :
  String c s +:+ t = String c (s +:+ t).
Proof. reflexivity. Qed.

Lemma prefix_spec (p s : string) :
  String.prefix p s = true <-> exists post, s = p +:+ post.
Proof.
  revert s. induction p as [|c p IH]; intros s.
  - split; [intros _; exists s; reflexivity | destruct s; reflexivity].
  - destruct s as [|c' s]; simpl.
    + split; [discriminate | intros (post & E); discriminate].
    + destruct (Ascii.ascii_dec c c') as [->|Hne].
      * rewrite IH. split; intros (post & E); exists post.
        -- rewrite append_cons. now rewrite E.
        -- rewrite append_cons in E. now injection E.
      * split; [discriminate |].
        intros (post & E). rewrite append_cons in E. congruence.
Qed.

(** [includes] is the substring test. *)
Lemma includes_spec (hay needle : string) :
  includes hay needle = true <->
  exists pre post, hay = pre +:+ needle +:+ post.
Proof.
  induction hay as [|c hay IH]; cbn [includes];
    rewrite orb_true_iff, prefix_spec.
  - split.
    + intros [(post & E) | F]; [| discriminate].
      exists "", post. exact E.
    + intros (pre & post & E). left.
      destruct pre as [|c pre]; [| discriminate]. exists post. exact E.
  - rewrite IH. split.
    + intros [(post & E) | (pre & post & E)].
      * exists "", post. exact E.
      * exists (String c pre), post. rewrite append_cons. now rewrite E.
    + intros (pre & post & E). destruct pre as [|c' pre].
      * left. exists post. exact E.
      * right. rewrite append_cons in E. injection E as _ E.
        exists pre, post. exact E.
Qed.

(** No line of a split holds a newline, and joining the lines gives the
    string back. *)
Lemma split_lines_spec (s : string) :
  split_lines s <> [] /\
  join_lines (split_lines s) = s /\
  Forall (fun l => all (fun c => negb (Ascii.eqb c newline)) l = true)
         (split_lines s).
Proof.
  induction s as [|c s (Hne & Hjoin & Hall)]; simpl.
  - repeat split; [discriminate | repeat constructor].
  - destruct (Ascii.eqb_spec c newline) as [->|Hc].
    + split; [discriminate |]. split.
      * destruct (split_lines s) as [|l ls]; [contradiction |].
        change (join_lines ("" :: l :: ls))
          with ("" +:+ String newline (join_lines (l :: ls))).
        now rewrite Hjoin.
      * constructor; [reflexivity | exact Hall].
    + destruct (split_lines s) as [|l ls]; [contradiction |].
      split; [discriminate |]. split.
      * destruct ls as [|l' ls].
        -- simpl in *. now rewrite Hjoin.
        -- change (join_lines (String c l :: l' :: ls))
             with (String c l +:+ String newline (join_lines (l' :: ls))).
           change (join_lines (l :: l' :: ls))
             with (l +:+ String newline (join_lines (l' :: ls))) in Hjoin.
           rewrite append_cons. now rewrite Hjoin.
      * inversion Hall as [|? ? Hl Hls]; subst. constructor; [| exact Hls].
        simpl. rewrite Hl.
        destruct (Ascii.eqb_spec c newline); [contradiction | reflexivity].
Qed.

Lemma span_spec (stop : ascii -> bool) (s : string) :
  s = fst (span stop s) +:+ snd (span stop s) /\
  all (fun c => negb (stop c)) (fst (span stop s)) = true /\
  match snd (span stop s) with
  | EmptyString => True
  | String c _ => stop c = true
  end.
Proof.
  induction s as [|c s (E & A & R)]; simpl.
  - repeat split.
  - destruct (stop c) eqn:S; simpl.
    + repeat split. exact S.
    + destruct (span stop s) as [run rest]. simpl in *.
      rewrite append_cons, <- E, S, A. repeat split. exact R.
Qed.

(** The longest run free of stop characters is the only one that a stop
    character follows. *)
Lemma span_unique (stop : ascii -> bool) (h : string) (q : ascii)
    (rest : string) :
  all (fun c => negb (stop c)) h = true -> stop q = true ->
  span stop (h +:+ String q rest) = (h, String q rest).
Proof.
  intros A Q. induction h as [|c h IH].
  - change (span stop (String q rest) = ("", String q rest)).
    simpl. now rewrite Q.
  - simpl in A. apply andb_true_iff in A. destruct A as [C A].
    rewrite append_cons. simpl.
    apply negb_true_iff in C. rewrite C, (IH A). reflexivity.
Qed.

Lemma drop_append (p s : string) : drop (String.length p) (p +:+ s) = s.
Proof. induction p as [|c p IH]; [reflexivity | exact IH]. Qed.

(** One attempt of the expression succeeds with group [h] exactly when the
    string reads: the attribute name, a quote, the non-empty quote-free
    [h], a quote. The group is determined by the string, so the order in
    which a backtracking matcher tries the lengths of the run does not
    matter. *)
Lemma match_here_spec (attr : string) (quote : ascii -> bool)
    (s h : string) :
  match_here attr quote s = Some h <->
  exists q1 q2 rest,
    s = attr +:+ String q1 (h +:+ String q2 rest) /\
    quote q1 = true /\ quote q2 = true /\
    h <> "" /\ all (fun c => negb (quote c)) h = true.
Proof.
  unfold match_here. split.
  - destruct (String.prefix attr s) eqn:P; [| discriminate].
    apply prefix_spec in P. destruct P as (post & ->).
    rewrite drop_append.
    destruct post as [|q1 body]; [discriminate |].
    destruct (quote q1) eqn:Q1; [| discriminate].
    destruct (span_spec quote body) as (E & A & R).
    destruct (span quote body) as [[|c run] [|q2 rest]]; try discriminate.
    simpl in *. intros [= <-].
    exists q1, q2, rest. rewrite E. repeat split; auto; discriminate.
  - intros (q1 & q2 & rest & -> & Q1 & Q2 & Hne & A).
    assert (P : String.prefix attr
                  (attr +:+ String q1 (h +:+ String q2 rest)) = true).
    { apply prefix_spec. eauto. }
    rewrite P, drop_append, Q1, (span_unique quote h q2 rest A Q2).
    destruct h; [contradiction | reflexivity].
Qed.

(** [match_handle] returns the group of the leftmost attempt that
    succeeds. *)
Lemma match_handle_spec (attr : string) (quote : ascii -> bool)
    (line h : string) :
  match_handle attr quote line = Some h <->
  exists pre s,
    line = pre +:+ s /\ match_here attr quote s = Some h /\
    forall pre' s', line = pre' +:+ s' ->
                    (String.length pre' < String.length pre)%nat ->
                    match_here attr quote s' = None.
Proof.
  induction line as [|c line IH]; simpl.
  - destruct (match_here attr quote "") as [h0|] eqn:M.
    + split.
      * intros [= ->]. exists "", "". repeat split; auto.
        intros pre' s' _ Hl. simpl in Hl. lia.
      * intros (pre & s & E & Ms & _).
        destruct pre; [| discriminate]. change ("" +:+ s) with s in E. subst s. congruence.
    + split; [discriminate |].
      intros (pre & s & E & Ms & _).
      destruct pre; [| discriminate]. change ("" +:+ s) with s in E. subst s. congruence.
  - destruct (match_here attr quote (String c line)) as [h0|] eqn:M.
    + split.
      * intros [= ->]. exists "", (String c line). repeat split; auto.
        intros pre' s' _ Hl. simpl in Hl. lia.
      * intros (pre & s & E & Ms & Hleft).
        destruct pre as [|c' pre].
        -- change ("" +:+ s) with s in E. subst s. congruence.
        -- specialize (Hleft "" (String c line) eq_refl). simpl in Hleft.
           rewrite Hleft in M by lia. discriminate.
    + rewrite IH. split.
      * intros (pre & s & E & Ms & Hleft).
        exists (String c pre), s.
        split; [rewrite append_cons; now rewrite E |].
        split; [exact Ms |].
        intros pre' s' E' Hl. destruct pre' as [|c' pre'].
        -- change ("" +:+ s') with s' in E'. subst s'. exact M.
        -- rewrite append_cons in E'. injection E' as _ E'.
           apply (Hleft pre' s' E'). simpl in Hl. lia.
      * intros (pre & s & E & Ms & Hleft).
        destruct pre as [|c' pre].
        -- change ("" +:+ s) with s in E. subst s. congruence.
        -- rewrite append_cons in E. injection E as <- E.
           exists pre, s. repeat split; auto.
           intros pre' s' E' Hl.
           apply (Hleft (String c pre') s').
           ++ rewrite append_cons. now rewrite E'.
           ++ simpl. lia.
Qed.

End JsFacts.

(** ** URL derivation *)

(** Where the derivation is right: the suffix is empty for [POSTS], the
    segment [/with_replies] for [REPLIES], and empty for a content type
    that is neither a key of the table nor a property name of
    [Object.prototype]. *)
Lemma profile_url_of_own_and_unknown_keys (username contentType : string)
    (Hown : CONTENT_TYPES !! contentType = None)
    (Hproto : inherited contentType = false) :
  getProfileUrl username contentType = baseUrl username /\
  getProfileUrl username "POSTS" = baseUrl username /\
  getProfileUrl username "REPLIES" = baseUrl username +:+ "/with_replies".
Proof.
  unfold getProfileUrl. repeat split.
  - unfold suffix_of. rewrite Hown, Hproto. apply append_empty_r.
  - apply append_empty_r.
Qed.

Lemma append_not_longer (s t : string) : s +:+ t = s -> t = "".
Proof.
  induction s as [|c s IH]; [intros E; exact E |].
  change (String c s +:+ t) with (String c (s +:+ t)).
  intros [= E]. exact (IH E).
Qed.

(** C8: the fallback [CONTENT_TYPES[contentType] || ''] misses the content
    types that name a property of [Object.prototype]. None of them is a key
    of the table, and for none of them is the URL the base profile
    location: the text of the inherited property is appended to it. *)
Theorem C8_inherited_key_misses_the_fallback :
  forall username : string,
    Forall (fun contentType =>
              CONTENT_TYPES !! contentType = None /\
              getProfileUrl username contentType <> baseUrl username)
           Object_prototype /\
    getProfileUrl "alice" "constructor" =
      "https://x.com/alicefunction Object() { [native code] }" /\
    getProfileUrl "alice" "__proto__" = "https://x.com/alice[object Object]".
Proof.
  intros username. split; [| split; reflexivity].
  repeat (apply Forall_cons; split;
          [split; [reflexivity
                  | intros E; apply append_not_longer in E; discriminate] |]).
  apply Forall_nil. exact I.
Qed.

(** ** Classification *)

Lemma kind_spec (t : Tweet) :
  kind t = if has_marker (text t) then repost else ordinaryPost.
Proof.
  unfold kind, isRepost, has_marker.
  destruct (String.eqb_spec (text t) "") as [E|E].
  - rewrite E. reflexivity.
  - reflexivity.
Qed.

(** C7: classification depends on the raw context text alone, so two
    candidates with the same text get the same [isRepost] value and the same
    kind; a text is a repost exactly when it contains one of the three
    markers, and a text that contains none of them is an ordinary post. *)
Theorem C7_classification_by_text (t1 t2 : Tweet)
    (Htext : text t1 = text t2) :
  isRepost t1 = isRepost t2 /\
  kind t1 = kind t2 /\
  (kind t1 = repost <-> has_marker (text t1) = true) /\
  (Js.includes (text t1) "Reposted" = false ->
   Js.includes (text t1) "retweeted" = false ->
   Js.includes (text t1) "repost" = false ->
   kind t1 = ordinaryPost).
Proof.
  repeat split.
  - unfold isRepost. now rewrite Htext.
  - rewrite !kind_spec. now rewrite Htext.
  - rewrite kind_spec. destruct (has_marker (text t1)); congruence.
  - rewrite kind_spec. intros ->. reflexivity.
  - intros H1 H2 H3. rewrite kind_spec. unfold has_marker.
    now rewrite H1, H2, H3.
Qed.

Lemma C7_classification_by_text_witness :
  isRepost (mkTweet "1" "article You reposted") =
  isRepost (mkTweet "2" "article You reposted") /\
  kind (mkTweet "1" "article You reposted") =
  kind (mkTweet "2" "article You reposted") /\
  (kind (mkTweet "1" "article You reposted") = repost <->
   has_marker "article You reposted" = true) /\
  (Js.includes "article You reposted" "Reposted" = false ->
   Js.includes "article You reposted" "retweeted" = false ->
   Js.includes "article You reposted" "repost" = false ->
   kind (mkTweet "1" "article You reposted") = ordinaryPost).
Proof.
  apply (C7_classification_by_text (mkTweet "1" "article You reposted")
                                   (mkTweet "2" "article You reposted")).
  reflexivity.
Defined.

(** ** The snapshot interpreter *)

(** In the Playwright form the extractor returns a list for every snapshot
    that is a value at all: an object with or without [content], with a
    [content] of any type, or a string. *)
Lemma playwright_findTweetElements_total (snapshot : JsValue) :
  snapshot <> JUndefined -> snapshot <> JNull ->
  exists tweets, Playwright.findTweetElements snapshot = Ok tweets.
Proof.
  intros Hu Hn.
  unfold Playwright.findTweetElements, Playwright.snapshot_lines.
  destruct snapshot as [| |b|n|s|items|props]; try congruence; simpl.
  - destruct b; simpl; eauto.
  - destruct (negb (n =? 0)%Z); simpl; eauto.
  - destruct (negb (String.eqb s "")); simpl; eauto.
  - eauto.
  - destruct (truthy (assoc "content" props)) eqn:T.
    + destruct (assoc "content" props); simpl; eauto.
    + simpl. eauto.
Qed.

(** In the Chrome DevTools form it does so when [content] is absent, falsy
    or a string. *)
Lemma devtools_findTweetElements_total (props : list (string * JsValue)) :
  truthy (assoc "content" props) = false \/
  (exists s, assoc "content" props = JString s) ->
  exists tweets, DevTools.findTweetElements (JObject props) = Ok tweets.
Proof.
  intros Hc. unfold DevTools.findTweetElements, DevTools.snapshot_lines.
  simpl. destruct Hc as [F | [s E]].
  - rewrite F. simpl. eauto.
  - rewrite E. destruct (truthy (JString s)); simpl; eauto.
Qed.

(** A page without item containers gives the empty list, in both forms. *)
Lemma no_container_no_candidate :
  DevTools.findTweetElements (Scripted.page "main timeline") = Ok [] /\
  Playwright.findTweetElements (Scripted.page "main timeline") = Ok [] /\
  DevTools.findTweetElements (JObject []) = Ok [] /\
  Playwright.findTweetElements (JObject []) = Ok [].
Proof. repeat split; reflexivity. Qed.

(** C6: the extractor is meant to be total, an empty list being an ordinary
    result. The Chrome DevTools form is not: on a snapshot whose [content]
    is an array it calls [split] on the array and raises, where the
    Playwright form, which tests the type first, returns the empty list. *)
Theorem C6_devtools_raises_on_array_content :
  DevTools.findTweetElements Examples.mcp_result =
    Throw "TypeError: split is not a function" /\
  Playwright.findTweetElements Examples.mcp_result = Ok [].
Proof. split; reflexivity. Qed.

(** Lines that do not contain the handle of the item are passed over while
    the lookup is still outside the context of the item. *)
Lemma findMoreButton_loop_skips (uid : string) (before rest : list string) :
  Forall (fun line => Js.includes line uid = false) before ->
  DevTools.findMoreButton_loop uid false (before ++ rest) =
  DevTools.findMoreButton_loop uid false rest.
Proof.
  induction 1 as [|line before Hline _ IH]; [reflexivity |].
  simpl. rewrite Hline. simpl. exact IH.
Qed.

(** Inside the context the lookup stops at the next container marker: what
    follows that line is never read. *)
Lemma findMoreButton_loop_stops (uid marker : string) (after after' : list string) :
  Js.includes marker "article" = true ->
  Js.includes marker uid = false ->
  DevTools.findMoreButton_loop uid true (marker :: after) =
  DevTools.findMoreButton_loop uid true (marker :: after').
Proof.
  intros Ha Hu. simpl. rewrite Hu, Ha. simpl.
  destruct (Js.includes marker "More" || Js.includes marker "caret");
    [destruct (DevTools.match_uid marker) |]; reflexivity.
Qed.

(** C4: the lookup is meant to stay within the container of its item. It
    enters the context of an item at the first line that contains the
    handle as a substring, which need not be the container marker: in this
    snapshot of two adjacent items, each with one More button of its own
    (handles 11 and 13), the lookup for the second item returns the button
    of the first. *)
Theorem C4_lookup_returns_neighbours_control :
  DevTools.findTweetElements Examples.two_items =
    Ok [Examples.item_A; Examples.item_B] /\
  DevTools.findMoreButtonInTweet Examples.two_items Examples.item_A =
    Ok (Some "11") /\
  DevTools.findMoreButtonInTweet Examples.two_items Examples.item_B =
    Ok (Some "11").
Proof. repeat split; reflexivity. Qed.

(** ** The action executor *)

(** C3: success is meant to require the confirmation. In the Playwright
    form the ordinary path counts the item although no confirmation control
    was found after the click on Delete: the run clicks the More button and
    the Delete entry, finds nothing to confirm with, and returns a count of
    one. *)
Theorem C3_counted_without_confirmation :
  Playwright.findConfirmButton Examples.pw_no_confirm = Ok None /\
  fst (Playwright.deleteContent Scripted.obliging 4 "alice" "POSTS"
         (Scripted.start [Examples.pw_feed; Examples.pw_menu;
                          Examples.pw_no_confirm])) = Ok (Some 1) /\
  clicks (log (snd (Playwright.deleteContent Scripted.obliging 4 "alice" "POSTS"
         (Scripted.start [Examples.pw_feed; Examples.pw_menu;
                          Examples.pw_no_confirm])))) = ["e9"; "e2"].
Proof. repeat split; vm_compute; reflexivity. Qed.

(** In the Chrome DevTools form the ordinary path counts an item only
    after its four steps: the click on the More button found in the
    snapshot, the capture of the menu, the click on the Delete entry found
    in the menu, and the dialog, none of which raised. *)
Lemma devtools_count_requires_every_step {H : Type} (tools : Tools H)
    (snapshot : JsValue) (tweet : Tweet) (n : nat) (w w' : World H)
    (flow : Flow) :
  DevToolsController.ordinary_path tools snapshot tweet n w =
    (Ok (flow, S n), w') ->
  exists more menu del,
    DevTools.findMoreButtonInTweet snapshot tweet = Ok (Some more) /\
    DevTools.findDeleteButton menu = Ok (Some del) /\
    log w' = EvDialog :: EvClick del :: EvSnapshot menu ::
             EvClick more :: log w.
Proof.
  unfold DevToolsController.ordinary_path, bind, liftE, ret, delay,
         do_click, do_snapshot, do_dialog, record.
  destruct (DevTools.findMoreButtonInTweet snapshot tweet)
    as [[[|c more]|]|m] eqn:Em; simpl;
    try (intros [= ? ?]; lia); try discriminate.
  destruct (click tools (String c more) (host w)) as [[[]|m] h1]; simpl;
    [| discriminate].
  destruct (take_snapshot tools h1) as [[menu|m] h2]; simpl; [| discriminate].
  destruct (DevTools.findDeleteButton menu) as [[[|c' del]|]|m] eqn:Ed; simpl;
    try (intros [= ? ?]; lia); try discriminate.
  destruct (click tools (String c' del) h2) as [[[]|m] h3]; simpl;
    [| discriminate].
  destruct (handle_dialog tools h3) as [[[]|m] h4]; simpl; [| discriminate].
  intros [= _ <-]. exists (String c more), menu, (String c' del).
  repeat split; assumption.
Qed.

(** In the Chrome DevTools form the confirmation is the dialog primitive:
    when it raises, the item is not counted. *)
Lemma devtools_dialog_failure_not_counted :
  fst (DevToolsController.deleteContent
         (mkTools _ (fun _ => Scripted.accept) Scripted.serve
                    (fun _ => Scripted.accept) Scripted.refuse
                    (fun _ => Scripted.accept))
         4 "alice" "POSTS"
         (Scripted.start [Examples.dt_feed; Examples.dt_menu])) = Ok (Some 0).
Proof. vm_compute. reflexivity. Qed.

(** ** Handle staleness *)

Module StalenessProofs.
Import Staleness.

Lemma truthy_handle_some (h : option string) :
  Js.truthy_handle h = true -> h = Some (default "" h).
Proof. destruct h as [[|c s]|]; simpl; congruence. Qed.

(** What each primitive does to a fresh log, whatever the lookups are. *)
Section Primitives.
Context {H : Type} (tools : Tools H).
Variable extracted : JsValue -> string -> Prop.
Implicit Types w : World H.

Abbreviation fresh w := (Fresh extracted (log w)).

Lemma just_captured_fresh snapshot w :
  just_captured extracted snapshot w -> fresh w.
Proof. intros (older & -> & F). exact F. Qed.

Lemma do_snapshot_log w :
  fresh w ->
  match do_snapshot tools w with
  | (Ok s, w') => just_captured extracted s w'
  | (Throw _, w') => fresh w'
  end.
Proof.
  intros F. unfold do_snapshot.
  destruct (take_snapshot tools (host w)) as [[s|m] h]; simpl.
  - exists (log w). split; [reflexivity | exact F].
  - exact F.
Qed.

Lemma do_click_log snapshot target w :
  just_captured extracted snapshot w -> extracted snapshot target ->
  fresh (snd (do_click tools target w)).
Proof.
  intros (older & E & F) X. unfold do_click, record. simpl.
  rewrite E. split; [exact X | exact F].
Qed.

(** A click on a handle read from the snapshot just captured, then
    whatever keeps the log fresh. *)
Lemma click_then {A} snapshot target (k : M H A) w :
  just_captured extracted snapshot w -> extracted snapshot target ->
  (forall w', fresh w' -> fresh (snd (k w'))) ->
  fresh (snd (bind (do_click tools target) (fun _ => k) w)).
Proof.
  intros J X K. unfold bind.
  pose proof (do_click_log snapshot target w J X) as F.
  destruct (do_click tools target w) as [[[]|m] w']; simpl in *; auto.
Qed.

Lemma snapshot_then {A} (k : JsValue -> M H A) w :
  fresh w ->
  (forall s w', just_captured extracted s w' -> fresh (snd (k s w'))) ->
  fresh (snd (bind (do_snapshot tools) k w)).
Proof.
  intros F K. unfold bind.
  pose proof (do_snapshot_log w F) as P.
  destruct (do_snapshot tools w) as [[s|m] w']; simpl in *; auto.
Qed.

Lemma script_then {A} source (k : M H A) w :
  fresh w ->
  (forall w', fresh w' -> fresh (snd (k w'))) ->
  fresh (snd (bind (do_script tools source) (fun _ => k) w)).
Proof.
  intros F K. unfold bind.
  assert (P : fresh (snd (do_script tools source w))) by exact F.
  destruct (do_script tools source w) as [[[]|m] w']; simpl in *; auto.
Qed.

Lemma dialog_then {A} (k : M H A) w :
  fresh w ->
  (forall w', fresh w' -> fresh (snd (k w'))) ->
  fresh (snd (bind (do_dialog tools) (fun _ => k) w)).
Proof.
  intros F K. unfold bind.
  assert (P : fresh (snd (do_dialog tools w))) by exact F.
  destruct (do_dialog tools w) as [[[]|m] w']; simpl in *; auto.
Qed.

Lemma navigate_then {A} url (k : M H A) w :
  fresh w ->
  (forall w', fresh w' -> fresh (snd (k w'))) ->
  fresh (snd (bind (do_navigate tools url) (fun _ => k) w)).
Proof.
  intros F K. unfold bind.
  assert (P : fresh (snd (do_navigate tools url w))) by exact F.
  destruct (do_navigate tools url w) as [[[]|m] w']; simpl in *; auto.
Qed.

Lemma lift_then {A B} (x : Except A) (k : A -> M H B) w :
  fresh w ->
  (forall a, x = Ok a -> fresh (snd (k a w))) ->
  fresh (snd (bind (liftE x) k w)).
Proof.
  intros F K. unfold bind, liftE. destruct x as [a|m]; simpl; auto.
Qed.

Lemma delay_then {A} ms (k : M H A) w :
  fresh (snd (k w)) ->
  fresh (snd (bind (delay ms) (fun _ => k) w)).
Proof. intros F. exact F. Qed.

(** The shape shared by the [try] block, the [catch] block and the end of
    an iteration, in both forms of the script. *)
Lemma try_catch_then {A B} (body : M H A) (handler : string -> M H A)
    (k : A -> M H B) w :
  fresh (snd (body w)) ->
  (forall m w', fresh w' -> fresh (snd (handler m w'))) ->
  (forall a w', fresh w' -> fresh (snd (k a w'))) ->
  fresh (snd (bind (try_catch body handler) k w)).
Proof.
  intros Fb Fh Fk. unfold bind, try_catch.
  destruct (body w) as [[a|m] w1]; simpl in Fb.
  - apply Fk. exact Fb.
  - specialize (Fh m w1 Fb).
    destruct (handler m w1) as [[a|m'] w2]; simpl in Fh |- *.
    + apply Fk. exact Fh.
    + exact Fh.
Qed.

End Primitives.

Section DevToolsForm.
Import DevTools DevToolsController.
Context {H : Type} (tools : Tools H).
Implicit Types w : World H.

Abbreviation fresh w := (Fresh extracted_uid (log w)).

Lemma ordinary_path_fresh snapshot tweet rest n w :
  just_captured extracted_uid snapshot w ->
  findTweetElements snapshot = Ok (tweet :: rest) ->
  fresh (snd (ordinary_path tools snapshot tweet n w)).
Proof.
  intros J T. pose proof (just_captured_fresh _ _ _ J) as F.
  unfold ordinary_path.
  apply lift_then; [exact F | intros more Emore].
  destruct (Js.truthy_handle more) eqn:Tm; simpl; [| exact F].
  apply truthy_handle_some in Tm.
  apply (click_then tools extracted_uid snapshot); [exact J | |].
  { left. exists tweet, rest. split; [exact T | left; congruence]. }
  intros w1 F1. apply delay_then.
  apply snapshot_then; [exact F1 | intros menu w2 J2].
  pose proof (just_captured_fresh _ _ _ J2) as F2.
  apply lift_then; [exact F2 | intros del Edel].
  destruct (Js.truthy_handle del) eqn:Td; simpl; [| exact F2].
  apply truthy_handle_some in Td.
  apply (click_then tools extracted_uid menu); [exact J2 | |].
  { right. left. congruence. }
  intros w3 F3. apply delay_then.
  apply dialog_then; [exact F3 | intros w4 F4]. exact F4.
Qed.

Lemma repost_path_fresh snapshot tweet rest n w :
  just_captured extracted_uid snapshot w ->
  findTweetElements snapshot = Ok (tweet :: rest) ->
  fresh (snd (repost_path tools snapshot tweet n w)).
Proof.
  intros J T. pose proof (just_captured_fresh _ _ _ J) as F.
  unfold repost_path.
  apply lift_then; [exact F | intros un Eun].
  destruct (Js.truthy_handle un) eqn:Tu; simpl; [| exact F].
  apply truthy_handle_some in Tu.
  apply (click_then tools extracted_uid snapshot); [exact J | |].
  { left. exists tweet, rest. split; [exact T | right; congruence]. }
  intros w1 F1. apply delay_then.
  apply snapshot_then; [exact F1 | intros confirm w2 J2].
  pose proof (just_captured_fresh _ _ _ J2) as F2.
  apply lift_then; [exact F2 | intros c Ec].
  destruct (Js.truthy_handle c) eqn:Tc; simpl; [| exact F2].
  apply truthy_handle_some in Tc.
  apply (click_then tools extracted_uid confirm); [exact J2 | |].
  { right. right. congruence. }
  intros w3 F3. exact F3.
Qed.

Lemma try_block_fresh snapshot tweet rest n w :
  just_captured extracted_uid snapshot w ->
  findTweetElements snapshot = Ok (tweet :: rest) ->
  fresh (snd (try_block tools snapshot tweet n w)).
Proof.
  intros J T. unfold try_block, bind.
  assert (P : fresh (snd
             ((if truthy (isRepost tweet)
               then repost_path tools snapshot tweet n
               else ordinary_path tools snapshot tweet n) w))).
  { destruct (truthy (isRepost tweet));
      eauto using repost_path_fresh, ordinary_path_fresh. }
  destruct ((if truthy (isRepost tweet)
             then repost_path tools snapshot tweet n
             else ordinary_path tools snapshot tweet n) w)
    as [[[[] d]|m] w']; simpl in *; exact P.
Qed.

Lemma iteration_fresh vars w :
  fresh w -> fresh (snd (iteration tools vars w)).
Proof.
  intros F. unfold iteration.
  apply snapshot_then; [exact F | intros snapshot w1 J].
  pose proof (just_captured_fresh _ _ _ J) as F1.
  apply lift_then; [exact F1 | intros tweets T].
  destruct tweets as [|tweet rest].
  - destruct (MAX_EMPTY_ATTEMPTS <=? S (consecutiveEmptyAttempts vars))%nat;
      [exact F1 |].
    apply script_then; [exact F1 | intros w2 F2; exact F2].
  - apply try_catch_then.
    + apply (try_block_fresh snapshot tweet rest); assumption.
    + intros m w2 F2. unfold catch_block.
      apply script_then; [exact F2 | intros w3 F3; exact F3].
    + intros [[] d] w2 F2; simpl; [| exact F2].
      apply script_then; [exact F2 | intros w3 F3; exact F3].
Qed.

Lemma while_hasMore_fresh fuel : forall vars w,
  fresh w -> fresh (snd (while_hasMore tools fuel vars w)).
Proof.
  induction fuel as [|fuel IH]; intros vars w F; [exact F |].
  simpl. unfold bind at 1.
  pose proof (iteration_fresh vars w F) as P.
  destruct (iteration tools vars w) as [[[vars'|vars']|m] w']; simpl in P |- *.
  - apply IH. exact P.
  - exact P.
  - exact P.
Qed.

Lemma deleteContent_fresh fuel username contentType (h0 : H) :
  fresh (snd (deleteContent tools fuel username contentType (mkWorld h0 []))).
Proof.
  unfold deleteContent.
  apply navigate_then; [exact I | intros w1 F1].
  apply delay_then. apply while_hasMore_fresh. exact F1.
Qed.

End DevToolsForm.

Section PlaywrightForm.
Import Playwright.
Context {H : Type} (tools : Tools H).
Implicit Types w : World H.

Abbreviation fresh w := (Fresh extracted_ref (log w)).

Lemma pw_ordinary_path_fresh snapshot tweet rest n w :
  just_captured extracted_ref snapshot w ->
  findTweetElements snapshot = Ok (tweet :: rest) ->
  fresh (snd (ordinary_path tools snapshot tweet n w)).
Proof.
  intros J T. pose proof (just_captured_fresh _ _ _ J) as F.
  unfold ordinary_path.
  apply lift_then; [exact F | intros more Emore].
  destruct (Js.truthy_handle more) eqn:Tm; simpl; [| exact F].
  apply truthy_handle_some in Tm.
  apply (click_then tools extracted_ref snapshot); [exact J | |].
  { left. exists tweet, rest. split; [exact T | left; congruence]. }
  intros w1 F1. apply delay_then.
  apply snapshot_then; [exact F1 | intros menu w2 J2].
  pose proof (just_captured_fresh _ _ _ J2) as F2.
  apply lift_then; [exact F2 | intros del Edel].
  destruct (Js.truthy_handle del) eqn:Td; simpl; [| exact F2].
  apply truthy_handle_some in Td.
  apply (click_then tools extracted_ref menu); [exact J2 | |].
  { right. left. congruence. }
  intros w3 F3. apply delay_then.
  apply snapshot_then; [exact F3 | intros confirm w4 J4].
  pose proof (just_captured_fresh _ _ _ J4) as F4.
  apply lift_then; [exact F4 | intros c Ec].
  destruct (Js.truthy_handle c) eqn:Tc; [| exact F4].
  apply truthy_handle_some in Tc.
  unfold bind at 1.
  assert (P : fresh (snd (bind (do_click tools (default "" c))
                            (fun _ => delay CONFIG.afterDeletion) w4))).
  { apply (click_then tools extracted_ref confirm); [exact J4 | |].
    - right. right. left. congruence.
    - intros w5 F5. exact F5. }
  destruct (bind (do_click tools (default "" c))
              (fun _ => delay CONFIG.afterDeletion) w4) as [[[]|m] w5];
    simpl in P |- *; exact P.
Qed.

Lemma pw_repost_path_fresh snapshot tweet rest n w :
  just_captured extracted_ref snapshot w ->
  findTweetElements snapshot = Ok (tweet :: rest) ->
  fresh (snd (repost_path tools snapshot tweet n w)).
Proof.
  intros J T. pose proof (just_captured_fresh _ _ _ J) as F.
  unfold repost_path.
  apply lift_then; [exact F | intros un Eun].
  destruct (Js.truthy_handle un) eqn:Tu; simpl; [| exact F].
  apply truthy_handle_some in Tu.
  apply (click_then tools extracted_ref snapshot); [exact J | |].
  { left. exists tweet, rest. split; [exact T | right; congruence]. }
  intros w1 F1. apply delay_then.
  apply snapshot_then; [exact F1 | intros confirm w2 J2].
  pose proof (just_captured_fresh _ _ _ J2) as F2.
  apply lift_then; [exact F2 | intros c Ec].
  destruct (Js.truthy_handle c) eqn:Tc; simpl; [| exact F2].
  apply truthy_handle_some in Tc.
  apply (click_then tools extracted_ref confirm); [exact J2 | |].
  { right. right. right. congruence. }
  intros w3 F3. exact F3.
Qed.

Lemma pw_try_block_fresh snapshot tweet rest n w :
  just_captured extracted_ref snapshot w ->
  findTweetElements snapshot = Ok (tweet :: rest) ->
  fresh (snd (try_block tools snapshot tweet n w)).
Proof.
  intros J T. unfold try_block, bind.
  assert (P : fresh (snd
             ((if truthy (isRepost tweet)
               then repost_path tools snapshot tweet n
               else ordinary_path tools snapshot tweet n) w))).
  { destruct (truthy (isRepost tweet));
      eauto using pw_repost_path_fresh, pw_ordinary_path_fresh. }
  destruct ((if truthy (isRepost tweet)
             then repost_path tools snapshot tweet n
             else ordinary_path tools snapshot tweet n) w)
    as [[[[] d]|m] w']; simpl in *; exact P.
Qed.

Lemma pw_iteration_fresh vars w :
  fresh w -> fresh (snd (iteration tools vars w)).
Proof.
  intros F. unfold iteration.
  apply snapshot_then; [exact F | intros snapshot w1 J].
  pose proof (just_captured_fresh _ _ _ J) as F1.
  apply lift_then; [exact F1 | intros tweets T].
  destruct tweets as [|tweet rest].
  - destruct (MAX_EMPTY_ATTEMPTS <=? S (consecutiveEmptyAttempts vars))%nat;
      [exact F1 |].
    apply script_then; [exact F1 | intros w2 F2; exact F2].
  - apply try_catch_then.
    + apply (pw_try_block_fresh snapshot tweet rest); assumption.
    + intros m w2 F2. unfold catch_block.
      apply script_then; [exact F2 | intros w3 F3; exact F3].
    + intros [[] d] w2 F2; simpl; [| exact F2].
      apply script_then; [exact F2 | intros w3 F3; exact F3].
Qed.

Lemma pw_while_hasMore_fresh fuel : forall vars w,
  fresh w -> fresh (snd (while_hasMore tools fuel vars w)).
Proof.
  induction fuel as [|fuel IH]; intros vars w F; [exact F |].
  simpl. unfold bind at 1.
  pose proof (pw_iteration_fresh vars w F) as P.
  destruct (iteration tools vars w) as [[[vars'|vars']|m] w']; simpl in P |- *.
  - apply IH. exact P.
  - exact P.
  - exact P.
Qed.

Lemma pw_deleteContent_fresh fuel username contentType (h0 : H) :
  fresh (snd (deleteContent tools fuel username contentType (mkWorld h0 []))).
Proof.
  unfold deleteContent.
  apply navigate_then; [exact I | intros w1 F1].
  apply delay_then. apply pw_while_hasMore_fresh. exact F1.
Qed.

End PlaywrightForm.
End StalenessProofs.

(** C5: in every execution of the control loop, finished or not, however
    the host answers, each handle passed to the click primitive was read
    from the snapshot captured immediately before the click, the lookups
    scoped to an item being taken at the first candidate of that snapshot;
    no handle of an earlier snapshot is used once a later one exists. This
    holds of the loop with [uid] handles and of the loop with [ref]
    handles. *)
Theorem C5_no_cross_snapshot_handle :
  forall (H : Type) (tools : Tools H) (fuel : nat)
         (username contentType : string) (h0 : H),
    Staleness.Fresh Staleness.extracted_uid
      (log (snd (DevToolsController.deleteContent tools fuel username
                   contentType (mkWorld h0 [])))) /\
    Staleness.Fresh Staleness.extracted_ref
      (log (snd (Playwright.deleteContent tools fuel username
                   contentType (mkWorld h0 [])))).
Proof.
  intros H tools fuel username contentType h0. split.
  - apply StalenessProofs.deleteContent_fresh.
  - apply StalenessProofs.pw_deleteContent_fresh.
Qed.

(** One scan cycle acts on one candidate: it clicks at most twice, on the
    More button and on the Delete entry (or on the undo control and its
    confirmation), and captures at most two snapshots. *)
Lemma iteration_acts_on_one_item {H : Type} (tools : Tools H)
    (vars : LoopVars) (w : World H) :
  (length (clicks (log (snd (DevToolsController.iteration tools vars w))))
   <= length (clicks (log w)) + 2)%nat.
Proof.
  unfold DevToolsController.iteration, DevToolsController.try_block,
         DevToolsController.catch_block, DevToolsController.repost_path,
         DevToolsController.ordinary_path, try_catch, bind, liftE, ret, delay,
         do_click, do_snapshot, do_dialog, do_script, record.
  repeat (match goal with
          | |- context [take_snapshot tools ?h] =>
              destruct (take_snapshot tools h) as [[?|?] ?]
          | |- context [click tools ?u ?h] =>
              destruct (click tools u h) as [[[]|?] ?]
          | |- context [handle_dialog tools ?h] =>
              destruct (handle_dialog tools h) as [[[]|?] ?]
          | |- context [evaluate_script tools ?src ?h] =>
              destruct (evaluate_script tools src h) as [[[]|?] ?]
          | |- context [DevTools.findTweetElements ?s] =>
              destruct (DevTools.findTweetElements s) as [[|? ?]|?]
          | |- context [DevTools.findMoreButtonInTweet ?s ?t] =>
              destruct (DevTools.findMoreButtonInTweet s t) as [[[|? ?]|]|?]
          | |- context [DevTools.findDeleteButton ?s] =>
              destruct (DevTools.findDeleteButton s) as [[[|? ?]|]|?]
          | |- context [DevTools.findUnretweetButton ?s ?t] =>
              destruct (DevTools.findUnretweetButton s t) as [[[|? ?]|]|?]
          | |- context [DevTools.findUnretweetConfirmButton ?s] =>
              destruct (DevTools.findUnretweetConfirmButton s) as [[[|? ?]|]|?]
          | |- context [if ?x then _ else _] => destruct x
          end; simpl); lia.
Qed.

(** The invariant has content: a click on a handle of an earlier snapshot,
    or a click that follows a scroll, is not fresh; and the log of a run
    that deletes an item does hold clicks. *)
Lemma stale_click_is_rejected :
  ~ Staleness.Fresh Staleness.extracted_uid
      [EvClick "2"; EvSnapshot Examples.dt_menu;
       EvClick "2"; EvSnapshot Examples.dt_feed] /\
  ~ Staleness.Fresh Staleness.extracted_uid
      [EvClick "2"; EvScript "scroll"; EvSnapshot Examples.dt_feed] /\
  clicks (log (snd (DevToolsController.deleteContent Scripted.obliging 4
                      "alice" "POSTS"
                      (Scripted.start [Examples.dt_feed; Examples.dt_menu]))))
    = ["9"; "2"].
Proof.
  split; [| split].
  - intros [[(t & r & T & [E|E]) | [E | E]] _]; vm_compute in *;
      try discriminate.
  - intros [[] _].
  - vm_compute. reflexivity.
Qed.

(** ** Termination of the pagination loop *)

Module FeedProofs.
Import DevTools DevToolsController Feed.

Ltac break_match :=
  match goal with
  | |- context [match ?x with _ => _ end] => destruct x eqn:?
  end.

Section Proofs.
Context {H : Type} (tools : Tools H).

Lemma ordinary_path_shift snapshot tweet n w :
  ordinary_path tools snapshot tweet n w =
  (shift n (fst (ordinary_path tools snapshot tweet 0 w)),
   snd (ordinary_path tools snapshot tweet 0 w)).
Proof.
  unfold ordinary_path, bind, liftE, ret, delay.
  repeat (break_match; simpl; try reflexivity);
    rewrite ?Nat.add_0_r, ?Nat.add_1_r; reflexivity.
Qed.

Lemma repost_path_shift snapshot tweet n w :
  repost_path tools snapshot tweet n w =
  (shift n (fst (repost_path tools snapshot tweet 0 w)),
   snd (repost_path tools snapshot tweet 0 w)).
Proof.
  unfold repost_path, bind, liftE, ret, delay.
  repeat (break_match; simpl; try reflexivity);
    rewrite ?Nat.add_0_r, ?Nat.add_1_r; reflexivity.
Qed.

Lemma try_block_shift snapshot tweet n w :
  try_block tools snapshot tweet n w =
  (shift n (fst (try_block tools snapshot tweet 0 w)),
   snd (try_block tools snapshot tweet 0 w)).
Proof.
  unfold try_block, bind at 1 3 5.
  destruct (truthy (isRepost tweet)).
  - rewrite repost_path_shift.
    destruct (repost_path tools snapshot tweet 0 w) as [[[[] d]|m] w'];
      reflexivity.
  - rewrite ordinary_path_shift.
    destruct (ordinary_path tools snapshot tweet 0 w) as [[[[] d]|m] w'];
      reflexivity.
Qed.

(** An item cycle resets the empty-scan counter, adds what the action
    deleted and goes on. *)
Lemma iteration_acts d w w' vars :
  acts tools d w w' ->
  iteration tools vars w =
    (Ok (Again (mkVars (deletedCount vars + d) 0)), w').
Proof.
  intros (snapshot & w1 & tweet & rest & Es & Et & S).
  unfold iteration, bind at 1. rewrite Es.
  unfold bind at 1, liftE. rewrite Et.
  unfold bind at 1, try_catch. rewrite try_block_shift.
  destruct (try_block tools snapshot tweet 0 w1) as [[[[] d']|m] w2];
    simpl in S |- *.
  - destruct S as [-> E]. unfold bind at 1. rewrite E. reflexivity.
  - destruct S as [-> ->]. reflexivity.
  - destruct S as (-> & w3 & E1 & E2).
    assert (C : catch_block tools (deletedCount vars) m w2 =
                (Ok (Normal, deletedCount vars), w3)).
    { unfold catch_block, bind at 1. rewrite E1. reflexivity. }
    rewrite C. simpl. unfold bind at 1. rewrite E2. simpl.
    now rewrite Nat.add_0_r.
Qed.

(** An empty scan below the maximum scrolls and goes on. *)
Lemma iteration_empty n c w snapshot w1 w' :
  do_snapshot tools w = (Ok snapshot, w1) ->
  findTweetElements snapshot = Ok [] ->
  (S c < MAX_EMPTY_ATTEMPTS)%nat ->
  do_script tools scroll_300 w1 = (Ok tt, w') ->
  iteration tools (mkVars n c) w = (Ok (Again (mkVars n (S c))), w').
Proof.
  intros Es Et Hc E. unfold iteration, bind at 1. rewrite Es.
  unfold bind at 1, liftE. rewrite Et.
  lazy beta iota zeta delta [consecutiveEmptyAttempts deletedCount].
  destruct (Nat.leb_spec MAX_EMPTY_ATTEMPTS (S c)); [lia |].
  unfold bind at 1. rewrite E. reflexivity.
Qed.

(** The empty scan that reaches the maximum ends the loop. *)
Lemma iteration_last n c w snapshot w1 :
  do_snapshot tools w = (Ok snapshot, w1) ->
  findTweetElements snapshot = Ok [] ->
  (MAX_EMPTY_ATTEMPTS <= S c)%nat ->
  iteration tools (mkVars n c) w = (Ok (Finished (mkVars n (S c))), w1).
Proof.
  intros Es Et Hc. unfold iteration, bind at 1. rewrite Es.
  unfold bind at 1, liftE. rewrite Et.
  lazy beta iota zeta delta [consecutiveEmptyAttempts deletedCount].
  destruct (Nat.leb_spec MAX_EMPTY_ATTEMPTS (S c)); [reflexivity | lia].
Qed.

Lemma while_step fuel vars w step w' :
  iteration tools vars w = (Ok step, w') ->
  while_hasMore tools (S fuel) vars w =
  match step with
  | Finished vars' => (Ok (Some (deletedCount vars')), w')
  | Again vars' => while_hasMore tools fuel vars' w'
  end.
Proof.
  intros E. simpl. unfold bind at 1. rewrite E. destruct step; reflexivity.
Qed.

(** Once the feed is exhausted the loop takes exactly
    [MAX_EMPTY_ATTEMPTS] more iterations. *)
Lemma exhausted_run n w :
  EmptyScans tools MAX_EMPTY_ATTEMPTS w ->
  exists w',
    (forall fuel, (MAX_EMPTY_ATTEMPTS <= fuel)%nat ->
       while_hasMore tools fuel (mkVars n 0) w = (Ok (Some n), w')) /\
    (forall fuel, (fuel < MAX_EMPTY_ATTEMPTS)%nat ->
       exists w'', while_hasMore tools fuel (mkVars n 0) w = (Ok None, w'')).
Proof.
  unfold MAX_EMPTY_ATTEMPTS. simpl.
  intros (s1 & w1 & Es1 & Et1 & w1' & E1 & s2 & w2 & Es2 & Et2 & w2' & E2
          & s3 & w3 & Es3 & Et3 & _).
  pose proof (iteration_empty n 0 _ _ _ _ Es1 Et1 ltac:(unfold MAX_EMPTY_ATTEMPTS; lia) E1) as I1.
  pose proof (iteration_empty n 1 _ _ _ _ Es2 Et2 ltac:(unfold MAX_EMPTY_ATTEMPTS; lia) E2) as I2.
  pose proof (iteration_last n 2 _ _ _ Es3 Et3 ltac:(unfold MAX_EMPTY_ATTEMPTS; lia)) as I3.
  exists w3. split.
  - intros fuel Hf.
    destruct fuel as [|[|[|fuel]]]; try lia.
    rewrite (while_step _ _ _ _ _ I1), (while_step _ _ _ _ _ I2),
            (while_step _ _ _ _ _ I3). reflexivity.
  - intros fuel Hf.
    destruct fuel as [|[|[|fuel]]]; try lia.
    + eexists; reflexivity.
    + rewrite (while_step _ _ _ _ _ I1). eexists; reflexivity.
    + rewrite (while_step _ _ _ _ _ I1), (while_step _ _ _ _ _ I2).
      eexists; reflexivity.
Qed.

(** A feed of [K] item cycles, each deleting [d] items: the loop takes
    exactly [K + MAX_EMPTY_ATTEMPTS] iterations and counts [K * d]. *)
Lemma yields_run d K : forall n w,
  Yields tools d K w ->
  exists w',
    (forall fuel, (K + MAX_EMPTY_ATTEMPTS <= fuel)%nat ->
       while_hasMore tools fuel (mkVars n 0) w = (Ok (Some (n + K * d)), w')) /\
    (forall fuel, (fuel < K + MAX_EMPTY_ATTEMPTS)%nat ->
       exists w'', while_hasMore tools fuel (mkVars n 0) w = (Ok None, w'')).
Proof.
  induction K as [|K IH]; intros n w Y.
  - simpl in Y. destruct (exhausted_run n w Y) as (w' & R & N).
    exists w'. split.
    + intros fuel Hf. rewrite Nat.add_0_r. apply R. exact Hf.
    + intros fuel Hf. apply N. exact Hf.
  - destruct Y as (w1 & A & Y).
    pose proof (iteration_acts d w w1 (mkVars n 0) A) as I. simpl in I.
    destruct (IH (n + d) w1 Y) as (w' & R & N).
    exists w'. split.
    + intros fuel Hf. destruct fuel as [|fuel]; [lia |].
      rewrite (while_step _ _ _ _ _ I), R by lia.
      do 2 f_equal. f_equal. lia.
    + intros fuel Hf. destruct fuel as [|fuel].
      * eexists; reflexivity.
      * rewrite (while_step _ _ _ _ _ I). apply N. lia.
Qed.

Lemma after_try_settles d r w2 w' :
  after_try tools d r w2 = Some w' -> settles tools d r w2 w'.
Proof.
  unfold after_try, settles.
  destruct r as [[[] d']|m].
  - destruct (Nat.eqb_spec d' d); [| discriminate].
    destruct (do_script tools scroll_config w2) as [[[]|?] w3];
      [| discriminate].
    intros [= ->]. split; [assumption | reflexivity].
  - destruct (Nat.eqb_spec d' d); [| discriminate].
    intros [= ->]. split; [assumption | reflexivity].
  - destruct (Nat.eqb_spec d 0); [| discriminate].
    destruct (do_script tools scroll_150 w2) as [[[]|?] w3];
      [| discriminate].
    destruct (do_script tools scroll_config w3) as [[[]|?] w4] eqn:E;
      [| discriminate].
    intros [= ->]. split; [assumption |]. exists w3. split; [reflexivity | exact E].
Qed.

Lemma item_cycle_acts d w w' :
  item_cycle tools d w = Some w' -> acts tools d w w'.
Proof.
  unfold item_cycle, acts.
  destruct (do_snapshot tools w) as [[snapshot|?] w1]; [| discriminate].
  destruct (findTweetElements snapshot) as [[|tweet rest]|?] eqn:T;
    try discriminate.
  intros A. exists snapshot, w1, tweet, rest.
  split; [reflexivity |]. split; [exact T |].
  apply after_try_settles. exact A.
Qed.

Lemma empty_scans_sound n : forall w,
  empty_scans tools n w = true -> EmptyScans tools n w.
Proof.
  induction n as [|n IH]; intros w; [exact (fun _ => I) |].
  cbn [empty_scans EmptyScans].
  destruct (do_snapshot tools w) as [[snapshot|?] w1]; [| discriminate].
  destruct (findTweetElements snapshot) as [[|? ?]|?] eqn:T;
    try discriminate.
  intros E. exists snapshot, w1.
  split; [reflexivity |]. split; [exact T |].
  destruct n as [|n]; [exact I |].
  destruct (do_script tools scroll_300 w1) as [[[]|?] w2]; [| discriminate].
  exists w2. split; [reflexivity |]. apply IH. exact E.
Qed.

Lemma yields_sound d K : forall w,
  yields tools d K w = true -> Yields tools d K w.
Proof.
  induction K as [|K IH]; intros w; cbn [yields Yields].
  - apply empty_scans_sound.
  - destruct (item_cycle tools d w) as [w'|] eqn:A; [| discriminate].
    intros Y. exists w'. split; [apply item_cycle_acts; exact A |].
    apply IH. exact Y.
Qed.

Lemma deleteContent_run d K username contentType w0 w1 :
  do_navigate tools (getProfileUrl username contentType) w0 = (Ok tt, w1) ->
  Yields tools d K w1 ->
  exists w',
    (forall fuel, (K + MAX_EMPTY_ATTEMPTS <= fuel)%nat ->
       deleteContent tools fuel username contentType w0 =
         (Ok (Some (K * d)), w')) /\
    (forall fuel, (fuel < K + MAX_EMPTY_ATTEMPTS)%nat ->
       exists w'', deleteContent tools fuel username contentType w0 =
         (Ok None, w'')).
Proof.
  intros E Y. destruct (yields_run d K 0 w1 Y) as (w' & R & N).
  exists w'. split; intros fuel Hf; unfold deleteContent, bind at 1;
    rewrite E; simpl.
  - apply R. exact Hf.
  - apply N. exact Hf.
Qed.

End Proofs.
End FeedProofs.

(** The feed generator of a test satisfies the assumption for every [K]. *)
Lemma feed_of_yields (K : nat) : forall (l : list Event),
  Feed.yields Scripted.obliging 1 K (mkWorld (Examples.feed_of K) l) = true.
Proof.
  induction K as [|K IH]; intros l; [reflexivity |].
  cbn [Feed.yields Examples.feed_of].
  replace (Feed.item_cycle Scripted.obliging 1
             (mkWorld (Examples.dt_feed :: Examples.dt_menu ::
                       Examples.feed_of K) l))
    with (Some (mkWorld (Examples.feed_of K)
                  (EvScript DevToolsController.scroll_config ::
                   EvDialog :: EvClick "9" :: EvSnapshot Examples.dt_menu ::
                   EvClick "2" :: EvSnapshot Examples.dt_feed :: l)))
    by (vm_compute; reflexivity).
  apply IH.
Qed.

(** So a run over that feed deletes its [K] posts and stops after
    [K + 3] scans. *)
Lemma feed_of_run (K : nat) :
  fst (DevToolsController.deleteContent Scripted.obliging
         (K + MAX_EMPTY_ATTEMPTS) "alice" "POSTS"
         (Scripted.start (Examples.feed_of K))) = Ok (Some K).
Proof.
  destruct (FeedProofs.deleteContent_run Scripted.obliging 1 K "alice" "POSTS"
              (Scripted.start (Examples.feed_of K))
              (mkWorld (Examples.feed_of K) [EvNavigate "https://x.com/alice"]))
    as (w' & R & _).
  - reflexivity.
  - apply FeedProofs.yields_sound. apply feed_of_yields.
  - rewrite R by lia. now rewrite Nat.mul_1_r.
Qed.

(** The scenario of two ordinary posts and a repost: three deletions, and
    the run stops at the third empty scan. *)
Lemma scenario_two_posts_one_repost :
  fst (DevToolsController.deleteContent Scripted.obliging 6 "alice" "POSTS"
         (Scripted.start [Examples.dt_feed; Examples.dt_menu;
                          Examples.dt_feed; Examples.dt_menu;
                          Examples.dt_repost; Examples.dt_undo]))
    = Ok (Some 3) /\
  fst (DevToolsController.deleteContent Scripted.obliging 5 "alice" "POSTS"
         (Scripted.start [Examples.dt_feed; Examples.dt_menu;
                          Examples.dt_feed; Examples.dt_menu;
                          Examples.dt_repost; Examples.dt_undo]))
    = Ok None.
Proof. split; vm_compute; reflexivity. Qed.

(** C1: when the feed yields candidates for exactly [K] consecutive scan
    cycles, the action on the first candidate succeeds in each of them, and
    every scan after them is empty, the loop of [deleteContent] ends after
    exactly [K + MAX_EMPTY_ATTEMPTS] scan cycles (the maximum is 3): it has
    returned with any allowance of at least that many iterations, it is
    still running with any smaller one, and the count it returns is [K]. *)
Theorem C1_terminates_after_K_plus_max_scans :
  forall (H : Type) (tools : Tools H) (K : nat)
         (username contentType : string) (w0 w1 : World H),
    do_navigate tools (getProfileUrl username contentType) w0 = (Ok tt, w1) ->
    Feed.Yields tools 1 K w1 ->
    MAX_EMPTY_ATTEMPTS = 3 /\
    exists w',
      (forall fuel, (K + MAX_EMPTY_ATTEMPTS <= fuel)%nat ->
         DevToolsController.deleteContent tools fuel username contentType w0 =
           (Ok (Some K), w')) /\
      (forall fuel, (fuel < K + MAX_EMPTY_ATTEMPTS)%nat ->
         exists w'',
           DevToolsController.deleteContent tools fuel username contentType w0 =
             (Ok None, w'')).
Proof.
  intros H tools K username contentType w0 w1 E Y.
  split; [reflexivity |].
  destruct (FeedProofs.deleteContent_run tools 1 K username contentType w0 w1 E Y)
    as (w' & R & N).
  exists w'. split; [| exact N].
  intros fuel Hf. rewrite (R fuel Hf). now rewrite Nat.mul_1_r.
Qed.

Lemma C1_terminates_after_K_plus_max_scans_witness :
  MAX_EMPTY_ATTEMPTS = 3 /\
  exists w',
    (forall fuel, (1 + MAX_EMPTY_ATTEMPTS <= fuel)%nat ->
       DevToolsController.deleteContent Scripted.obliging fuel "alice" "POSTS"
         (Scripted.start [Examples.dt_feed; Examples.dt_menu]) =
         (Ok (Some 1), w')) /\
    (forall fuel, (fuel < 1 + MAX_EMPTY_ATTEMPTS)%nat ->
       exists w'',
         DevToolsController.deleteContent Scripted.obliging fuel "alice" "POSTS"
           (Scripted.start [Examples.dt_feed; Examples.dt_menu]) =
           (Ok None, w'')).
Proof.
  apply (C1_terminates_after_K_plus_max_scans (list JsValue) Scripted.obliging 1
           "alice" "POSTS"
           (Scripted.start [Examples.dt_feed; Examples.dt_menu])
           (mkWorld [Examples.dt_feed; Examples.dt_menu]
                    [EvNavigate "https://x.com/alice"])).
  - vm_compute. reflexivity.
  - apply FeedProofs.yields_sound. vm_compute. reflexivity.
Defined.

(** The [catch] block is not the end of the handling: when the scroll it
    makes raises as well, the error leaves [deleteContent], although a
    candidate was observed. *)
Lemma catch_scroll_error_escapes :
  DevTools.findTweetElements Examples.dt_feed =
    Ok [mkTweet "1" "article uid='1'"] /\
  fst (DevToolsController.deleteContent Scripted.failing 10 "alice" "POSTS"
         (Scripted.start [Examples.dt_feed])) = Throw "host error".
Proof. split; vm_compute; reflexivity. Qed.

(** Where the loop does end with failing actions: when the feed yields
    candidates for exactly [K] scan cycles and nothing after, and the
    action on the first candidate fails in each of them, the loop ends
    after [K + MAX_EMPTY_ATTEMPTS] scan cycles with a count of zero. That
    the feed runs empty is assumed here; the code does nothing to bring
    it about when the More button is not found. *)
Lemma failing_actions_on_a_feed_that_runs_empty :
  forall (H : Type) (tools : Tools H) (K : nat)
         (username contentType : string) (w0 w1 : World H),
    do_navigate tools (getProfileUrl username contentType) w0 = (Ok tt, w1) ->
    Feed.Yields tools 0 K w1 ->
    exists w',
      (forall fuel, (K + MAX_EMPTY_ATTEMPTS <= fuel)%nat ->
         DevToolsController.deleteContent tools fuel username contentType w0 =
           (Ok (Some 0), w')) /\
      (forall fuel, (fuel < K + MAX_EMPTY_ATTEMPTS)%nat ->
         exists w'',
           DevToolsController.deleteContent tools fuel username contentType w0 =
             (Ok None, w'')).
Proof.
  intros H tools K username contentType w0 w1 E Y.
  destruct (FeedProofs.deleteContent_run tools 0 K username contentType w0 w1 E Y)
    as (w' & R & N).
  exists w'. split; [| exact N].
  intros fuel Hf. rewrite (R fuel Hf). now rewrite Nat.mul_0_r.
Qed.

Lemma failing_actions_example :
  exists w',
    forall fuel, (2 + MAX_EMPTY_ATTEMPTS <= fuel)%nat ->
      DevToolsController.deleteContent
        (mkTools _ (fun _ => Scripted.accept) Scripted.serve
                   (fun _ => Scripted.refuse) Scripted.refuse
                   (fun _ => Scripted.accept))
        fuel "alice" "POSTS"
        (Scripted.start [Examples.dt_bare; Examples.dt_feed]) =
        (Ok (Some 0), w').
Proof.
  destruct (failing_actions_on_a_feed_that_runs_empty (list JsValue)
              (mkTools _ (fun _ => Scripted.accept) Scripted.serve
                         (fun _ => Scripted.refuse) Scripted.refuse
                         (fun _ => Scripted.accept))
              2 "alice" "POSTS"
              (Scripted.start [Examples.dt_bare; Examples.dt_feed])
              (mkWorld [Examples.dt_bare; Examples.dt_feed]
                       [EvNavigate "https://x.com/alice"]))
    as (w' & R & _).
  - vm_compute. reflexivity.
  - apply FeedProofs.yields_sound. vm_compute. reflexivity.
  - exists w'. exact R.
Qed.

Module StuckProofs.
Import DevTools DevToolsController.

Section Proofs.
Context {H : Type} (tools : Tools H).
Variable snapshot : JsValue.
Variable tweet : Tweet.
Variable rest : list Tweet.
Hypothesis same_page : forall h, exists h', take_snapshot tools h = (Ok snapshot, h').
Hypothesis candidates : findTweetElements snapshot = Ok (tweet :: rest).
Hypothesis ordinary : truthy (isRepost tweet) = false.
Hypothesis no_More : findMoreButtonInTweet snapshot tweet = Ok None.

(** The [continue] after the More button was not found skips the scroll
    that ends the iteration: the cycle is a capture and nothing else. *)
Lemma iteration_stuck (vars : LoopVars) (w : World H) :
  exists h',
    iteration tools vars w =
      (Ok (Again (mkVars (deletedCount vars) 0)),
       mkWorld h' (EvSnapshot snapshot :: log w)).
Proof.
  destruct (same_page (host w)) as (h' & S). exists h'.
  unfold iteration, bind at 1, do_snapshot. rewrite S.
  unfold bind at 1, liftE. rewrite candidates.
  unfold bind at 1, try_catch, try_block, bind at 1. rewrite ordinary.
  unfold ordinary_path, bind at 1, liftE. rewrite no_More.
  reflexivity.
Qed.

Lemma while_hasMore_stuck (fuel : nat) : forall (vars : LoopVars) (w : World H),
  exists w',
    while_hasMore tools fuel vars w = (Ok None, w') /\
    log w' = (repeat (EvSnapshot snapshot) fuel ++ log w)%list.
Proof.
  induction fuel as [|fuel IH]; intros vars w.
  - exists w. split; reflexivity.
  - destruct (iteration_stuck vars w) as (h' & I).
    cbn [while_hasMore]. unfold bind at 1. rewrite I.
    destruct (IH (mkVars (deletedCount vars) 0)
                 (mkWorld h' (EvSnapshot snapshot :: log w)))
      as (w' & R & L).
    exists w'. split; [exact R |].
    rewrite L. cbn [log].
    change (EvSnapshot snapshot :: log w)
      with ([EvSnapshot snapshot] ++ log w)%list.
    rewrite app_assoc, <- repeat_cons. reflexivity.
Qed.

End Proofs.
End StuckProofs.

(** C2: the claim fails at its own example. When the More button of the
    first candidate is never found and the page does not change (nothing
    was deleted from it), the [continue] of [deleteContent] skips the only
    scroll of the iteration, so that every scan cycle is one capture of the
    same snapshot and nothing else: the loop is still running after any
    number of iterations, it never scrolls, clicks or counts, on a host all
    of whose primitives succeed. *)
Theorem C2_missing_control_loops_forever :
  forall (H : Type) (tools : Tools H) (fuel : nat)
         (snapshot : JsValue) (tweet : Tweet) (rest : list Tweet)
         (username contentType : string) (w0 w1 : World H),
    do_navigate tools (getProfileUrl username contentType) w0 = (Ok tt, w1) ->
    (forall h, exists h', take_snapshot tools h = (Ok snapshot, h')) ->
    DevTools.findTweetElements snapshot = Ok (tweet :: rest) ->
    truthy (isRepost tweet) = false ->
    DevTools.findMoreButtonInTweet snapshot tweet = Ok None ->
    exists w',
      DevToolsController.deleteContent tools fuel username contentType w0 =
        (Ok None, w') /\
      log w' = (repeat (EvSnapshot snapshot) fuel ++ log w1)%list.
Proof.
  intros H tools fuel snapshot tweet rest username contentType w0 w1
         N S C O M.
  unfold DevToolsController.deleteContent, bind at 1. rewrite N.
  unfold bind at 1, delay, ret.
  apply (StuckProofs.while_hasMore_stuck tools snapshot tweet rest S C O M).
Qed.

Lemma C2_missing_control_loops_forever_witness :
  exists w',
    DevToolsController.deleteContent
      (mkTools unit (fun _ h => (Ok tt, h))
               (fun h => (Ok Examples.dt_bare, h))
               (fun _ h => (Ok tt, h))
               (fun h => (Ok tt, h))
               (fun _ h => (Ok tt, h)))
      50 "alice" "POSTS" (mkWorld tt []) = (Ok None, w') /\
    log w' = (repeat (EvSnapshot Examples.dt_bare) 50 ++
              log (mkWorld tt [EvNavigate "https://x.com/alice"]))%list.
Proof.
  apply (C2_missing_control_loops_forever unit
           (mkTools unit (fun _ h => (Ok tt, h))
                    (fun h => (Ok Examples.dt_bare, h))
                    (fun _ h => (Ok tt, h))
                    (fun h => (Ok tt, h))
                    (fun _ h => (Ok tt, h)))
           50 Examples.dt_bare (mkTweet "1" "article uid='1'") []
           "alice" "POSTS" (mkWorld tt [])
           (mkWorld tt [EvNavigate "https://x.com/alice"])).
  - vm_compute. reflexivity.
  - intros h. exists h. reflexivity.
  - vm_compute. reflexivity.
  - vm_compute. reflexivity.
  - vm_compute. reflexivity.
Defined.

(** ** Inactive followers *)

Module FollowerProofs.
Import Followers.

Lemma isInactive_spec (now : Z) (date : option JsDate) :
  isInactive now date = true <->
  exists t, date = Some (Some t) /\
            (now - t > CONFIG.inactiveDays * Zpos ms_per_day)%Z.
Proof.
  unfold isInactive. destruct date as [[t|]|].
  - unfold Qle_bool. cbn [Qnum Qden inject_Z].
    rewrite negb_true_iff, Z.leb_gt. split.
    + intros Hlt. exists t. split; [reflexivity | lia].
    + intros (t' & [= <-] & Hgt). lia.
  - split; [discriminate | intros (t & [=] & _)].
  - split; [discriminate | intros (t & [=] & _)].
Qed.



Section Bodies.
Context {H : Type}.

(** A removal is attempted only on a follower that the activity check
    reported inactive. *)
Lemma block_unblock_removal (browser : BlockUnblock.Browser H) parse
    follower (st : State H) :
  events (BlockUnblock.body browser parse follower st) = events st \/
  events (BlockUnblock.body browser parse follower st) =
    Removing (username follower) :: events st /\
  exists doc h,
    BlockUnblock.open_profile browser (username follower) (page st) =
      (Ok doc, h) /\
    inactive (BlockUnblock.checkUserActivity
                (BlockUnblock.clock browser h) parse doc) = true.
Proof.
  unfold BlockUnblock.body, BlockUnblock.caught.
  destruct (BlockUnblock.open_profile _ _ _) as [[doc|m] h];
    [| left; reflexivity].
  destruct (inactive _) eqn:I; [| left; reflexivity].
  right. split; [| eauto].
  destruct (BlockUnblock.blockUser _ _ _) as [[r|m] h1]; [| reflexivity].
  destruct (success r); [| reflexivity].
  destruct (BlockUnblock.unblockUser _ _ _) as [[r'|m] h2]; reflexivity.
Qed.

Lemma popup_removal (browser : Popup.Browser H) parse follower
    (st : State H) :
  events (Popup.body browser parse follower st) = events st \/
  events (Popup.body browser parse follower st) =
    Removing (username follower) :: events st /\
  exists h,
    inactive (Popup.checkUserActivity (Popup.clock browser h) parse
                (Popup.popup_document browser h)) = true.
Proof.
  unfold Popup.body.
  destruct (Popup.window_open _ _ _) as [[[]|m] h]; try (left; reflexivity).
  destruct (Popup.waitForPopupLoad _ _) as [[] h1]; [| left; reflexivity].
  destruct (skip _); [left; reflexivity |].
  destruct (inactive _) eqn:I; [| left; reflexivity].
  right. split; [| eauto].
  destruct (Popup.removeFollower _ _ _) as [r h2]. reflexivity.
Qed.

Lemma block_unblock_modest (browser : BlockUnblock.Browser H) parse :
  modest (BlockUnblock.body browser parse).
Proof.
  intros follower st. split.
  - unfold BlockUnblock.body, BlockUnblock.caught.
    repeat (match goal with
            | |- context [match ?x with _ => _ end] => destruct x
            | |- context [if ?x then _ else _] => destruct x
            end; try reflexivity).
  - destruct (block_unblock_removal browser parse follower st)
      as [E | [E _]]; auto.
Qed.

Lemma popup_modest (browser : Popup.Browser H) parse :
  modest (Popup.body browser parse).
Proof.
  intros follower st. split.
  - unfold Popup.body.
    repeat (match goal with
            | |- context [match ?x with _ => _ end] => destruct x
            | |- context [if ?x then _ else _] => destruct x
            end; try reflexivity).
  - destruct (popup_removal browser parse follower st) as [E | [E _]]; auto.
Qed.

End Bodies.
End FollowerProofs.


(** ** The processed set of the follower loop *)

Module ProcessedProofs.
Import Followers.

Lemma dedupe_spec (followers : list Follower) : forall (seen : gset string),
  NoDup (username <$> dedupe seen followers) /\
  (forall f, f ∈ dedupe seen followers -> username f ∉ seen).
Proof.
  induction followers as [|f rest IH]; intros seen; simpl.
  - split; [constructor | intros f Hf; inversion Hf].
  - destruct (decide (username f ∈ seen)) as [Hin|Hout].
    + apply IH.
    + destruct (IH ({[username f]} ∪ seen)) as [Hnd Hfresh].
      split.
      * rewrite fmap_cons. apply NoDup_cons. split; [| exact Hnd].
        intros Hmem. apply list_elem_of_fmap in Hmem.
        destruct Hmem as (g & Hg & Hgin).
        apply Hfresh in Hgin. apply Hgin. rewrite <- Hg.
        apply elem_of_union_l, elem_of_singleton. reflexivity.
      * intros g Hg. apply elem_of_cons in Hg. destruct Hg as [-> | Hg].
        -- exact Hout.
        -- apply Hfresh in Hg. intros Hseen. apply Hg.
           apply elem_of_union_r. exact Hseen.
Qed.

Lemma popup_candidates_distinct (cells : list Cell) :
  NoDup (username <$> Popup.getFollowerElements cells).
Proof. apply dedupe_spec. Qed.

(** The form without the extra pass can list a username twice. *)
Lemma block_unblock_candidates_may_repeat :
  username <$> BlockUnblock.getFollowerElements
                 [mkCell 0 (Some "/bob"); mkCell 1 (Some "/bob")] =
  ["bob"; "bob"].
Proof. reflexivity. Qed.

Lemma initial_disciplined {H : Type} (h : H) : Disciplined (initial h).
Proof.
  unfold Disciplined, initial. simpl.
  split; [constructor |]. split; [reflexivity |]. split; [exact I |].
  intros user. split; intros Hu; [inversion Hu |].
  apply elem_of_empty in Hu. contradiction.
Qed.

Lemma disciplined_checked_once {H : Type} (query_cells : H -> list Cell)
    (getFollowerElements : list Cell -> list Follower) (st : State H) :
  Disciplined st ->
  CheckedOnce (newFollowers query_cells getFollowerElements) st.
Proof.
  intros (Hnd & Hck & Hord & Hset). unfold CheckedOnce. rewrite Hck.
  split; [exact Hnd |]. split; [exact Hord |]. split.
  - intros user. apply Hset.
  - intros f Hf. unfold newFollowers in Hf.
    apply list_elem_of_filter in Hf. exact (proj1 Hf).
Qed.

Section Loop.
Context {H : Type}.
Variable query_cells : H -> list Cell.
Variable scrollBy : H -> H.
Variable getFollowerElements : list Cell -> list Follower.
Variable body : Follower -> State H -> State H.
Hypothesis body_modest : modest body.

Lemma newFollowers_unprocessed (st : State H) (f : Follower) :
  f ∈ newFollowers query_cells getFollowerElements st ->
  username f ∉ processedUsernames st.
Proof.
  unfold newFollowers. intros Hf. apply list_elem_of_filter in Hf.
  exact (proj1 Hf).
Qed.

Lemma body_disciplined (f : Follower) (st : State H) :
  Disciplined st -> Disciplined (body f st).
Proof.
  intros (Hnd & Hck & Hord & Hset).
  destruct (body_modest f st) as [Hsame [Hev | Hev]];
    unfold Disciplined; rewrite Hsame, Hev; simpl; auto.
Qed.

Lemma iteration_disciplined (st : State H) :
  Disciplined st ->
  match iteration query_cells scrollBy getFollowerElements body st with
  | inl st' | inr st' => Disciplined st'
  end.
Proof.
  intros D. unfold iteration.
  destruct (newFollowers query_cells getFollowerElements st)
    as [|follower rest] eqn:N.
  - destruct (CONFIG.maxEmptyAttempts <=? S (consecutiveEmpty st))%nat;
      exact D.
  - apply body_disciplined.
    assert (Hnew : username follower ∉ processedUsernames st).
    { apply newFollowers_unprocessed. rewrite N. apply list_elem_of_here. }
    destruct D as (Hnd & Hck & Hord & Hset).
    unfold Disciplined. simpl.
    split; [| split; [| split]].
    + apply NoDup_cons. split; [| exact Hnd].
      intros Hin. apply Hset in Hin. contradiction.
    + now rewrite Hck.
    + split; [reflexivity | exact Hord].
    + intros user.
      rewrite elem_of_cons, Hset, elem_of_union, elem_of_singleton.
      reflexivity.
Qed.

(** A run that has ended is the progress made with the same fuel. *)
Lemma run_progress (fuel : nat) : forall (st st' : State H),
  run query_cells scrollBy getFollowerElements body fuel st = Some st' ->
  progress query_cells scrollBy getFollowerElements body fuel st = st'.
Proof.
  induction fuel as [|fuel IH]; intros st st'; simpl; [discriminate |].
  destruct (iteration query_cells scrollBy getFollowerElements body st)
    as [st1|st1]; [apply IH | congruence].
Qed.

Lemma progress_disciplined (fuel : nat) : forall (st : State H),
  Disciplined st ->
  Disciplined
    (progress query_cells scrollBy getFollowerElements body fuel st).
Proof.
  induction fuel as [|fuel IH]; intros st D; [exact D |].
  simpl. pose proof (iteration_disciplined st D) as P.
  destruct (iteration query_cells scrollBy getFollowerElements body st)
    as [st'|st']; [apply IH |]; exact P.
Qed.

End Loop.

End ProcessedProofs.

(** C10: in a run of the follower loop, finished or not, every check begins
    directly after its username entered [processedUsernames]; no username
    is checked twice; the usernames checked are members of the set; the
    candidates kept for a scan are not in the set. This holds of both forms
    of the script, and in the form whose [getFollowerElements] ends with
    the pass over [seen], the candidate list of a scan holds each username
    at most once. *)
Theorem C10_each_follower_checked_at_most_once :
  forall (H : Type) (popup : Followers.Popup.Browser H)
         (browser : Followers.BlockUnblock.Browser H)
         (parse : string -> Followers.JsDate) (fuel : nat) (h0 : H),
    Followers.CheckedOnce
      (Followers.newFollowers (Followers.Popup.query_cells popup)
                              Followers.Popup.getFollowerElements)
      (Followers.Popup.main_progress popup parse fuel (Followers.initial h0)) /\
    Followers.CheckedOnce
      (Followers.newFollowers (Followers.BlockUnblock.query_cells browser)
                              Followers.BlockUnblock.getFollowerElements)
      (Followers.BlockUnblock.main_progress browser parse fuel
         (Followers.initial h0)) /\
    (forall cells,
        NoDup (Followers.username <$>
               Followers.Popup.getFollowerElements cells)).
Proof.
  intros H popup browser parse fuel h0.
  split; [| split].
  - apply ProcessedProofs.disciplined_checked_once.
    unfold Followers.Popup.main_progress.
    apply ProcessedProofs.progress_disciplined.
    + apply FollowerProofs.popup_modest.
    + apply ProcessedProofs.initial_disciplined.
  - apply ProcessedProofs.disciplined_checked_once.
    unfold Followers.BlockUnblock.main_progress.
    apply ProcessedProofs.progress_disciplined.
    + apply FollowerProofs.block_unblock_modest.
    + apply ProcessedProofs.initial_disciplined.
  - apply ProcessedProofs.popup_candidates_distinct.
Qed.

(** * Further properties of the code *)

(** ** The snapshot interpreter *)

Module InterpreterFacts.
Import Js JsFacts Lines.

Lemma append_assoc (s t u : string) : (s +:+ t) +:+ u = s +:+ (t +:+ u).
Proof.
  induction s as [|c s IH]; [reflexivity |].
  rewrite !append_cons. now rewrite IH.
Qed.

(** What the expression captures is well formed and occurs in the line. *)
Lemma match_handle_sound (attr : string) (quote : ascii -> bool)
    (line h : string) :
  match_handle attr quote line = Some h ->
  well_formed quote h /\ includes line h = true.
Proof.
  intros M. apply match_handle_spec in M.
  destruct M as (pre & s & -> & M & _).
  apply match_here_spec in M.
  destruct M as (q1 & q2 & rest & -> & _ & _ & Hne & A).
  split; [split; assumption |].
  apply includes_spec.
  exists (pre +:+ attr +:+ String q1 ""), (String q2 rest).
  rewrite !append_assoc. reflexivity.
Qed.

Lemma truthy_of_well_formed (quote : ascii -> bool) (h : string) :
  well_formed quote h -> truthy_handle (Some h) = true.
Proof. intros [Hne _]. destruct h; [contradiction | reflexivity]. Qed.

Lemma devtools_candidates_loop (lines : list string) :
  text <$> DevTools.findTweetElements_loop lines =
    List.filter is_container_uid lines /\
  Forall (fun t => DevTools.match_uid (text t) = Some (handle t))
         (DevTools.findTweetElements_loop lines).
Proof.
  induction lines as [|line lines [IHt IHf]]; [split; [reflexivity | constructor] |].
  simpl. unfold is_container_uid at 1.
  destruct (includes line "article"); simpl; [| split; assumption].
  destruct (DevTools.match_uid line) as [uid|] eqn:M; simpl.
  - split; [now rewrite <- IHt | constructor; [exact M | exact IHf]].
  - split; assumption.
Qed.

Lemma playwright_candidates_loop (lines : list string) :
  text <$> Playwright.findTweetElements_loop lines =
    List.filter is_container_ref lines /\
  Forall (fun t => Playwright.match_ref (text t) = Some (handle t))
         (Playwright.findTweetElements_loop lines).
Proof.
  induction lines as [|line lines [IHt IHf]]; [split; [reflexivity | constructor] |].
  simpl. unfold is_container_ref at 1.
  destruct (includes line "article"); simpl; [| split; assumption].
  destruct (Playwright.match_ref line) as [ref|] eqn:M; simpl.
  - split; [now rewrite <- IHt | constructor; [exact M | exact IHf]].
  - split; assumption.
Qed.

End InterpreterFacts.

(** X1: the candidates that [findTweetElements] returns are the lines of
    the snapshot that mention [article] and carry a handle, one candidate
    per such line and in the order of the snapshot; the handle of a
    candidate is the first handle on its line, it is not empty, and it
    occurs in the text of the candidate. This holds of both forms. *)
Theorem X1_candidates_are_the_container_lines :
  forall (snapshot : JsValue) (tweets : list Tweet),
    (DevTools.findTweetElements snapshot = Ok tweets ->
     exists lines,
       DevTools.snapshot_lines snapshot = Ok lines /\
       text <$> tweets = List.filter Lines.is_container_uid lines /\
       Forall (fun t =>
                 DevTools.match_uid (text t) = Some (handle t) /\
                 Js.includes (text t) (handle t) = true /\
                 Js.truthy_handle (Some (handle t)) = true) tweets) /\
    (Playwright.findTweetElements snapshot = Ok tweets ->
     exists lines,
       Playwright.snapshot_lines snapshot = Ok lines /\
       text <$> tweets = List.filter Lines.is_container_ref lines /\
       Forall (fun t =>
                 Playwright.match_ref (text t) = Some (handle t) /\
                 Js.includes (text t) (handle t) = true /\
                 Js.truthy_handle (Some (handle t)) = true) tweets).
Proof.
  intros snapshot tweets. split.
  - unfold DevTools.findTweetElements.
    destruct (DevTools.snapshot_lines snapshot) as [lines|m]; [| discriminate].
    simpl. intros [= <-]. exists lines. split; [reflexivity |].
    destruct (InterpreterFacts.devtools_candidates_loop lines) as [Ht Hf].
    split; [exact Ht |].
    eapply Forall_impl; [exact Hf |]. intros t M. simpl in M.
    destruct (InterpreterFacts.match_handle_sound _ _ _ _ M) as [W I].
    repeat split; try assumption.
    eapply InterpreterFacts.truthy_of_well_formed; exact W.
  - unfold Playwright.findTweetElements.
    destruct (Playwright.snapshot_lines snapshot) as [lines|m]; [| discriminate].
    simpl. intros [= <-]. exists lines. split; [reflexivity |].
    destruct (InterpreterFacts.playwright_candidates_loop lines) as [Ht Hf].
    split; [exact Ht |].
    eapply Forall_impl; [exact Hf |]. intros t M. simpl in M.
    destruct (InterpreterFacts.match_handle_sound _ _ _ _ M) as [W I].
    repeat split; try assumption.
    eapply InterpreterFacts.truthy_of_well_formed; exact W.
Qed.

Module LookupFacts.
Import Js Lines.

Lemma findDeleteButton_loop_sound (lines : list string) (h : string) :
  DevTools.findDeleteButton_loop lines = Some h ->
  exists line, line ∈ lines /\ mentions "Delete" "delete" line = true /\
               DevTools.match_uid line = Some h.
Proof.
  induction lines as [|line lines IH]; simpl; [discriminate |].
  destruct (includes line "Delete" || includes line "delete") eqn:W.
  - destruct (DevTools.match_uid line) as [u|] eqn:M.
    + intros [= ->]. exists line. split; [apply list_elem_of_here | auto].
    + intros E. destruct (IH E) as (l & Hl & R).
      exists l. split; [apply list_elem_of_further; exact Hl | exact R].
  - intros E. destruct (IH E) as (l & Hl & R).
    exists l. split; [apply list_elem_of_further; exact Hl | exact R].
Qed.

Lemma findUnretweetConfirmButton_loop_sound (lines : list string) (h : string) :
  DevTools.findUnretweetConfirmButton_loop lines = Some h ->
  exists line, line ∈ lines /\ includes line "Undo" = true /\
               DevTools.match_uid line = Some h.
Proof.
  induction lines as [|line lines IH]; simpl; [discriminate |].
  destruct (includes line "Undo") eqn:W.
  - destruct (DevTools.match_uid line) as [u|] eqn:M.
    + intros [= ->]. exists line. split; [apply list_elem_of_here | auto].
    + intros E. destruct (IH E) as (l & Hl & R).
      exists l. split; [apply list_elem_of_further; exact Hl | exact R].
  - intros E. destruct (IH E) as (l & Hl & R).
    exists l. split; [apply list_elem_of_further; exact Hl | exact R].
Qed.

Lemma findMoreButton_loop_sound (uid : string) (lines : list string) :
  forall (ctx : bool) (h : string),
    DevTools.findMoreButton_loop uid ctx lines = Some h ->
    exists line, line ∈ lines /\ mentions "More" "caret" line = true /\
                 DevTools.match_uid line = Some h.
Proof.
  induction lines as [|line lines IH]; intros ctx h; simpl; [discriminate |].
  destruct ((includes line uid || ctx) &&
            (includes line "More" || includes line "caret")) eqn:W.
  - apply andb_true_iff in W. destruct W as [_ W].
    destruct (DevTools.match_uid line) as [u|] eqn:M.
    + intros [= ->]. exists line. split; [apply list_elem_of_here | auto].
    + destruct (_ && _ && _); [discriminate |].
      intros E. destruct (IH _ _ E) as (l & Hl & R).
      exists l. split; [apply list_elem_of_further; exact Hl | exact R].
  - destruct (_ && _ && _); [discriminate |].
    intros E. destruct (IH _ _ E) as (l & Hl & R).
    exists l. split; [apply list_elem_of_further; exact Hl | exact R].
Qed.

Lemma findUnretweetButton_loop_sound (uid : string) (lines : list string) :
  forall (ctx : bool) (h : string),
    DevTools.findUnretweetButton_loop uid ctx lines = Some h ->
    exists line, line ∈ lines /\ includes line "unretweet" = true /\
                 DevTools.match_uid line = Some h.
Proof.
  induction lines as [|line lines IH]; intros ctx h; simpl; [discriminate |].
  destruct ((includes line uid || ctx) && includes line "unretweet") eqn:W.
  - apply andb_true_iff in W. destruct W as [_ W].
    destruct (DevTools.match_uid line) as [u|] eqn:M.
    + intros [= ->]. exists line. split; [apply list_elem_of_here | auto].
    + destruct (_ && _ && _); [discriminate |].
      intros E. destruct (IH _ _ E) as (l & Hl & R).
      exists l. split; [apply list_elem_of_further; exact Hl | exact R].
  - destruct (_ && _ && _); [discriminate |].
    intros E. destruct (IH _ _ E) as (l & Hl & R).
    exists l. split; [apply list_elem_of_further; exact Hl | exact R].
Qed.

(** From a lookup on the lines to the lookup on the snapshot. *)
Lemma lift_sound (snapshot : JsValue) (wanted : string -> bool)
    (loop : list string -> option string) (h : string) :
  (forall lines, loop lines = Some h ->
     exists line, line ∈ lines /\ wanted line = true /\
                  DevTools.match_uid line = Some h) ->
  bindE (DevTools.snapshot_lines snapshot) (fun lines => Ok (loop lines))
    = Ok (Some h) ->
  Carried.by_line snapshot wanted h /\ truthy_handle (Some h) = true.
Proof.
  intros S. destruct (DevTools.snapshot_lines snapshot) as [lines|m] eqn:L;
    simpl; [| discriminate].
  intros [= E]. destruct (S lines E) as (line & Hl & W & M).
  split.
  - exists lines, line. auto.
  - destruct (InterpreterFacts.match_handle_sound _ _ _ _ M) as [Wf _].
    eapply InterpreterFacts.truthy_of_well_formed; exact Wf.
Qed.

End LookupFacts.

(** X2: a lookup of the interpreter never invents a handle. What
    [findMoreButtonInTweet], [findDeleteButton], [findUnretweetButton] and
    [findUnretweetConfirmButton] return is the first handle of a line of the
    snapshot that mentions the word the lookup searches for; it is never
    the empty string, so the tests [if (!uid)] of the controller reject
    exactly the lookups that found nothing. *)
Theorem X2_lookups_return_handles_of_the_snapshot :
  forall (snapshot : JsValue) (tweet : Tweet) (h : string),
    (DevTools.findMoreButtonInTweet snapshot tweet = Ok (Some h) ->
     Carried.by_line snapshot (Lines.mentions "More" "caret") h /\
     Js.truthy_handle (Some h) = true) /\
    (DevTools.findDeleteButton snapshot = Ok (Some h) ->
     Carried.by_line snapshot (Lines.mentions "Delete" "delete") h /\
     Js.truthy_handle (Some h) = true) /\
    (DevTools.findUnretweetButton snapshot tweet = Ok (Some h) ->
     Carried.by_line snapshot (fun line => Js.includes line "unretweet") h /\
     Js.truthy_handle (Some h) = true) /\
    (DevTools.findUnretweetConfirmButton snapshot = Ok (Some h) ->
     Carried.by_line snapshot (fun line => Js.includes line "Undo") h /\
     Js.truthy_handle (Some h) = true).
Proof.
  intros snapshot tweet h. split; [| split; [| split]]; intros E.
  - eapply (LookupFacts.lift_sound snapshot _
              (DevTools.findMoreButton_loop (handle tweet) false)); [| exact E].
    intros lines. apply LookupFacts.findMoreButton_loop_sound.
  - eapply (LookupFacts.lift_sound snapshot _ DevTools.findDeleteButton_loop);
      [| exact E].
    intros lines. apply LookupFacts.findDeleteButton_loop_sound.
  - eapply (LookupFacts.lift_sound snapshot _
              (DevTools.findUnretweetButton_loop (handle tweet) false));
      [| exact E].
    intros lines. apply LookupFacts.findUnretweetButton_loop_sound.
  - eapply (LookupFacts.lift_sound snapshot _
              DevTools.findUnretweetConfirmButton_loop); [| exact E].
    intros lines. apply LookupFacts.findUnretweetConfirmButton_loop_sound.
Qed.

Module ScopeFacts.
Import Js.

(** Inside the context of an item whose lines hold no foreign container
    marker, the two scoped lookups read up to the next marker and no
    further. *)
Lemma findMoreButton_loop_window (uid next : string) (after : list string)
    (own : list string) :
  Forall (fun l => includes l "article" = true -> includes l uid = true) own ->
  includes next "article" = true ->
  includes next uid = false ->
  DevTools.findMoreButton_loop uid true (own ++ next :: after) =
  DevTools.findMoreButton_loop uid true (own ++ [next]).
Proof.
  intros Hown Ha Hu. induction Hown as [|line own Hline _ IH].
  - apply findMoreButton_loop_stops; assumption.
  - cbn [app DevTools.findMoreButton_loop].
    rewrite orb_true_r. cbn [andb].
    destruct (if includes line "More" || includes line "caret"
              then DevTools.match_uid line else None); [reflexivity |].
    destruct (includes line "article") eqn:A; cbn [andb]; [| exact IH].
    rewrite (Hline eq_refl). exact IH.
Qed.

Lemma findUnretweetButton_loop_window (uid next : string) (after : list string)
    (own : list string) :
  Forall (fun l => includes l "article" = true -> includes l uid = true) own ->
  includes next "article" = true ->
  includes next uid = false ->
  DevTools.findUnretweetButton_loop uid true (own ++ next :: after) =
  DevTools.findUnretweetButton_loop uid true (own ++ [next]).
Proof.
  intros Hown Ha Hu. induction Hown as [|line own Hline _ IH].
  - cbn [app DevTools.findUnretweetButton_loop].
    rewrite Hu, Ha. cbn [orb andb negb].
    destruct (if includes next "unretweet" then DevTools.match_uid next
              else None); reflexivity.
  - cbn [app DevTools.findUnretweetButton_loop].
    rewrite orb_true_r. cbn [andb].
    destruct (if includes line "unretweet"
              then DevTools.match_uid line else None); [reflexivity |].
    destruct (includes line "article") eqn:A; cbn [andb]; [| exact IH].
    rewrite (Hline eq_refl). exact IH.
Qed.

Lemma findUnretweetButton_loop_skips (uid : string) (before rest : list string) :
  Forall (fun line => includes line uid = false) before ->
  DevTools.findUnretweetButton_loop uid false (before ++ rest) =
  DevTools.findUnretweetButton_loop uid false rest.
Proof.
  induction 1 as [|line before Hline _ IH]; [reflexivity |].
  simpl. rewrite Hline. simpl. exact IH.
Qed.

End ScopeFacts.

(** X3: how far the scoped lookups read. When no line before the first
    line of an item contains the handle of the item, and no line of the
    item is the container marker of another item, [findMoreButtonInTweet]
    and [findUnretweetButton] depend only on the lines of the item and on
    the marker line that follows them: what precedes the item and what
    follows the next marker does not change the result. *)
Theorem X3_scoped_lookups_read_up_to_the_next_marker :
  forall (snapshot snapshot' : JsValue) (tweet : Tweet)
         (before own after : list string) (first next : string),
    DevTools.snapshot_lines snapshot =
      Ok (before ++ first :: own ++ next :: after)%list ->
    DevTools.snapshot_lines snapshot' = Ok (first :: own ++ [next])%list ->
    Forall (fun l => Js.includes l (handle tweet) = false) before ->
    Js.includes first (handle tweet) = true ->
    Forall (fun l => Js.includes l "article" = true ->
                     Js.includes l (handle tweet) = true) own ->
    Js.includes next "article" = true ->
    Js.includes next (handle tweet) = false ->
    DevTools.findMoreButtonInTweet snapshot tweet =
      DevTools.findMoreButtonInTweet snapshot' tweet /\
    DevTools.findUnretweetButton snapshot tweet =
      DevTools.findUnretweetButton snapshot' tweet.
Proof.
  intros snapshot snapshot' tweet before own after first next
         L L' Hbefore Hfirst Hown Ha Hu.
  unfold DevTools.findMoreButtonInTweet, DevTools.findUnretweetButton.
  rewrite L, L'. simpl. split; f_equal.
  - rewrite findMoreButton_loop_skips by exact Hbefore.
    cbn [DevTools.findMoreButton_loop]. rewrite Hfirst. cbn [orb].
    now rewrite (ScopeFacts.findMoreButton_loop_window _ _ after own Hown Ha Hu).
  - rewrite ScopeFacts.findUnretweetButton_loop_skips by exact Hbefore.
    cbn [DevTools.findUnretweetButton_loop]. rewrite Hfirst. cbn [orb].
    now rewrite (ScopeFacts.findUnretweetButton_loop_window _ _ after own Hown Ha Hu).
Qed.

Lemma X3_scoped_lookups_read_up_to_the_next_marker_witness :
  DevTools.findMoreButtonInTweet
    (Scripted.page (Scripted.unlines
       [ "main 'timeline'"; "article uid='10'"; "  button 'More' uid='11'";
         "article uid='12'"; "  button 'More' uid='13'" ]))
    (mkTweet "10" "article uid='10'") =
  DevTools.findMoreButtonInTweet
    (Scripted.page (Scripted.unlines
       [ "article uid='10'"; "  button 'More' uid='11'"; "article uid='12'" ]))
    (mkTweet "10" "article uid='10'") /\
  DevTools.findUnretweetButton
    (Scripted.page (Scripted.unlines
       [ "main 'timeline'"; "article uid='10'"; "  button 'More' uid='11'";
         "article uid='12'"; "  button 'More' uid='13'" ]))
    (mkTweet "10" "article uid='10'") =
  DevTools.findUnretweetButton
    (Scripted.page (Scripted.unlines
       [ "article uid='10'"; "  button 'More' uid='11'"; "article uid='12'" ]))
    (mkTweet "10" "article uid='10'").
Proof.
  apply (X3_scoped_lookups_read_up_to_the_next_marker _ _ _
           ["main 'timeline'"] ["  button 'More' uid='11'"]
           ["  button 'More' uid='13'"] "article uid='10'" "article uid='12'").
  - vm_compute. reflexivity.
  - vm_compute. reflexivity.
  - repeat constructor.
  - vm_compute. reflexivity.
  - constructor; [| constructor]. vm_compute. discriminate.
  - vm_compute. reflexivity.
  - vm_compute. reflexivity.
Defined.

(** X4: when the container line of an item itself mentions [More] or
    [caret] (the words are part of the text of the post, say), and no
    earlier line contains the handle of the item, [findMoreButtonInTweet]
    returns the handle of the container, not that of a button inside it. *)
Theorem X4_container_line_that_mentions_More_wins :
  forall (snapshot : JsValue) (tweet : Tweet) (before rest : list string),
    DevTools.snapshot_lines snapshot = Ok (before ++ text tweet :: rest)%list ->
    Forall (fun l => Js.includes l (handle tweet) = false) before ->
    DevTools.match_uid (text tweet) = Some (handle tweet) ->
    Lines.mentions "More" "caret" (text tweet) = true ->
    DevTools.findMoreButtonInTweet snapshot tweet = Ok (Some (handle tweet)).
Proof.
  intros snapshot tweet before rest L Hbefore M W.
  unfold DevTools.findMoreButtonInTweet. rewrite L. simpl. f_equal.
  rewrite findMoreButton_loop_skips by exact Hbefore.
  cbn [DevTools.findMoreButton_loop].
  destruct (InterpreterFacts.match_handle_sound _ _ _ _ M) as [_ I].
  rewrite I. cbn [orb andb]. unfold Lines.mentions in W. rewrite W, M.
  reflexivity.
Qed.

Lemma X4_container_line_that_mentions_More_wins_witness :
  DevTools.findMoreButtonInTweet
    (Scripted.page (Scripted.unlines
       [ "article 'More news at ten' uid='10'"; "  button 'More' uid='11'" ]))
    (mkTweet "10" "article 'More news at ten' uid='10'") = Ok (Some "10").
Proof.
  apply (X4_container_line_that_mentions_More_wins _
           (mkTweet "10" "article 'More news at ten' uid='10'")
           [] ["  button 'More' uid='11'"]).
  - vm_compute. reflexivity.
  - constructor.
  - vm_compute. reflexivity.
  - vm_compute. reflexivity.
Defined.

(** ** The pagination controller *)

Module ContainmentFacts.
Import DevTools DevToolsController Reliable.

Section Proofs.
Context {H : Type} (tools : Tools H).
Hypothesis Hsnap : snapshots_work tools.
Hypothesis Hscript : scripts_work tools.

Lemma do_script_returns source (w : World H) :
  exists w', do_script tools source w = (Ok tt, w').
Proof.
  unfold do_script, record. destruct (Hscript source (host w)) as (h' & E).
  rewrite E. simpl. eauto.
Qed.

Lemma catch_block_returns n m (w : World H) :
  exists w', catch_block tools n m w = (Ok (Normal, n), w').
Proof.
  unfold catch_block, bind at 1.
  destruct (do_script_returns scroll_150 w) as (w' & E). rewrite E.
  simpl. eauto.
Qed.

Lemma iteration_returns vars (w : World H) :
  exists step w', iteration tools vars w = (Ok step, w').
Proof.
  unfold iteration, bind at 1, do_snapshot.
  destruct (Hsnap (host w)) as (snapshot & h' & tweets & E & T).
  rewrite E. unfold bind at 1, liftE. rewrite T.
  destruct tweets as [|tweet rest].
  - destruct (MAX_EMPTY_ATTEMPTS <=? S (consecutiveEmptyAttempts vars))%nat.
    + simpl. eauto.
    + unfold bind at 1.
      destruct (do_script_returns scroll_300
                  (mkWorld h' (EvSnapshot snapshot :: log w))) as (w' & S).
      rewrite S. simpl. eauto.
  - unfold bind at 1, try_catch.
    assert (R : exists r w1,
               match try_block tools snapshot tweet (deletedCount vars)
                       (mkWorld h' (EvSnapshot snapshot :: log w)) with
               | (Ok a, w') => (Ok a, w')
               | (Throw m, w') => catch_block tools (deletedCount vars) m w'
               end = (Ok r, w1)).
    { destruct (try_block tools snapshot tweet (deletedCount vars)
                  (mkWorld h' (EvSnapshot snapshot :: log w)))
        as [[r|m] w1]; [eauto |].
      destruct (catch_block_returns (deletedCount vars) m w1) as (w2 & C).
      rewrite C. eauto. }
    destruct R as ([flow n] & w1 & R). rewrite R.
    destruct flow; simpl.
    + unfold bind at 1.
      destruct (do_script_returns scroll_config w1) as (w2 & S).
      rewrite S. simpl. eauto.
    + eauto.
Qed.

Lemma while_hasMore_returns fuel : forall vars (w : World H),
  exists r w', while_hasMore tools fuel vars w = (Ok r, w').
Proof.
  induction fuel as [|fuel IH]; intros vars w; simpl.
  - unfold ret. eauto.
  - unfold bind at 1.
    destruct (iteration_returns vars w) as (step & w1 & E). rewrite E.
    destruct step as [vars'|vars'].
    + apply IH.
    + unfold ret. eauto.
Qed.

End Proofs.
End ContainmentFacts.

(** X5: the errors of the per-item steps are contained. On a host where a
    page always loads, a snapshot can always be captured and read, and a
    script always runs, [deleteContent] never throws, whatever the click
    and dialog primitives do: they may raise on every call. *)
Theorem X5_item_errors_do_not_end_the_run :
  forall (H : Type) (tools : Tools H),
    Reliable.navigation_works tools ->
    Reliable.snapshots_work tools ->
    Reliable.scripts_work tools ->
    forall (fuel : nat) (username contentType : string) (w : World H),
    exists result w',
      DevToolsController.deleteContent tools fuel username contentType w =
        (Ok result, w').
Proof.
  intros H tools Hnav Hsnap Hscript fuel username contentType w.
  unfold DevToolsController.deleteContent, bind at 1, do_navigate, record.
  destruct (Hnav (getProfileUrl username contentType) (host w)) as (h' & E).
  rewrite E. simpl.
  apply (ContainmentFacts.while_hasMore_returns tools Hsnap Hscript).
Qed.

Lemma X5_item_errors_do_not_end_the_run_witness :
  exists result w',
    DevToolsController.deleteContent
      (mkTools unit (fun _ h => (Ok tt, h))
               (fun h => (Ok Examples.dt_feed, h))
               (fun _ h => (Throw "stale handle", h))
               (fun h => (Throw "no dialog", h))
               (fun _ h => (Ok tt, h)))
      5 "alice" "POSTS" (mkWorld tt []) = (Ok result, w').
Proof.
  apply X5_item_errors_do_not_end_the_run.
  - intros url h. exists h. reflexivity.
  - intros h. exists Examples.dt_feed, h, [mkTweet "1" "article uid='1'"].
    split; [reflexivity | vm_compute; reflexivity].
  - intros source h. exists h. reflexivity.
Defined.

Module EmptyScanFacts.
Import DevTools DevToolsController EmptyScans.

Section Proofs.
Context {H : Type} (tools : Tools H).

Lemma iteration_trailing vars (w w' : World H) step :
  trailing (consecutiveEmptyAttempts vars) (log w) ->
  iteration tools vars w = (Ok step, w') ->
  match step with
  | Again vars' => trailing (consecutiveEmptyAttempts vars') (log w')
  | Finished _ => ended_on_three (log w')
  end.
Proof.
  intros T. unfold iteration, bind at 1, do_snapshot.
  destruct (take_snapshot tools (host w)) as [[snapshot|m] h1];
    [| discriminate].
  unfold bind at 1, liftE.
  destruct (findTweetElements snapshot) as [[|tweet rest]|m] eqn:E;
    [| | discriminate].
  - destruct vars as [n c]. cbn [consecutiveEmptyAttempts deletedCount] in *.
    destruct c as [|[|[|c]]]; cbn [Nat.leb MAX_EMPTY_ATTEMPTS];
      try contradiction.
    + unfold bind at 1, do_script, record. cbn [host log].
      destruct (evaluate_script tools scroll_300 h1) as [[[]|m] h2];
        cbn [fst snd]; [| discriminate].
      unfold bind, delay, ret.
      intros [= <- <-]. simpl. eauto.
    + unfold bind at 1, do_script, record. cbn [host log].
      destruct (evaluate_script tools scroll_300 h1) as [[[]|m] h2];
        cbn [fst snd]; [| discriminate].
      unfold bind, delay, ret.
      intros [= <- <-]. simpl.
      destruct T as (s1 & older & -> & E1). exists s1, snapshot, older. auto.
    + intros [= <- <-]. simpl.
      destruct T as (s1 & s2 & older & -> & E1 & E2).
      exists s1, s2, snapshot, older. auto.
  - unfold bind at 1.
    destruct (try_catch _ _ _) as [[[[] d]|m] w2]; simpl; try discriminate.
    + unfold bind at 1.
      destruct (do_script tools scroll_config w2) as [[[]|m] w3];
        [| discriminate].
      intros [= <- <-]. exact I.
    + intros [= <- <-]. exact I.
Qed.

Lemma while_hasMore_ends fuel : forall vars (w w' : World H) n,
  trailing (consecutiveEmptyAttempts vars) (log w) ->
  while_hasMore tools fuel vars w = (Ok (Some n), w') ->
  ended_on_three (log w').
Proof.
  induction fuel as [|fuel IH]; intros vars w w' n T; simpl; [discriminate |].
  unfold bind at 1.
  destruct (iteration tools vars w) as [[step|m] w1] eqn:E; [| discriminate].
  pose proof (iteration_trailing vars w w1 step T E) as P.
  destruct step as [vars'|vars'].
  - apply IH. exact P.
  - intros [= _ <-]. exact P.
Qed.

End Proofs.
End EmptyScanFacts.

(** X6: the loop has one way out. Whenever [deleteContent] returns a
    count, the last five things it asked of the host are an empty scan, a
    scroll, an empty scan, a scroll and an empty scan: it stops at the
    third empty scan in a row and at no other point. *)
Theorem X6_the_run_ends_on_three_empty_scans :
  forall (H : Type) (tools : Tools H) (fuel : nat)
         (username contentType : string) (w w' : World H) (n : nat),
    DevToolsController.deleteContent tools fuel username contentType w =
      (Ok (Some n), w') ->
    EmptyScans.ended_on_three (log w').
Proof.
  intros H tools fuel username contentType w w' n.
  unfold DevToolsController.deleteContent, bind at 1.
  destruct (do_navigate tools (getProfileUrl username contentType) w)
    as [[[]|m] w1]; [| discriminate].
  simpl. apply (EmptyScanFacts.while_hasMore_ends tools). exact I.
Qed.

Lemma X6_the_run_ends_on_three_empty_scans_witness :
  EmptyScans.ended_on_three
    (log (snd (DevToolsController.deleteContent Scripted.obliging 4
                 "alice" "POSTS"
                 (Scripted.start [Examples.dt_feed; Examples.dt_menu])))).
Proof.
  apply (X6_the_run_ends_on_three_empty_scans (list JsValue) Scripted.obliging
           4 "alice" "POSTS"
           (Scripted.start [Examples.dt_feed; Examples.dt_menu]) _ 1).
  vm_compute. reflexivity.
Defined.

Module CountFacts.
Import Counting.

Ltac case_primitives tools :=
  repeat (match goal with
          | |- context [take_snapshot tools ?h] =>
              destruct (take_snapshot tools h) as [[?|?] ?]
          | |- context [click tools ?u ?h] =>
              destruct (click tools u h) as [[[]|?] ?]
          | |- context [handle_dialog tools ?h] =>
              destruct (handle_dialog tools h) as [[[]|?] ?]
          | |- context [evaluate_script tools ?src ?h] =>
              destruct (evaluate_script tools src h) as [[[]|?] ?]
          | |- context [DevTools.findTweetElements ?s] =>
              destruct (DevTools.findTweetElements s) as [[|? ?]|?]
          | |- context [DevTools.findMoreButtonInTweet ?s ?t] =>
              destruct (DevTools.findMoreButtonInTweet s t) as [[[|? ?]|]|?]
          | |- context [DevTools.findDeleteButton ?s] =>
              destruct (DevTools.findDeleteButton s) as [[[|? ?]|]|?]
          | |- context [DevTools.findUnretweetButton ?s ?t] =>
              destruct (DevTools.findUnretweetButton s t) as [[[|? ?]|]|?]
          | |- context [DevTools.findUnretweetConfirmButton ?s] =>
              destruct (DevTools.findUnretweetConfirmButton s) as [[[|? ?]|]|?]
          | |- context [Playwright.findTweetElements ?s] =>
              destruct (Playwright.findTweetElements s) as [[|? ?]|?]
          | |- context [Playwright.findMoreButtonInTweet ?s ?t] =>
              destruct (Playwright.findMoreButtonInTweet s t) as [[[|? ?]|]|?]
          | |- context [Playwright.findDeleteButton ?s] =>
              destruct (Playwright.findDeleteButton s) as [[[|? ?]|]|?]
          | |- context [Playwright.findConfirmButton ?s] =>
              destruct (Playwright.findConfirmButton s) as [[[|? ?]|]|?]
          | |- context [Playwright.findUnretweetButton ?s ?t] =>
              destruct (Playwright.findUnretweetButton s t) as [[[|? ?]|]|?]
          | |- context [Playwright.findUnretweetConfirmButton ?s] =>
              destruct (Playwright.findUnretweetConfirmButton s)
                as [[[|? ?]|]|?]
          | |- context [if ?x then _ else _] => destruct x
          end; simpl).

Section Proofs.
Context {H : Type} (tools : Tools H).

Lemma devtools_iteration_paid vars (w w' : World H) step :
  DevToolsController.iteration tools vars w = (Ok step, w') ->
  paid vars (log w) (vars_of step) (log w').
Proof.
  destruct vars as [n c]. destruct w as [h l].
  unfold DevToolsController.iteration, DevToolsController.try_block,
         DevToolsController.catch_block, DevToolsController.repost_path,
         DevToolsController.ordinary_path, try_catch, bind, liftE, ret, delay,
         do_click, do_snapshot, do_dialog, do_script, record, paid.
  simpl.
  case_primitives tools;
    try discriminate;
    intros [= <- <-]; simpl;
    first [ exists 0; split; simpl; lia | exists 1; split; simpl; lia ].
Qed.

Lemma devtools_while_paid fuel : forall vars (w w' : World H) n,
  DevToolsController.while_hasMore tools fuel vars w = (Ok (Some n), w') ->
  exists k, n = deletedCount vars + k /\
            2 * k + length (clicks (log w)) <= length (clicks (log w')).
Proof.
  induction fuel as [|fuel IH]; intros vars w w' n; simpl; [discriminate |].
  unfold bind at 1.
  destruct (DevToolsController.iteration tools vars w) as [[step|m] w1] eqn:E;
    [| discriminate].
  apply devtools_iteration_paid in E. destruct E as (k & Ek & Lk).
  destruct step as [vars'|vars']; simpl in *.
  - intros R. apply IH in R. destruct R as (k' & -> & Lk').
    exists (k + k'). lia.
  - intros [= <- <-]. exists k. lia.
Qed.

Lemma playwright_iteration_paid vars (w w' : World H) step :
  Playwright.iteration tools vars w = (Ok step, w') ->
  paid vars (log w) (vars_of step) (log w').
Proof.
  destruct vars as [n c]. destruct w as [h l].
  unfold Playwright.iteration, Playwright.try_block,
         Playwright.catch_block, Playwright.repost_path,
         Playwright.ordinary_path, try_catch, bind, liftE, ret, delay,
         do_click, do_snapshot, do_dialog, do_script, record, paid.
  simpl.
  case_primitives tools;
    try discriminate;
    intros [= <- <-]; simpl;
    first [ exists 0; split; simpl; lia | exists 1; split; simpl; lia ].
Qed.

Lemma playwright_while_paid fuel : forall vars (w w' : World H) n,
  Playwright.while_hasMore tools fuel vars w = (Ok (Some n), w') ->
  exists k, n = deletedCount vars + k /\
            2 * k + length (clicks (log w)) <= length (clicks (log w')).
Proof.
  induction fuel as [|fuel IH]; intros vars w w' n; simpl; [discriminate |].
  unfold bind at 1.
  destruct (Playwright.iteration tools vars w) as [[step|m] w1] eqn:E;
    [| discriminate].
  apply playwright_iteration_paid in E. destruct E as (k & Ek & Lk).
  destruct step as [vars'|vars']; simpl in *.
  - intros R. apply IH in R. destruct R as (k' & -> & Lk').
    exists (k + k'). lia.
  - intros [= <- <-]. exists k. lia.
Qed.

End Proofs.
End CountFacts.

(** X7: the returned count never runs ahead of what was done. In the
    Chrome DevTools form, when [deleteContent] returns [n], the run has
    made at least two clicks for every counted item. *)
Theorem X7_devtools_count_is_backed_by_clicks :
  forall (H : Type) (tools : Tools H) (fuel : nat)
         (username contentType : string) (w w' : World H) (n : nat),
    DevToolsController.deleteContent tools fuel username contentType w =
      (Ok (Some n), w') ->
    2 * n + length (clicks (log w)) <= length (clicks (log w')).
Proof.
  intros H tools fuel username contentType w w' n.
  unfold DevToolsController.deleteContent, bind at 1, do_navigate, record.
  destruct (navigate_page tools _ (host w)) as [[[]|m] h1]; cbn [fst snd];
    [| discriminate].
  unfold bind at 1, delay, ret. intros R.
  apply CountFacts.devtools_while_paid in R. destruct R as (k & -> & L).
  simpl in L. simpl. lia.
Qed.

Lemma X7_devtools_count_is_backed_by_clicks_witness :
  2 * 1 + length (clicks (log (Scripted.start
                                 [Examples.dt_feed; Examples.dt_menu]))) <=
  length (clicks (log (snd (DevToolsController.deleteContent Scripted.obliging
                               4 "alice" "POSTS"
                               (Scripted.start
                                  [Examples.dt_feed; Examples.dt_menu]))))).
Proof.
  apply (X7_devtools_count_is_backed_by_clicks (list JsValue)
           Scripted.obliging 4 "alice" "POSTS").
  vm_compute. reflexivity.
Defined.

(** X8: the same bound holds in the Playwright form, although there the
    third click, on the confirmation, is optional: a counted item has
    taken at least two clicks. *)
Theorem X8_playwright_count_is_backed_by_clicks :
  forall (H : Type) (tools : Tools H) (fuel : nat)
         (username contentType : string) (w w' : World H) (n : nat),
    Playwright.deleteContent tools fuel username contentType w =
      (Ok (Some n), w') ->
    2 * n + length (clicks (log w)) <= length (clicks (log w')).
Proof.
  intros H tools fuel username contentType w w' n.
  unfold Playwright.deleteContent, bind at 1, do_navigate, record.
  destruct (navigate_page tools _ (host w)) as [[[]|m] h1]; cbn [fst snd];
    [| discriminate].
  unfold bind at 1, delay, ret. intros R.
  apply CountFacts.playwright_while_paid in R. destruct R as (k & -> & L).
  simpl in L. simpl. lia.
Qed.

Lemma X8_playwright_count_is_backed_by_clicks_witness :
  2 * 1 + length (clicks (log (Scripted.start
                                 [Examples.pw_feed; Examples.pw_menu;
                                  Examples.pw_no_confirm]))) <=
  length (clicks (log (snd (Playwright.deleteContent Scripted.obliging
                               4 "alice" "POSTS"
                               (Scripted.start
                                  [Examples.pw_feed; Examples.pw_menu;
                                   Examples.pw_no_confirm]))))).
Proof.
  apply (X8_playwright_count_is_backed_by_clicks (list JsValue)
           Scripted.obliging 4 "alice" "POSTS").
  vm_compute. reflexivity.
Defined.

(** ** All content types *)

Module AllContentFacts.
Import CountFacts.

Section Proofs.
Context {H : Type} (tools : Tools H).

Lemma devtools_iteration_navigations vars (w w' : World H) step :
  DevToolsController.iteration tools vars w = (Ok step, w') ->
  navigations (log w') = navigations (log w).
Proof.
  destruct vars as [n c]. destruct w as [h l].
  unfold DevToolsController.iteration, DevToolsController.try_block,
         DevToolsController.catch_block, DevToolsController.repost_path,
         DevToolsController.ordinary_path, try_catch, bind, liftE, ret, delay,
         do_click, do_snapshot, do_dialog, do_script, record.
  simpl.
  case_primitives tools; try discriminate; intros [= <- <-]; reflexivity.
Qed.

Lemma devtools_while_navigations fuel : forall vars (w w' : World H) n,
  DevToolsController.while_hasMore tools fuel vars w = (Ok (Some n), w') ->
  navigations (log w') = navigations (log w).
Proof.
  induction fuel as [|fuel IH]; intros vars w w' n; simpl; [discriminate |].
  unfold bind at 1.
  destruct (DevToolsController.iteration tools vars w) as [[step|m] w1] eqn:E;
    [| discriminate].
  apply devtools_iteration_navigations in E.
  destruct step as [vars'|vars'].
  - intros R. apply IH in R. congruence.
  - intros [= <- <-]. exact E.
Qed.

Lemma devtools_deleteContent_navigations fuel username contentType
    (w w' : World H) n :
  DevToolsController.deleteContent tools fuel username contentType w =
    (Ok (Some n), w') ->
  navigations (log w') =
    getProfileUrl username contentType :: navigations (log w).
Proof.
  unfold DevToolsController.deleteContent, bind at 1, do_navigate, record.
  destruct (navigate_page tools _ (host w)) as [[[]|m] h1]; cbn [fst snd];
    [| discriminate].
  unfold bind at 1, delay, ret. intros R.
  apply devtools_while_navigations in R. exact R.
Qed.

Lemma playwright_iteration_navigations vars (w w' : World H) step :
  Playwright.iteration tools vars w = (Ok step, w') ->
  navigations (log w') = navigations (log w).
Proof.
  destruct vars as [n c]. destruct w as [h l].
  unfold Playwright.iteration, Playwright.try_block,
         Playwright.catch_block, Playwright.repost_path,
         Playwright.ordinary_path, try_catch, bind, liftE, ret, delay,
         do_click, do_snapshot, do_dialog, do_script, record.
  simpl.
  case_primitives tools; try discriminate; intros [= <- <-]; reflexivity.
Qed.

Lemma playwright_while_navigations fuel : forall vars (w w' : World H) n,
  Playwright.while_hasMore tools fuel vars w = (Ok (Some n), w') ->
  navigations (log w') = navigations (log w).
Proof.
  induction fuel as [|fuel IH]; intros vars w w' n; simpl; [discriminate |].
  unfold bind at 1.
  destruct (Playwright.iteration tools vars w) as [[step|m] w1] eqn:E;
    [| discriminate].
  apply playwright_iteration_navigations in E.
  destruct step as [vars'|vars'].
  - intros R. apply IH in R. congruence.
  - intros [= <- <-]. exact E.
Qed.

Lemma playwright_deleteContent_navigations fuel username contentType
    (w w' : World H) n :
  Playwright.deleteContent tools fuel username contentType w =
    (Ok (Some n), w') ->
  navigations (log w') =
    getProfileUrl username contentType :: navigations (log w).
Proof.
  unfold Playwright.deleteContent, bind at 1, do_navigate, record.
  destruct (navigate_page tools _ (host w)) as [[[]|m] h1]; cbn [fst snd];
    [| discriminate].
  unfold bind at 1, delay, ret. intros R.
  apply playwright_while_navigations in R. exact R.
Qed.

(** The shape of a summary, whichever [deleteContent] is run. *)
Lemma sequence_returns deleteContent username (w w' : World H) summary :
  AllContent.sequence deleteContent username w = (Ok (Some summary), w') ->
  exists w1,
    deleteContent username "POSTS" w = (Ok (Some (posts summary)), w1) /\
    deleteContent username "REPLIES" w1 = (Ok (Some (replies summary)), w') /\
    reposts summary = 0 /\
    total summary = posts summary + replies summary.
Proof.
  unfold AllContent.sequence, bind at 1.
  destruct (deleteContent username "POSTS" w) as [[[p|]|m] w1] eqn:P;
    try discriminate.
  unfold bind at 1.
  destruct (deleteContent username "REPLIES" w1) as [[[r|]|m] w2] eqn:R;
    try discriminate.
  intros [= <- <-]. exists w1. simpl. rewrite R. repeat split; reflexivity.
Qed.

End Proofs.
End AllContentFacts.

(** X9: [deleteAllContent] visits two addresses and no other: the profile
    first, then its replies tab. It never opens a page of reposts, its
    summary always reports zero reposts (the reposts undone on the way are
    counted with the posts and replies), and the total is the sum of the
    two counts. Both forms. *)
Theorem X9_all_content_is_posts_then_replies :
  forall (H : Type) (tools : Tools H) (fuel : nat) (username : string)
         (w w' : World H) (summary : Summary),
    AllContent.devtools_deleteAllContent tools fuel username w =
      (Ok (Some summary), w') \/
    AllContent.playwright_deleteAllContent tools fuel username w =
      (Ok (Some summary), w') ->
    navigations (log w') =
      (baseUrl username +:+ "/with_replies") :: baseUrl username ::
      navigations (log w) /\
    reposts summary = 0 /\
    total summary = posts summary + replies summary.
Proof.
  intros H tools fuel username w w' summary [R|R];
    apply AllContentFacts.sequence_returns in R;
    destruct R as (w1 & P & R & Z & T); (split; [| auto]).
  - apply AllContentFacts.devtools_deleteContent_navigations in P, R.
    rewrite R, P. unfold getProfileUrl.
    change (suffix_of "POSTS") with "". now rewrite append_empty_r.
  - apply AllContentFacts.playwright_deleteContent_navigations in P, R.
    rewrite R, P. unfold getProfileUrl.
    change (suffix_of "POSTS") with "". now rewrite append_empty_r.
Qed.

Lemma X9_all_content_is_posts_then_replies_witness :
  navigations
    (log (snd (AllContent.devtools_deleteAllContent Scripted.obliging 4
                 "alice"
                 (Scripted.start [Examples.dt_repost; Examples.dt_undo])))) =
    (baseUrl "alice" +:+ "/with_replies") :: baseUrl "alice" ::
    navigations (log (Scripted.start [Examples.dt_repost; Examples.dt_undo]))
  /\ reposts (mkSummary 1 0 0 1) = 0
  /\ total (mkSummary 1 0 0 1) =
     posts (mkSummary 1 0 0 1) + replies (mkSummary 1 0 0 1).
Proof.
  apply (X9_all_content_is_posts_then_replies (list JsValue)
           Scripted.obliging 4 "alice"
           (Scripted.start [Examples.dt_repost; Examples.dt_undo])).
  left. vm_compute. reflexivity.
Defined.

(** ** The followers list *)

Module ListingFacts.
Import Followers Listing.

Lemma no_slash_app (a b : string) :
  no_slash (a +:+ b) = no_slash a && no_slash b.
Proof.
  induction a as [|c a IH]; [reflexivity |].
  rewrite JsFacts.append_cons. simpl. rewrite IH. now rewrite andb_assoc.
Qed.

(** A path with one slash, at its head, holds no [/status/]: the third
    test of the source never decides. *)
Lemma status_test_is_idle (name : string) :
  no_slash name = true ->
  Js.includes (String slash name) "/status/" = false.
Proof.
  intros N. apply not_true_is_false. intros I.
  apply JsFacts.includes_spec in I. destruct I as (pre & post & E).
  destruct pre as [|c pre].
  - change ("" +:+ "/status/" +:+ post)
      with (String slash ("status/" +:+ post)) in E.
    injection E as E. rewrite E, no_slash_app in N.
    apply andb_true_iff in N. destruct N as [N _]. discriminate.
  - rewrite JsFacts.append_cons in E. injection E as _ E.
    rewrite E, no_slash_app in N.
    apply andb_true_iff in N. destruct N as [_ N].
    rewrite no_slash_app in N.
    apply andb_true_iff in N. destruct N as [N _]. discriminate.
Qed.

Lemma profile_path_spec (href : string) :
  profile_path href = true <->
  exists name, href = String slash name /\ name <> "" /\
               no_slash name = true.
Proof.
  unfold profile_path. destruct href as [|c [|c' rest]].
  - split; [discriminate | intros (n & E & _); discriminate].
  - split; [discriminate |].
    intros (n & E & Hn & _). injection E as _ <-. contradiction.
  - rewrite andb_true_iff. split.
    + intros [C N]. apply Ascii.eqb_eq in C. subst c.
      exists (String c' rest). repeat split; [discriminate | exact N].
    + intros (n & E & _ & N). injection E as -> <-.
      split; [apply Ascii.eqb_refl | exact N].
Qed.

Lemma collect_further (reserved : list string) (cell : Cell)
    (rest : list Cell) (f : Follower) :
  f ∈ collect reserved rest -> f ∈ collect reserved (cell :: rest).
Proof.
  intros F. simpl.
  destruct (link_href cell) as [href|]; [| exact F].
  destruct (_ && _); [| exact F].
  destruct (_ && _); [| exact F].
  apply list_elem_of_further. exact F.
Qed.

Lemma collect_here (reserved : list string) (cell : Cell)
    (rest : list Cell) (name : string) :
  link_href cell = Some (String slash name) ->
  name <> "" -> no_slash name = true -> listed reserved name = false ->
  mkFollower cell name ∈ collect reserved (cell :: rest).
Proof.
  intros L Hn N R. simpl. rewrite L.
  assert (P : profile_path (String slash name) = true)
    by (apply profile_path_spec; eauto).
  rewrite P, (status_test_is_idle name N).
  change (Js.drop 1 (String slash name)) with name. rewrite R.
  apply String.eqb_neq in Hn. rewrite Hn. simpl.
  apply list_elem_of_here.
Qed.

Lemma collect_spec (reserved : list string) (cells : list Cell)
    (f : Follower) :
  f ∈ collect reserved cells <-> candidate reserved cells f.
Proof.
  unfold candidate. split.
  - induction cells as [|cell rest IH]; simpl; [intros F; inversion F |].
    assert (Later : f ∈ collect reserved rest ->
              element f ∈ cell :: rest /\
              link_href (element f) = Some (String slash (username f)) /\
              username f <> "" /\ no_slash (username f) = true /\
              listed reserved (username f) = false).
    { intros F. apply IH in F. destruct F as (F & R).
      split; [apply list_elem_of_further; exact F | exact R]. }
    destruct (link_href cell) as [href|] eqn:L; [| exact Later].
    destruct (negb (href =? "")%string && profile_path href &&
              negb (Js.includes href "/status/")) eqn:T; [| exact Later].
    apply andb_true_iff in T. destruct T as [T _].
    apply andb_true_iff in T. destruct T as [_ P].
    apply profile_path_spec in P. destruct P as (name & -> & Hn & N).
    change (Js.drop 1 (String slash name)) with name.
    destruct (negb (name =? "")%string && negb (listed reserved name))
      eqn:U; [| exact Later].
    apply andb_true_iff in U. destruct U as [_ U].
    apply negb_true_iff in U.
    intros F. apply elem_of_cons in F. destruct F as [-> | F]; [| auto].
    simpl. split; [apply list_elem_of_here | auto].
  - intros (F & L & Hn & N & R).
    induction cells as [|cell rest IH]; [inversion F |].
    apply elem_of_cons in F. destruct F as [F | F].
    + destruct f as [e u]. simpl in *. subst e.
      apply collect_here; assumption.
    + apply collect_further, IH, F.
Qed.

Lemma dedupe_elem (followers : list Follower) (f : Follower) :
  forall seen : gset string,
    f ∈ dedupe seen followers <->
    (username f ∉ seen) /\ first_of_its_name followers f.
Proof.
  unfold first_of_its_name.
  induction followers as [|f0 rest IH]; intros seen; simpl.
  - split; [intros F; inversion F |].
    intros (_ & before & after & E & _). destruct before; discriminate.
  - destruct (decide (username f0 ∈ seen)) as [Hin|Hout].
    + rewrite IH. split.
      * intros (Hs & before & after & -> & Hb). split; [exact Hs |].
        exists (f0 :: before), after. split; [reflexivity |].
        rewrite fmap_cons, not_elem_of_cons. split; [| exact Hb].
        intros E. rewrite E in Hs. contradiction.
      * intros (Hs & before & after & E & Hb). split; [exact Hs |].
        destruct before as [|b before]; simpl in E; injection E as <- ->.
        -- contradiction.
        -- rewrite fmap_cons, not_elem_of_cons in Hb.
           exists before, after. split; [reflexivity | apply Hb].
    + rewrite elem_of_cons, IH. split.
      * intros [-> | (Hs & before & after & -> & Hb)].
        -- split; [exact Hout |]. exists [], rest.
           split; [reflexivity | apply not_elem_of_nil].
        -- rewrite not_elem_of_union, not_elem_of_singleton in Hs.
           split; [apply Hs |].
           exists (f0 :: before), after. split; [reflexivity |].
           rewrite fmap_cons, not_elem_of_cons. split; [apply Hs | exact Hb].
      * intros (Hs & before & after & E & Hb).
        destruct before as [|b before]; simpl in E; injection E as <- ->.
        -- left. reflexivity.
        -- right. rewrite fmap_cons, not_elem_of_cons in Hb.
           split.
           ++ rewrite not_elem_of_union, not_elem_of_singleton.
              split; [apply Hb | exact Hs].
           ++ exists before, after. split; [reflexivity | apply Hb].
Qed.

Lemma dedupe_sublist (followers : list Follower) :
  forall seen : gset string, dedupe seen followers `sublist_of` followers.
Proof.
  induction followers as [|f rest IH]; intros seen; simpl.
  - constructor.
  - destruct (decide (username f ∈ seen)).
    + apply sublist_cons, IH.
    + apply sublist_skip, IH.
Qed.

Lemma dedupe_distinct (followers : list Follower) :
  forall seen : gset string, NoDup (username <$> dedupe seen followers).
Proof.
  induction followers as [|f rest IH]; intros seen; simpl.
  - constructor.
  - destruct (decide (username f ∈ seen)) as [Hin|Hout]; [apply IH |].
    rewrite fmap_cons. apply NoDup_cons. split; [| apply IH].
    intros M. apply list_elem_of_fmap in M. destruct M as (g & E & G).
    apply dedupe_elem in G. destruct G as [G _]. apply G.
    rewrite <- E. apply elem_of_union_l, elem_of_singleton. reflexivity.
Qed.

End ListingFacts.

(** X10: what [getFollowerElements] lists, in the form without the extra
    pass: exactly the cells whose first profile link is a slash followed
    by a username that is not empty, holds no slash and is not a reserved
    name. The test for [/status/] never excludes anything. *)
Theorem X10_listed_cells_are_the_profile_links :
  forall (cells : list Followers.Cell) (f : Followers.Follower),
    f ∈ Followers.BlockUnblock.getFollowerElements cells <->
    Listing.candidate Followers.BlockUnblock.reserved cells f.
Proof. intros cells f. apply ListingFacts.collect_spec. Qed.

(** X11: the popup form lists every username once, with the first of its
    cells: an entry is listed exactly when it is a profile link as above
    (with [i] reserved as well) and no earlier entry has its username. The
    listing keeps the order of the page. *)
Theorem X11_popup_listing_keeps_first_of_each_name :
  forall (cells : list Followers.Cell),
    let all := Followers.collect Followers.Popup.reserved cells in
    let listing := Followers.Popup.getFollowerElements cells in
    NoDup (Followers.username <$> listing) /\
    listing `sublist_of` all /\
    (forall f, f ∈ listing <-> Listing.first_of_its_name all f) /\
    (forall f, f ∈ all <-> Listing.candidate Followers.Popup.reserved cells f).
Proof.
  intros cells all listing. unfold listing, Followers.Popup.getFollowerElements.
  split; [apply ListingFacts.dedupe_distinct |].
  split; [apply ListingFacts.dedupe_sublist |].
  split.
  - intros f. rewrite ListingFacts.dedupe_elem. split; [intros [_ F]; exact F |].
    intros F. split; [apply not_elem_of_empty | exact F].
  - intros f. apply ListingFacts.collect_spec.
Qed.

(** ** The follower loop *)

Module LoopFacts.
Import Followers Ledger.

Lemma dedupe_nil (l : list Follower) (P : gset string) :
  dedupe P l = [] -> filter (λ f, username f ∉ P) l = [].
Proof.
  induction l as [|g l IH]; simpl; [reflexivity |].
  rewrite filter_cons.
  destruct (decide (username g ∈ P)) as [Hin|Hout].
  - intros E. rewrite decide_False by auto. apply IH, E.
  - discriminate.
Qed.

Lemma dedupe_cons (l : list Follower) (P : gset string) (f : Follower)
    (r : list Follower) :
  dedupe P l = f :: r ->
  (exists tail, filter (λ f, username f ∉ P) l = f :: tail) /\
  dedupe ({[username f]} ∪ P) l = r.
Proof.
  induction l as [|g l IH]; simpl; [discriminate |].
  rewrite filter_cons.
  destruct (decide (username g ∈ P)) as [Hin|Hout].
  - intros E. rewrite decide_False by auto.
    destruct (IH E) as (T & D). split; [exact T |].
    rewrite decide_True by (apply elem_of_union_r; exact Hin). exact D.
  - intros [= -> <-]. rewrite decide_True by exact Hout.
    split; [eauto |].
    rewrite decide_True
      by (apply elem_of_union_l, elem_of_singleton; reflexivity).
    reflexivity.
Qed.

Lemma dedupe_fixed (l : list Follower) : forall P : gset string,
  NoDup (username <$> l) ->
  (forall f, f ∈ l -> username f ∉ P) ->
  dedupe P l = l.
Proof.
  induction l as [|g l IH]; intros P N F; simpl; [reflexivity |].
  rewrite fmap_cons in N. apply NoDup_cons in N. destruct N as [Ng N].
  rewrite decide_False by (apply F, list_elem_of_here).
  f_equal. apply IH; [exact N |].
  intros f Hf. rewrite not_elem_of_union, not_elem_of_singleton. split.
  - intros E. apply Ng. rewrite <- E. apply list_elem_of_fmap. eauto.
  - apply F, list_elem_of_further, Hf.
Qed.

Lemma dedupe_idempotent (l : list Follower) :
  dedupe ∅ (dedupe ∅ l) = dedupe ∅ l.
Proof.
  apply dedupe_fixed; [apply ListingFacts.dedupe_distinct |].
  intros f _. apply not_elem_of_empty.
Qed.

Section Static.
Context {H : Type}.
Variable query_cells : H -> list Cell.
Variable scrollBy : H -> H.
Variable getFollowerElements : list Cell -> list Follower.
Variable body : Follower -> State H -> State H.
Hypothesis body_steady : steady body.
Variable cells : list Cell.
Hypothesis static : forall h, query_cells h = cells.

Abbreviation loop_iteration :=
  (iteration query_cells scrollBy getFollowerElements body).
Abbreviation loop_run :=
  (run query_cells scrollBy getFollowerElements body).

Lemma iteration_nothing_new (st : State H) :
  dedupe (processedUsernames st) (getFollowerElements cells) = [] ->
  loop_iteration st =
    let st' := mkState (page st) (processedUsernames st)
                       (S (consecutiveEmpty st)) (performance st)
                       (events st) in
    if (CONFIG.maxEmptyAttempts <=? S (consecutiveEmpty st))%nat
    then inr st' else inl (with_page (scrollBy (page st)) st').
Proof.
  intros D. unfold iteration, newFollowers. rewrite static.
  rewrite (dedupe_nil _ _ D). reflexivity.
Qed.

Lemma iteration_next (st : State H) (f : Follower) (r : list Follower) :
  dedupe (processedUsernames st) (getFollowerElements cells) = f :: r ->
  loop_iteration st =
    inl (body f
           (mkState (page st) ({[username f]} ∪ processedUsernames st) 0
                    (checked (performance st))
                    (Checking (username f) :: Added (username f) ::
                     events st))).
Proof.
  intros D. unfold iteration, newFollowers. rewrite static.
  destruct (dedupe_cons _ _ _ _ D) as ((tail & ->) & _). reflexivity.
Qed.

(** Three scans that find nothing new end the loop. *)
Lemma run_nothing_new (st : State H) :
  dedupe (processedUsernames st) (getFollowerElements cells) = [] ->
  consecutiveEmpty st = 0 ->
  exists st',
    (forall fuel, 3 <= fuel -> loop_run fuel st = Some st') /\
    (forall fuel, fuel < 3 -> loop_run fuel st = None) /\
    events st' = events st /\ performance st' = performance st /\
    consecutiveEmpty st' = 3.
Proof.
  intros D C.
  pose proof (iteration_nothing_new st D) as E1. rewrite C in E1.
  simpl in E1.
  set (st1 := with_page _ _) in E1.
  assert (D1 : dedupe (processedUsernames st1) (getFollowerElements cells)
               = []) by exact D.
  pose proof (iteration_nothing_new st1 D1) as E2. simpl in E2.
  set (st2 := with_page _ _) in E2.
  assert (D2 : dedupe (processedUsernames st2) (getFollowerElements cells)
               = []) by exact D.
  pose proof (iteration_nothing_new st2 D2) as E3. simpl in E3.
  eexists. split; [| split; [| split; [| split]]].
  - intros [|[|[|fuel]]] F; try lia. simpl. rewrite E1, E2, E3. reflexivity.
  - intros [|[|[|fuel]]] F; try lia; simpl;
      rewrite ?E1, ?E2; reflexivity.
  - reflexivity.
  - reflexivity.
  - reflexivity.
Qed.

Lemma run_static (todo : list Follower) : forall st : State H,
  dedupe (processedUsernames st) (getFollowerElements cells) = todo ->
  consecutiveEmpty st = 0 ->
  exists st',
    (forall fuel, length todo + 3 <= fuel -> loop_run fuel st = Some st') /\
    (forall fuel, fuel < length todo + 3 -> loop_run fuel st = None) /\
    checking (events st') =
      (rev (username <$> todo) ++ checking (events st))%list /\
    totalChecked (performance st') =
      length todo + totalChecked (performance st) /\
    consecutiveEmpty st' = 3.
Proof.
  induction todo as [|f r IH]; intros st D C.
  - destruct (run_nothing_new st D C) as (st' & R & N & E & P & C').
    exists st'. simpl. rewrite E, P. auto.
  - pose proof (iteration_next st f r D) as E.
    set (st1 := mkState _ _ _ _ _) in E.
    destruct (body_steady f st1) as (Bp & Bc & Be & Bt).
    destruct (IH (body f st1)) as (st' & R & N & K & T & C').
    + rewrite Bp. apply (dedupe_cons _ _ _ _ D).
    + rewrite Bc. reflexivity.
    + exists st'. split; [| split; [| split; [| split]]].
      * intros [|fuel] F; [simpl in F; lia |]. simpl. rewrite E.
        apply R. simpl in F. lia.
      * intros [|fuel] F; [reflexivity |]. simpl. rewrite E.
        apply N. simpl in F. lia.
      * rewrite K, Be. simpl. now rewrite <- app_assoc.
      * rewrite T, Bt. simpl. lia.
      * exact C'.
Qed.

End Static.

Section Bodies.
Context {H : Type}.

Lemma block_unblock_steady (browser : BlockUnblock.Browser H) parse :
  steady (BlockUnblock.body browser parse).
Proof.
  intros follower st. unfold BlockUnblock.body, BlockUnblock.caught.
  repeat (match goal with
          | |- context [match ?x with _ => _ end] => destruct x
          | |- context [if ?x then _ else _] => destruct x
          end; try (repeat split; reflexivity)).
Qed.

Lemma popup_steady (browser : Popup.Browser H) parse :
  steady (Popup.body browser parse).
Proof.
  intros follower st. unfold Popup.body.
  repeat (match goal with
          | |- context [match ?x with _ => _ end] => destruct x
          | |- context [if ?x then _ else _] => destruct x
          end; try (repeat split; reflexivity)).
Qed.

End Bodies.
End LoopFacts.

(** X12: on a followers page whose cells do not change, the form that
    blocks and unblocks ends by itself: with [d] distinct usernames listed
    it makes exactly [d + 3] passes, checks each username once, in the
    order of first appearance on the page, and stops on the third scan
    that finds nothing new. *)
Theorem X12_block_unblock_run_on_a_static_page :
  forall (H : Type) (browser : Followers.BlockUnblock.Browser H)
         (parse : string -> Followers.JsDate) (cells : list Followers.Cell)
         (h0 : H),
    (forall h, Followers.BlockUnblock.query_cells browser h = cells) ->
    let names :=
      Followers.username <$>
        Followers.dedupe ∅ (Followers.BlockUnblock.getFollowerElements cells)
    in
    exists st',
      (forall fuel, length names + 3 <= fuel ->
         Followers.BlockUnblock.main browser parse fuel
           (Followers.initial h0) = Some st') /\
      (forall fuel, fuel < length names + 3 ->
         Followers.BlockUnblock.main browser parse fuel
           (Followers.initial h0) = None) /\
      Followers.checking (Followers.events st') = rev names /\
      Followers.totalChecked (Followers.performance st') = length names.
Proof.
  intros H browser parse cells h0 static names.
  destruct (LoopFacts.run_static
              (Followers.BlockUnblock.query_cells browser)
              (Followers.BlockUnblock.scrollBy browser)
              Followers.BlockUnblock.getFollowerElements
              (Followers.BlockUnblock.body browser parse)
              (LoopFacts.block_unblock_steady browser parse)
              cells static _ (Followers.initial h0) eq_refl eq_refl)
    as (st' & R & N & K & T & _).
  simpl in K, T. rewrite app_nil_r in K. rewrite Nat.add_0_r in T.
  exists st'. unfold names. rewrite !length_fmap.
  repeat split; assumption.
Qed.

Lemma X12_block_unblock_run_on_a_static_page_witness :
  exists st',
    (forall fuel, 1 + 3 <= fuel ->
       Followers.BlockUnblock.main
         (Followers.BlockUnblock.mkBrowser unit
            (fun _ => [Followers.mkCell 0 (Some "/bob");
                       Followers.mkCell 1 (Some "/bob");
                       Followers.mkCell 2 (Some "/home")])
            (fun h => h)
            (fun _ h => (Ok (Followers.mkDoc "" []), h))
            (fun _ h => (Throw "unused", h))
            (fun _ h => (Throw "unused", h))
            (fun h => h)
            (fun _ => 0%Z))
         (fun _ => None) fuel (Followers.initial tt) = Some st') /\
    (forall fuel, fuel < 1 + 3 ->
       Followers.BlockUnblock.main
         (Followers.BlockUnblock.mkBrowser unit
            (fun _ => [Followers.mkCell 0 (Some "/bob");
                       Followers.mkCell 1 (Some "/bob");
                       Followers.mkCell 2 (Some "/home")])
            (fun h => h)
            (fun _ h => (Ok (Followers.mkDoc "" []), h))
            (fun _ h => (Throw "unused", h))
            (fun _ h => (Throw "unused", h))
            (fun h => h)
            (fun _ => 0%Z))
         (fun _ => None) fuel (Followers.initial tt) = None) /\
    Followers.checking (Followers.events st') = rev ["bob"] /\
    Followers.totalChecked (Followers.performance st') = 1.
Proof.
  apply (X12_block_unblock_run_on_a_static_page unit
           (Followers.BlockUnblock.mkBrowser unit
              (fun _ => [Followers.mkCell 0 (Some "/bob");
                         Followers.mkCell 1 (Some "/bob");
                         Followers.mkCell 2 (Some "/home")])
              (fun h => h)
              (fun _ h => (Ok (Followers.mkDoc "" []), h))
              (fun _ h => (Throw "unused", h))
              (fun _ h => (Throw "unused", h))
              (fun h => h)
              (fun _ => 0%Z))
           (fun _ => None)
           [Followers.mkCell 0 (Some "/bob");
            Followers.mkCell 1 (Some "/bob");
            Followers.mkCell 2 (Some "/home")]
           tt).
  intros h. reflexivity.
Defined.

(** X13: the same holds of the popup form, whose listing is already free
    of repeated usernames: [d + 3] passes for the [d] entries listed, each
    checked once in the order of the page. *)
Theorem X13_popup_run_on_a_static_page :
  forall (H : Type) (browser : Followers.Popup.Browser H)
         (parse : string -> Followers.JsDate) (cells : list Followers.Cell)
         (h0 : H),
    (forall h, Followers.Popup.query_cells browser h = cells) ->
    let names :=
      Followers.username <$> Followers.Popup.getFollowerElements cells in
    exists st',
      (forall fuel, length names + 3 <= fuel ->
         Followers.Popup.main browser parse fuel
           (Followers.initial h0) = Some st') /\
      (forall fuel, fuel < length names + 3 ->
         Followers.Popup.main browser parse fuel
           (Followers.initial h0) = None) /\
      Followers.checking (Followers.events st') = rev names /\
      Followers.totalChecked (Followers.performance st') = length names.
Proof.
  intros H browser parse cells h0 static names.
  destruct (LoopFacts.run_static
              (Followers.Popup.query_cells browser)
              (Followers.Popup.scrollBy browser)
              Followers.Popup.getFollowerElements
              (Followers.Popup.body browser parse)
              (LoopFacts.popup_steady browser parse)
              cells static _ (Followers.initial h0) eq_refl eq_refl)
    as (st' & R & N & K & T & _).
  simpl in K, T. rewrite app_nil_r in K. rewrite Nat.add_0_r in T.
  unfold Followers.Popup.getFollowerElements in R, N, K, T.
  rewrite LoopFacts.dedupe_idempotent in R, N, K, T.
  exists st'. unfold names, Followers.Popup.getFollowerElements.
  rewrite !length_fmap. repeat split; assumption.
Qed.

Lemma X13_popup_run_on_a_static_page_witness :
  exists st',
    (forall fuel, 1 + 3 <= fuel ->
       Followers.Popup.main
         (Followers.Popup.mkBrowser unit
            (fun _ => [Followers.mkCell 0 (Some "/bob");
                       Followers.mkCell 1 (Some "/bob");
                       Followers.mkCell 2 (Some "/i")])
            (fun h => h)
            (fun _ h => (Ok false, h))
            (fun h => (false, h))
            (fun _ => Throw "unused")
            (fun h => h)
            (fun _ h => (Followers.mkResult false "unused", h))
            (fun _ => 0%Z))
         (fun _ => None) fuel (Followers.initial tt) = Some st') /\
    (forall fuel, fuel < 1 + 3 ->
       Followers.Popup.main
         (Followers.Popup.mkBrowser unit
            (fun _ => [Followers.mkCell 0 (Some "/bob");
                       Followers.mkCell 1 (Some "/bob");
                       Followers.mkCell 2 (Some "/i")])
            (fun h => h)
            (fun _ h => (Ok false, h))
            (fun h => (false, h))
            (fun _ => Throw "unused")
            (fun h => h)
            (fun _ h => (Followers.mkResult false "unused", h))
            (fun _ => 0%Z))
         (fun _ => None) fuel (Followers.initial tt) = None) /\
    Followers.checking (Followers.events st') = rev ["bob"] /\
    Followers.totalChecked (Followers.performance st') = 1.
Proof.
  apply (X13_popup_run_on_a_static_page unit
           (Followers.Popup.mkBrowser unit
              (fun _ => [Followers.mkCell 0 (Some "/bob");
                         Followers.mkCell 1 (Some "/bob");
                         Followers.mkCell 2 (Some "/i")])
              (fun h => h)
              (fun _ h => (Ok false, h))
              (fun h => (false, h))
              (fun _ => Throw "unused")
              (fun h => h)
              (fun _ h => (Followers.mkResult false "unused", h))
              (fun _ => 0%Z))
           (fun _ => None)
           [Followers.mkCell 0 (Some "/bob");
            Followers.mkCell 1 (Some "/bob");
            Followers.mkCell 2 (Some "/i")]
           tt).
  intros h. reflexivity.
Defined.

Module LedgerFacts.
Import Followers Ledger.

Ltac settle :=
  first
    [ left; split; reflexivity
    | right; split;
      [ first [ left; reflexivity | right; eexists; reflexivity ]
      | first [ left; reflexivity | right; reflexivity ] ] ].

Section Bodies.
Context {H : Type}.

Lemma block_unblock_settles_one (browser : BlockUnblock.Browser H) parse :
  settles_one (BlockUnblock.body browser parse).
Proof.
  intros follower st. unfold BlockUnblock.body, BlockUnblock.caught.
  repeat (match goal with
          | |- context [match ?x with _ => _ end] => destruct x
          | |- context [if ?x then _ else _] => destruct x
          end; try (simpl; settle)).
Qed.

Lemma popup_settles_one (browser : Popup.Browser H) parse :
  settles_one (Popup.body browser parse).
Proof.
  intros follower st. unfold Popup.body.
  repeat (match goal with
          | |- context [match ?x with _ => _ end] => destruct x
          | |- context [if ?x then _ else _] => destruct x
          end; try (simpl; settle)).
Qed.

End Bodies.

Section Loop.
Context {H : Type}.
Variable query_cells : H -> list Cell.
Variable scrollBy : H -> H.
Variable getFollowerElements : list Cell -> list Follower.
Variable body : Follower -> State H -> State H.
Hypothesis body_settles_one : settles_one body.

Lemma initial_balanced (h : H) : balanced (initial h).
Proof.
  unfold balanced, initial. simpl. repeat split.
  intros user Hu. inversion Hu.
Qed.

Lemma iteration_balanced (st : State H) :
  balanced st ->
  match iteration query_cells scrollBy getFollowerElements body st with
  | inl st' | inr st' => balanced st'
  end.
Proof.
  intros B. unfold iteration.
  destruct (newFollowers query_cells getFollowerElements st)
    as [|follower rest].
  - destruct (CONFIG.maxEmptyAttempts <=? S (consecutiveEmpty st))%nat;
      exact B.
  - set (st1 := mkState _ _ _ _ _).
    destruct B as (Sum & Chk & Rem & Err & Att).
    unfold balanced.
    destruct (body_settles_one follower st1)
      as [[-> ->] | [[-> | (message & ->)] [-> | ->]]];
      simpl; rewrite ?length_app; simpl;
      (split; [lia |]); (split; [lia |]); (split; [lia |]);
      (split; [lia |]);
      intros user Hu; rewrite ?elem_of_app, ?elem_of_cons in *;
      try (right; apply Att; exact Hu); try (apply Att; exact Hu).
    destruct Hu as [Hu | [Hu | Hu]].
    + right. apply Att, Hu.
    + left. exact Hu.
    + inversion Hu.
Qed.

Lemma progress_balanced (fuel : nat) : forall st : State H,
  balanced st ->
  balanced (progress query_cells scrollBy getFollowerElements body fuel st).
Proof.
  induction fuel as [|fuel IH]; intros st B; [exact B |].
  simpl. pose proof (iteration_balanced st B) as P.
  destruct (iteration query_cells scrollBy getFollowerElements body st)
    as [st'|st']; [apply IH |]; exact P.
Qed.

End Loop.
End LedgerFacts.

(** X14: the books of a follower run balance at every pass, in both forms:
    each follower checked is counted once as removed, skipped or failed;
    the count of checks is the number of checks begun; the lists of
    removed users and of errors are as long as their counters; and a user
    is listed as removed only after a removal was attempted on that
    user. *)
Theorem X14_follower_counters_balance :
  forall (H : Type) (popup : Followers.Popup.Browser H)
         (browser : Followers.BlockUnblock.Browser H)
         (parse : string -> Followers.JsDate) (fuel : nat) (h0 : H),
    Ledger.balanced
      (Followers.Popup.main_progress popup parse fuel (Followers.initial h0))
    /\
    Ledger.balanced
      (Followers.BlockUnblock.main_progress browser parse fuel
         (Followers.initial h0)).
Proof.
  intros H popup browser parse fuel h0. split.
  - unfold Followers.Popup.main_progress.
    apply LedgerFacts.progress_balanced.
    + apply LedgerFacts.popup_settles_one.
    + apply LedgerFacts.initial_balanced.
  - unfold Followers.BlockUnblock.main_progress.
    apply LedgerFacts.progress_balanced.
    + apply LedgerFacts.block_unblock_settles_one.
    + apply LedgerFacts.initial_balanced.
Qed.

(** ** Protected accounts *)

Module ProtectedFacts.
Import Followers.

(** The first of the two tests for a protected account is covered by the
    second. *)
Lemma longer_notice_is_covered (text : string) :
  Js.includes text "These posts are protected" = true ->
  Js.includes text "posts are protected" = true.
Proof.
  rewrite !JsFacts.includes_spec. intros (pre & post & ->).
  exists (pre +:+ "These "), post.
  rewrite !InterpreterFacts.append_assoc. reflexivity.
Qed.

Lemma protected_is_skipped now parse doc :
  skip (Popup.checkUserActivity now parse (Ok doc)) =
    Js.includes (pageText doc) "posts are protected".
Proof.
  unfold Popup.checkUserActivity.
  destruct (Js.includes (pageText doc) "These posts are protected") eqn:A.
  - rewrite (longer_notice_is_covered _ A). reflexivity.
  - destruct (Js.includes (pageText doc) "posts are protected");
      [reflexivity |]. simpl.
    destruct (tweets doc) as [|node rest]; [reflexivity |].
    destruct (time_datetime node) as [[[|c d]|]|]; reflexivity.
Qed.

End ProtectedFacts.

(** X15: in the popup form an account whose page says that its posts are
    protected is never removed, whatever its tweets show: the follower is
    counted as skipped and no removal is attempted. The activity check
    asks to skip exactly when the page text holds [posts are protected];
    the longer notice tested first decides nothing by itself. *)
Theorem X15_protected_accounts_are_skipped :
  forall (H : Type) (browser : Followers.Popup.Browser H)
         (parse : string -> Followers.JsDate)
         (follower : Followers.Follower) (st : Followers.State H)
         (h1 h2 : H) (doc : Followers.ProfileDoc),
    Followers.Popup.window_open browser
      ("https://x.com/" +:+ Followers.username follower)
      (Followers.page st) = (Ok true, h1) ->
    Followers.Popup.waitForPopupLoad browser h1 = (true, h2) ->
    Followers.Popup.popup_document browser h2 = Ok doc ->
    Js.includes (Followers.pageText doc) "posts are protected" = true ->
    let st' := Followers.Popup.body browser parse follower st in
    Followers.performance st' =
      Followers.skipped (Followers.performance st) /\
    Followers.events st' = Followers.events st /\
    Followers.page st' = Followers.Popup.popup_close browser h2 /\
    (forall now document,
        Followers.skip
          (Followers.Popup.checkUserActivity now parse (Ok document)) =
        Js.includes (Followers.pageText document) "posts are protected").
Proof.
  intros H browser parse follower st h1 h2 doc W L D P st'.
  split; [| split; [| split]].
  - unfold st', Followers.Popup.body. rewrite W, L, D.
    rewrite ProtectedFacts.protected_is_skipped, P. reflexivity.
  - unfold st', Followers.Popup.body. rewrite W, L, D.
    rewrite ProtectedFacts.protected_is_skipped, P. reflexivity.
  - unfold st', Followers.Popup.body. rewrite W, L, D.
    rewrite ProtectedFacts.protected_is_skipped, P. reflexivity.
  - intros now document. apply ProtectedFacts.protected_is_skipped.
Qed.

Lemma X15_protected_accounts_are_skipped_witness :
  let browser :=
    Followers.Popup.mkBrowser unit
      (fun _ => [])
      (fun h => h)
      (fun _ h => (Ok true, h))
      (fun h => (true, h))
      (fun _ => Ok (Followers.mkDoc "These posts are protected"
                      [Followers.mkTweetNode (Some (Some "2001-01-01"))]))
      (fun h => h)
      (fun _ h => (Followers.mkResult true "", h))
      (fun _ => 1000000000000000%Z) in
  let st := Followers.initial tt in
  let st' := Followers.Popup.body browser (fun _ => Some 0%Z)
               (Followers.mkFollower (Followers.mkCell 0 (Some "/bob")) "bob")
               st in
  Followers.performance st' =
    Followers.skipped (Followers.performance st) /\
  Followers.events st' = Followers.events st /\
  Followers.page st' = Followers.Popup.popup_close browser tt /\
  (forall now document,
      Followers.skip
        (Followers.Popup.checkUserActivity now (fun _ => Some 0%Z)
           (Ok document)) =
      Js.includes (Followers.pageText document) "posts are protected").
Proof.
  intros browser st.
  apply (X15_protected_accounts_are_skipped unit browser (fun _ => Some 0%Z)
           (Followers.mkFollower (Followers.mkCell 0 (Some "/bob")) "bob")
           st tt tt
           (Followers.mkDoc "These posts are protected"
              [Followers.mkTweetNode (Some (Some "2001-01-01"))]));
    reflexivity.
Defined.

(** ** The page actions *)

Module DomFacts.
Import Followers Dom Outcome.

Ltac open_action :=
  unfold try_catch, bind, read, do_click, delay, ret; cbn [dom clicked].

Ltac no_such_run :=
  let X := fresh in
  intros X; unfold confirmed in X; destruct X as
    (more' & item' & confirm' & h1' & h2' & h3' & A & B & C & D & E & F & G);
  cbn [dom clicked] in *; congruence.

Section Proofs.
Context {H : Type} (document : Document H).

(** The flow shared by [removeFollower] and [blockUser], from the click on
    the button found by [opener] to the result. *)
Lemma removeFollower_returns cell user (p : Page H) :
  exists r p', removeFollower document cell user p = (Ok r, p').
Proof.
  unfold removeFollower. open_action.
  destruct (card_button document cell (dom p)) as [more|];
    cbn [fst snd dom clicked]; [| eauto].
  destruct (click document (OnNode more) (dom p)) as [[[]|m] h1];
    cbn [fst snd dom clicked]; [| eauto].
  destruct (find _ _) as [item|]; cbn [fst snd dom clicked].
  - destruct (click document (OnNode item) h1) as [[[]|m] h2];
      cbn [fst snd dom clicked]; [| eauto].
    destruct (querySelector document confirmationSheetConfirm h2)
      as [confirm|]; cbn [fst snd dom clicked]; [| eauto].
    destruct (click document (OnNode confirm) h2) as [[[]|m] h3];
      cbn [fst snd dom clicked]; eauto.
  - destruct (click document OnBody h1) as [[[]|m] h2]; cbn [fst snd dom clicked]; eauto.
Qed.

Lemma removeFollower_success cell user (p p' : Page H) r :
  removeFollower document cell user p = (Ok r, p') ->
  (success r = true <->
   confirmed document "Remove this follower" (card_button document cell)
             p p').
Proof.
  unfold removeFollower. open_action. destruct p as [h l]. cbn [dom clicked].
  destruct (card_button document cell h) as [more|] eqn:E1;
    cbn [fst snd dom clicked]; [| intros [= <- <-]; split; [discriminate | no_such_run]].
  destruct (click document (OnNode more) h) as [[[]|m] h1] eqn:E2;
    cbn [fst snd dom clicked];
    [| intros [= <- <-]; split; [discriminate | no_such_run]].
  destruct (find _ _) as [item|] eqn:E3; cbn [fst snd dom clicked].
  - destruct (click document (OnNode item) h1) as [[[]|m] h2] eqn:E4;
      cbn [fst snd dom clicked];
      [| intros [= <- <-]; split; [discriminate | no_such_run]].
    destruct (querySelector document confirmationSheetConfirm h2)
      as [confirm|] eqn:E5; cbn [fst snd dom clicked];
      [| intros [= <- <-]; split; [discriminate | no_such_run]].
    destruct (click document (OnNode confirm) h2) as [[[]|m] h3] eqn:E6;
      cbn [fst snd dom clicked];
      [| intros [= <- <-]; split; [discriminate | no_such_run]].
    intros [= <- <-]. split; [intros _ | reflexivity].
    exists more, item, confirm, h1, h2, h3. cbn [dom clicked]. auto 10.
  - destruct (click document OnBody h1) as [[[]|m] h2] eqn:E4;
      cbn [fst snd dom clicked];
      intros [= <- <-]; split; try discriminate; no_such_run.
Qed.

Lemma blockUser_success user (p p' : Page H) r :
  blockUser document user p = (Ok r, p') ->
  (success r = true <->
   confirmed document "Block" (querySelector document userActions) p p').
Proof.
  unfold blockUser. open_action. destruct p as [h l]. cbn [dom clicked].
  destruct (querySelector document userActions h) as [more|] eqn:E1;
    cbn [fst snd dom clicked]; [| intros [= <- <-]; split; [discriminate | no_such_run]].
  destruct (click document (OnNode more) h) as [[[]|m] h1] eqn:E2;
    cbn [fst snd dom clicked]; [| discriminate].
  destruct (find _ _) as [item|] eqn:E3; cbn [fst snd dom clicked].
  - destruct (click document (OnNode item) h1) as [[[]|m] h2] eqn:E4;
      cbn [fst snd dom clicked]; [| discriminate].
    destruct (querySelector document confirmationSheetConfirm h2)
      as [confirm|] eqn:E5; cbn [fst snd dom clicked];
      [| intros [= <- <-]; split; [discriminate | no_such_run]].
    destruct (click document (OnNode confirm) h2) as [[[]|m] h3] eqn:E6;
      cbn [fst snd dom clicked]; [| discriminate].
    intros [= <- <-]. split; [intros _ | reflexivity].
    exists more, item, confirm, h1, h2, h3. cbn [dom clicked]. auto 10.
  - destruct (click document OnBody h1) as [[[]|m] h2] eqn:E4;
      cbn [fst snd dom clicked]; [| discriminate].
    intros [= <- <-]; split; [discriminate | no_such_run].
Qed.

Lemma unblock_by_menu_success (q p' : Page H) r :
  unblock_by_menu document q = (Ok r, p') ->
  success r = true -> unblocked_by_menu document q p'.
Proof.
  unfold unblock_by_menu. open_action. destruct q as [h l].
  cbn [dom clicked].
  destruct (querySelector document userActions h) as [more|] eqn:E1;
    cbn [fst snd dom clicked]; [| intros [= <- <-]; discriminate].
  destruct (click document (OnNode more) h) as [[[]|m] h1] eqn:E2;
    cbn [fst snd dom clicked]; [| discriminate].
  destruct (find _ _) as [item|] eqn:E3; cbn [fst snd dom clicked];
    [| intros [= <- <-]; discriminate].
  destruct (click document (OnNode item) h1) as [[[]|m] h2] eqn:E4;
    cbn [fst snd dom clicked]; [| discriminate].
  intros [= <- <-] _. exists more, item, h1, h2. cbn [dom clicked]. auto 10.
Qed.

Lemma unblockUser_success user (p p' : Page H) r :
  unblockUser document user p = (Ok r, p') ->
  success r = true ->
  unblocked_by_button document p p' \/
  exists q, menu_tried_from document p q /\
            unblocked_by_menu document q p'.
Proof.
  unfold unblockUser. unfold bind at 1, read at 1.
  destruct (querySelector document placementTracking_button (dom p))
    as [blocked|] eqn:E1.
  - destruct (mentions "Blocked" blocked) eqn:E2.
    + unfold bind at 1, do_click at 1.
      destruct (click document (OnNode blocked) (dom p)) as [[[]|m] h1] eqn:E3;
        cbn [fst snd dom clicked]; [| discriminate].
      unfold bind at 1, delay at 1, ret at 1.
      unfold bind at 1, read at 1. cbn [dom].
      destruct (querySelector document confirmationSheetConfirm h1)
        as [confirm|] eqn:E4.
      * open_action.
        destruct (click document (OnNode confirm) h1) as [[[]|m] h2] eqn:E5;
          cbn [fst snd dom clicked]; [| discriminate].
        intros [= <- <-] _. left.
        exists blocked, confirm, h1, h2. auto 10.
      * intros R S. right. eexists. split; [| exact (unblock_by_menu_success _ _ _ R S)].
        right. exists blocked, h1. auto 10.
    + intros R S. right. exists p.
      split; [left; reflexivity | exact (unblock_by_menu_success _ _ _ R S)].
  - intros R S. right. exists p.
    split; [left; reflexivity | exact (unblock_by_menu_success _ _ _ R S)].
Qed.

End Proofs.
End DomFacts.

(** X16: [removeFollower] of the popup form always returns a result, also
    when a click raises, and it reports success exactly when three clicks
    went through in this order: the button found on the card of the
    follower, the first entry of the menu whose text holds [Remove this
    follower], and the button of the confirmation sheet. *)
Theorem X16_removal_succeeds_only_when_confirmed :
  forall (H : Type) (document : Dom.Document H) (cell : Followers.Cell)
         (user : string) (p : Dom.Page H),
    (exists r p', Dom.removeFollower document cell user p = (Ok r, p')) /\
    (forall r p',
        Dom.removeFollower document cell user p = (Ok r, p') ->
        (Followers.success r = true <->
         Outcome.confirmed document "Remove this follower"
           (Dom.card_button document cell) p p')).
Proof.
  intros H document cell user p. split.
  - apply DomFacts.removeFollower_returns.
  - intros r p'. apply DomFacts.removeFollower_success.
Qed.

(** X17: in the form that blocks and unblocks, a block is reported
    successful exactly when the menu of the profile was opened, its first
    entry that mentions [Block] was clicked and the confirmation sheet was
    confirmed. An unblock is reported successful either after the button
    that reads Blocked was clicked and confirmed, or after a click on the
    menu entry that mentions [Unblock], which is not confirmed and may
    follow a click on the Blocked button that no sheet answered. *)
Theorem X17_block_is_confirmed_unblock_need_not_be :
  forall (H : Type) (document : Dom.Document H) (user : string)
         (p : Dom.Page H),
    (forall r p',
        Dom.blockUser document user p = (Ok r, p') ->
        (Followers.success r = true <->
         Outcome.confirmed document "Block"
           (Dom.querySelector document Dom.userActions) p p')) /\
    (forall r p',
        Dom.unblockUser document user p = (Ok r, p') ->
        Followers.success r = true ->
        Outcome.unblocked_by_button document p p' \/
        exists q, Outcome.menu_tried_from document p q /\
                  Outcome.unblocked_by_menu document q p').
Proof.
  intros H document user p. split.
  - intros r p'. apply DomFacts.blockUser_success.
  - intros r p'. apply DomFacts.unblockUser_success.
Qed.

(** ** The reading of relative timestamps *)

Module TimeTextFacts.
Import Followers TimeText.

Lemma split_last_snoc (ds : string) (u : ascii) :
  split_last (ds +:+ String u "") = Some (ds, u).
Proof.
  induction ds as [|c ds IH]; [reflexivity |].
  rewrite JsFacts.append_cons. simpl. now rewrite IH.
Qed.

Lemma snoc_not_empty (ds : string) (u : ascii) :
  String.eqb (ds +:+ String u "") "" = false.
Proof. destruct ds; reflexivity. Qed.

Lemma digits_then_snoc (units : list ascii) (ds : string) (u : ascii) :
  digits ds = true ->
  digits_then units (ds +:+ String u "") =
    if one_of units u then Some ds else None.
Proof.
  intros D. unfold digits_then. now rewrite split_last_snoc, D.
Qed.

Lemma relative_unit (calendar : Calendar) (now : Z) (ds : string)
    (u : ascii) :
  digits ds = true ->
  one_of [lower_s; lower_m; lower_h] u = true ->
  parseLastTweetDate calendar now (ds +:+ String u "") = Some (Some now).
Proof.
  intros D U. unfold parseLastTweetDate.
  now rewrite snoc_not_empty, (digits_then_snoc _ _ _ D), U.
Qed.

Lemma relative_days (calendar : Calendar) (now : Z) (ds : string) :
  digits ds = true ->
  parseLastTweetDate calendar now (ds +:+ "d") =
    Some (date_of (now - parseInt ds * 86400000)).
Proof.
  intros D. unfold parseLastTweetDate.
  change "d" with (String lower_d "").
  rewrite snoc_not_empty, !(digits_then_snoc _ _ _ D).
  cbn [one_of existsb matched]. simpl.
  f_equal. f_equal. lia.
Qed.

(** The two functions read the clock each for itself: [read] is the
    reading of [parseLastTweetDate], [checked] that of [isInactive]. *)
Lemma reading_inactive (read checked : Z) :
  isInactive checked (Some (Some read)) = true <->
  (checked - read > 180 * 86400000)%Z.
Proof.
  rewrite FollowerProofs.isInactive_spec. unfold CONFIG.inactiveDays.
  change (Z.pos ms_per_day) with 86400000%Z. split.
  - intros (t & [= <-] & G). exact G.
  - intros G. exists read. split; [reflexivity | exact G].
Qed.

Lemma days_inactive (read checked days : Z) :
  isInactive checked (Some (date_of (read - days * 86400000))) = true <->
  (Z.abs (read - days * 86400000) <= 8640000000000000 /\
   (checked - read) + days * 86400000 > 180 * 86400000)%Z.
Proof.
  rewrite FollowerProofs.isInactive_spec. unfold date_of, CONFIG.inactiveDays.
  change (Z.pos ms_per_day) with 86400000%Z.
  destruct (Z.leb_spec (Z.abs (read - days * 86400000)) 8640000000000000)
    as [R|R].
  - split.
    + intros (t & [= <-] & G). split; lia.
    + intros [_ G]. eexists. split; [reflexivity | lia].
  - split.
    + intros (t & [=] & _).
    + intros [G _]. lia.
Qed.

End TimeTextFacts.

(** X18: what [parseLastTweetDate] makes of the relative timestamps, and
    what [isInactive] then says. Each of the two functions reads the clock
    for itself: [read] is the time at which the text is parsed, [checked]
    the time at which the date is judged. A number followed by [s], [m] or
    [h] reads as the moment of parsing, and is inactive exactly when more
    than 180 days pass before it is judged. A number [N] followed by [d]
    reads as [N] days before the moment of parsing (the invalid date when
    that is out of the range of dates), and is inactive exactly when the
    date is valid and [N] days plus the time between the two readings
    exceed 180 days. So when the two readings are less than a day apart, a
    valid date is inactive for [N] above 180, not inactive for [N] below
    180, and for [N] equal to 180 inactive exactly when the clock has moved
    between the readings. The empty text reads as no date. *)
Theorem X18_relative_timestamps :
  forall (calendar : TimeText.Calendar) (read checked : Z) (ds : string),
    TimeText.digits ds = true ->
    (forall u,
        TimeText.one_of [TimeText.lower_s; TimeText.lower_m;
                         TimeText.lower_h] u = true ->
        TimeText.parseLastTweetDate calendar read (ds +:+ String u "") =
          Some (Some read) /\
        (Followers.isInactive checked
           (TimeText.parseLastTweetDate calendar read (ds +:+ String u "")) =
           true <->
         (checked - read > 180 * 86400000)%Z)) /\
    TimeText.parseLastTweetDate calendar read (ds +:+ "d") =
      Some (TimeText.date_of (read - TimeText.parseInt ds * 86400000)) /\
    (Followers.isInactive checked
       (TimeText.parseLastTweetDate calendar read (ds +:+ "d")) = true <->
     (Z.abs (read - TimeText.parseInt ds * 86400000) <= 8640000000000000 /\
      (checked - read) + TimeText.parseInt ds * 86400000 >
        180 * 86400000)%Z) /\
    ((read <= checked < read + 86400000)%Z ->
     (Z.abs (read - TimeText.parseInt ds * 86400000) <=
        8640000000000000)%Z ->
     ((180 < TimeText.parseInt ds)%Z ->
      Followers.isInactive checked
        (TimeText.parseLastTweetDate calendar read (ds +:+ "d")) = true) /\
     ((TimeText.parseInt ds < 180)%Z ->
      Followers.isInactive checked
        (TimeText.parseLastTweetDate calendar read (ds +:+ "d")) = false) /\
     (TimeText.parseInt ds = 180%Z ->
      (Followers.isInactive checked
         (TimeText.parseLastTweetDate calendar read (ds +:+ "d")) = true <->
       (read < checked)%Z))) /\
    TimeText.parseLastTweetDate calendar read "" = None.
Proof.
  intros calendar read checked ds D.
  split; [| split; [| split; [| split]]].
  - intros u U. rewrite (TimeTextFacts.relative_unit _ _ _ _ D U).
    split; [reflexivity | apply TimeTextFacts.reading_inactive].
  - apply TimeTextFacts.relative_days, D.
  - rewrite (TimeTextFacts.relative_days _ _ _ D).
    apply TimeTextFacts.days_inactive.
  - intros Near Valid. rewrite (TimeTextFacts.relative_days _ _ _ D).
    split; [| split].
    + intros G. apply TimeTextFacts.days_inactive. lia.
    + intros G. apply not_true_is_false. intros I.
      apply TimeTextFacts.days_inactive in I. lia.
    + intros E. rewrite TimeTextFacts.days_inactive. rewrite E in *. lia.
  - reflexivity.
Qed.

Lemma X18_relative_timestamps_witness :
  let calendar :=
    TimeText.mkCalendar (fun _ => 2026%Z) (fun _ _ _ => None)
                        (fun _ d => d) in
  let read := 1700000000000%Z in
  let checked := 1700000000001%Z in
  (forall u,
      TimeText.one_of [TimeText.lower_s; TimeText.lower_m;
                       TimeText.lower_h] u = true ->
      TimeText.parseLastTweetDate calendar read ("180" +:+ String u "") =
        Some (Some read) /\
      (Followers.isInactive checked
         (TimeText.parseLastTweetDate calendar read ("180" +:+ String u "")) =
         true <->
       (checked - read > 180 * 86400000)%Z)) /\
  TimeText.parseLastTweetDate calendar read ("180" +:+ "d") =
    Some (TimeText.date_of (read - TimeText.parseInt "180" * 86400000)) /\
  (Followers.isInactive checked
     (TimeText.parseLastTweetDate calendar read ("180" +:+ "d")) = true <->
   (Z.abs (read - TimeText.parseInt "180" * 86400000) <= 8640000000000000 /\
    (checked - read) + TimeText.parseInt "180" * 86400000 >
      180 * 86400000)%Z) /\
  ((read <= checked < read + 86400000)%Z ->
   (Z.abs (read - TimeText.parseInt "180" * 86400000) <=
      8640000000000000)%Z ->
   ((180 < TimeText.parseInt "180")%Z ->
    Followers.isInactive checked
      (TimeText.parseLastTweetDate calendar read ("180" +:+ "d")) = true) /\
   ((TimeText.parseInt "180" < 180)%Z ->
    Followers.isInactive checked
      (TimeText.parseLastTweetDate calendar read ("180" +:+ "d")) = false) /\
   (TimeText.parseInt "180" = 180%Z ->
    (Followers.isInactive checked
       (TimeText.parseLastTweetDate calendar read ("180" +:+ "d")) = true <->
     (read < checked)%Z))) /\
  TimeText.parseLastTweetDate calendar read "" = None.
Proof.
  intros calendar read checked.
  apply (X18_relative_timestamps calendar read checked "180").
  reflexivity.
Defined.

(** The day that makes the difference: read and judged at the same
    instant, a last tweet of 180 days ago is not inactive; judged one
    millisecond later, it is. *)
Lemma one_millisecond_later :
  Followers.isInactive 1700000000000
    (TimeText.parseLastTweetDate
       (TimeText.mkCalendar (fun _ => 2026%Z) (fun _ _ _ => None)
                            (fun _ d => d))
       1700000000000 "180d") = false /\
  Followers.isInactive 1700000000001
    (TimeText.parseLastTweetDate
       (TimeText.mkCalendar (fun _ => 2026%Z) (fun _ _ _ => None)
                            (fun _ d => d))
       1700000000000 "180d") = true.
Proof. split; vm_compute; reflexivity. Qed.

(** ** The lookups of the Playwright form *)

Module RefLookupFacts.
Import Js Lines.

(** A loop that returns the first handle of an accepted line. *)
Ltac first_handle IH :=
  match goal with
  | |- context [Playwright.match_ref ?line] =>
      destruct (Playwright.match_ref line) as [u|] eqn:M;
      [ intros [= ->]; exists line;
        split; [apply list_elem_of_here | auto]
      | try (destruct (_ && _ && _); [discriminate |]);
        let E := fresh in
        intros E; destruct (IH _ E) as (l & Hl & R);
        exists l; split; [apply list_elem_of_further; exact Hl | exact R] ]
  end.

Ltac next_line IH :=
  try (destruct (_ && _ && _); [discriminate |]);
  let E := fresh in
  intros E; destruct (IH _ E) as (l & Hl & R);
  exists l; split; [apply list_elem_of_further; exact Hl | exact R].

Lemma ref_findDeleteButton_loop_sound (lines : list string) : forall h : string,
  Playwright.findDeleteButton_loop lines = Some h ->
  exists line, line ∈ lines /\ mentions "Delete" "delete" line = true /\
               Playwright.match_ref line = Some h.
Proof.
  induction lines as [|line lines IH]; intros h; simpl; [discriminate |].
  destruct (includes line "Delete" || includes line "delete") eqn:W;
    [first_handle IH | next_line IH].
Qed.

Lemma ref_findConfirmButton_loop_sound (lines : list string) : forall h : string,
  Playwright.findConfirmButton_loop lines = Some h ->
  exists line, line ∈ lines /\ CarriedRef.confirms line = true /\
               Playwright.match_ref line = Some h.
Proof.
  unfold CarriedRef.confirms.
  induction lines as [|line lines IH]; intros h; simpl; [discriminate |].
  destruct (includes line "confirmationSheetConfirm" ||
            includes line "Delete" && includes line "button") eqn:W;
    [first_handle IH | next_line IH].
Qed.

Lemma ref_findUnretweetConfirmButton_loop_sound (lines : list string) :
  forall h : string,
    Playwright.findUnretweetConfirmButton_loop lines = Some h ->
    exists line, line ∈ lines /\
                 mentions "Undo" "unretweetConfirm" line = true /\
                 Playwright.match_ref line = Some h.
Proof.
  induction lines as [|line lines IH]; intros h; simpl; [discriminate |].
  destruct (includes line "Undo" || includes line "unretweetConfirm") eqn:W;
    [first_handle IH | next_line IH].
Qed.

Lemma ref_findMoreButton_loop_sound (ref : string) (lines : list string) :
  forall (ctx : bool) (h : string),
    Playwright.findMoreButton_loop ref ctx lines = Some h ->
    exists line, line ∈ lines /\ mentions "More" "caret" line = true /\
                 Playwright.match_ref line = Some h.
Proof.
  induction lines as [|line lines IH]; intros ctx h; simpl; [discriminate |].
  destruct ((includes line ref || ctx) &&
            (includes line "More" || includes line "caret")) eqn:W.
  - apply andb_true_iff in W. destruct W as [_ W].
    destruct (Playwright.match_ref line) as [u|] eqn:M.
    + intros [= ->]. exists line. split; [apply list_elem_of_here | auto].
    + destruct (_ && _ && _); [discriminate |].
      intros E. destruct (IH _ _ E) as (l & Hl & R).
      exists l. split; [apply list_elem_of_further; exact Hl | exact R].
  - destruct (_ && _ && _); [discriminate |].
    intros E. destruct (IH _ _ E) as (l & Hl & R).
    exists l. split; [apply list_elem_of_further; exact Hl | exact R].
Qed.

Lemma ref_findUnretweetButton_loop_sound (ref : string) (lines : list string) :
  forall (ctx : bool) (h : string),
    Playwright.findUnretweetButton_loop ref ctx lines = Some h ->
    exists line, line ∈ lines /\ includes line "unretweet" = true /\
                 Playwright.match_ref line = Some h.
Proof.
  induction lines as [|line lines IH]; intros ctx h; simpl; [discriminate |].
  destruct ((includes line ref || ctx) && includes line "unretweet") eqn:W.
  - apply andb_true_iff in W. destruct W as [_ W].
    destruct (Playwright.match_ref line) as [u|] eqn:M.
    + intros [= ->]. exists line. split; [apply list_elem_of_here | auto].
    + destruct (_ && _ && _); [discriminate |].
      intros E. destruct (IH _ _ E) as (l & Hl & R).
      exists l. split; [apply list_elem_of_further; exact Hl | exact R].
  - destruct (_ && _ && _); [discriminate |].
    intros E. destruct (IH _ _ E) as (l & Hl & R).
    exists l. split; [apply list_elem_of_further; exact Hl | exact R].
Qed.

Lemma ref_lift_sound (snapshot : JsValue) (wanted : string -> bool)
    (loop : list string -> option string) (h : string) :
  (forall lines, loop lines = Some h ->
     exists line, line ∈ lines /\ wanted line = true /\
                  Playwright.match_ref line = Some h) ->
  bindE (Playwright.snapshot_lines snapshot) (fun lines => Ok (loop lines))
    = Ok (Some h) ->
  CarriedRef.by_line snapshot wanted h /\ truthy_handle (Some h) = true.
Proof.
  intros S.
  destruct (Playwright.snapshot_lines snapshot) as [lines|m] eqn:L;
    simpl; [| discriminate].
  intros [= E]. destruct (S lines E) as (line & Hl & W & M).
  split.
  - exists lines, line. auto.
  - destruct (InterpreterFacts.match_handle_sound _ _ _ _ M) as [Wf _].
    eapply InterpreterFacts.truthy_of_well_formed; exact Wf.
Qed.

End RefLookupFacts.

(** X19: the lookups of the Playwright form never invent a handle either.
    What [findMoreButtonInTweet], [findDeleteButton], [findConfirmButton],
    [findUnretweetButton] and [findUnretweetConfirmButton] return is the
    first [ref] of a line of the snapshot that mentions what the lookup
    searches for, and it is never the empty string. The confirmation of a
    deletion is a line that mentions [confirmationSheetConfirm], or both
    [Delete] and [button]. *)
Theorem X19_playwright_lookups_return_refs_of_the_snapshot :
  forall (snapshot : JsValue) (tweet : Tweet) (h : string),
    (Playwright.findMoreButtonInTweet snapshot tweet = Ok (Some h) ->
     CarriedRef.by_line snapshot (Lines.mentions "More" "caret") h /\
     Js.truthy_handle (Some h) = true) /\
    (Playwright.findDeleteButton snapshot = Ok (Some h) ->
     CarriedRef.by_line snapshot (Lines.mentions "Delete" "delete") h /\
     Js.truthy_handle (Some h) = true) /\
    (Playwright.findConfirmButton snapshot = Ok (Some h) ->
     CarriedRef.by_line snapshot CarriedRef.confirms h /\
     Js.truthy_handle (Some h) = true) /\
    (Playwright.findUnretweetButton snapshot tweet = Ok (Some h) ->
     CarriedRef.by_line snapshot (fun line => Js.includes line "unretweet") h /\
     Js.truthy_handle (Some h) = true) /\
    (Playwright.findUnretweetConfirmButton snapshot = Ok (Some h) ->
     CarriedRef.by_line snapshot (Lines.mentions "Undo" "unretweetConfirm") h /\
     Js.truthy_handle (Some h) = true).
Proof.
  intros snapshot tweet h. split; [| split; [| split; [| split]]]; intros E.
  - eapply (RefLookupFacts.ref_lift_sound snapshot _
              (Playwright.findMoreButton_loop (handle tweet) false));
      [| exact E].
    intros lines. apply RefLookupFacts.ref_findMoreButton_loop_sound.
  - eapply (RefLookupFacts.ref_lift_sound snapshot _
              Playwright.findDeleteButton_loop); [| exact E].
    intros lines. apply RefLookupFacts.ref_findDeleteButton_loop_sound.
  - eapply (RefLookupFacts.ref_lift_sound snapshot _
              Playwright.findConfirmButton_loop); [| exact E].
    intros lines. apply RefLookupFacts.ref_findConfirmButton_loop_sound.
  - eapply (RefLookupFacts.ref_lift_sound snapshot _
              (Playwright.findUnretweetButton_loop (handle tweet) false));
      [| exact E].
    intros lines. apply RefLookupFacts.ref_findUnretweetButton_loop_sound.
  - eapply (RefLookupFacts.ref_lift_sound snapshot _
              Playwright.findUnretweetConfirmButton_loop); [| exact E].
    intros lines. apply RefLookupFacts.ref_findUnretweetConfirmButton_loop_sound.
Qed.

(** ** One item per scan *)

Module ScanFacts.
Import CountFacts.

Section Proofs.
Context {H : Type} (tools : Tools H).

Lemma devtools_iteration_bounds vars (w : World H) :
  let w' := snd (DevToolsController.iteration tools vars w) in
  length (clicks (log w')) <= length (clicks (log w)) + 2 /\
  captures (log w') <= captures (log w) + 2 /\
  dialogs (log w') <= dialogs (log w) + 1.
Proof.
  destruct vars as [n c]. destruct w as [h l].
  unfold DevToolsController.iteration, DevToolsController.try_block,
         DevToolsController.catch_block, DevToolsController.repost_path,
         DevToolsController.ordinary_path, try_catch, bind, liftE, ret, delay,
         do_click, do_snapshot, do_dialog, do_script, record.
  simpl.
  case_primitives tools; simpl; repeat split; lia.
Qed.

Lemma playwright_iteration_bounds vars (w : World H) :
  let w' := snd (Playwright.iteration tools vars w) in
  length (clicks (log w')) <= length (clicks (log w)) + 3 /\
  captures (log w') <= captures (log w) + 3 /\
  dialogs (log w') = dialogs (log w).
Proof.
  destruct vars as [n c]. destruct w as [h l].
  unfold Playwright.iteration, Playwright.try_block,
         Playwright.catch_block, Playwright.repost_path,
         Playwright.ordinary_path, try_catch, bind, liftE, ret, delay,
         do_click, do_snapshot, do_dialog, do_script, record.
  simpl.
  case_primitives tools; simpl; repeat split; lia.
Qed.

Lemma playwright_while_no_dialog fuel : forall vars (w : World H),
  dialogs (log (snd (Playwright.while_hasMore tools fuel vars w))) =
  dialogs (log w).
Proof.
  induction fuel as [|fuel IH]; intros vars w; [reflexivity |].
  simpl. unfold bind at 1.
  pose proof (playwright_iteration_bounds vars w) as (_ & _ & D).
  destruct (Playwright.iteration tools vars w) as [[[vars'|vars']|m] w1];
    simpl in D.
  - rewrite IH. exact D.
  - exact D.
  - exact D.
Qed.

End Proofs.
End ScanFacts.

(** X20: one scan cycle of [deleteContent] acts on one item at most. In
    the Chrome DevTools form a cycle makes at most two clicks, captures at
    most two snapshots and handles at most one dialog; in the Playwright
    form it makes at most three clicks and captures at most three
    snapshots. The Playwright form never calls the dialog primitive, in
    the whole of a run. *)
Theorem X20_one_item_per_scan_cycle :
  forall (H : Type) (tools : Tools H) (vars : LoopVars) (w : World H)
         (fuel : nat) (username contentType : string),
    (let w' := snd (DevToolsController.iteration tools vars w) in
     length (clicks (log w')) <= length (clicks (log w)) + 2 /\
     captures (log w') <= captures (log w) + 2 /\
     dialogs (log w') <= dialogs (log w) + 1) /\
    (let w' := snd (Playwright.iteration tools vars w) in
     length (clicks (log w')) <= length (clicks (log w)) + 3 /\
     captures (log w') <= captures (log w) + 3 /\
     dialogs (log w') = dialogs (log w)) /\
    dialogs (log (snd (Playwright.deleteContent tools fuel username
                         contentType w))) = dialogs (log w).
Proof.
  intros H tools vars w fuel username contentType.
  split; [apply ScanFacts.devtools_iteration_bounds |].
  split; [apply ScanFacts.playwright_iteration_bounds |].
  unfold Playwright.deleteContent, bind at 1, do_navigate, record.
  destruct (navigate_page tools _ (host w)) as [[[]|m] h1]; cbn [fst snd];
    [| reflexivity].
  unfold bind at 1, delay, ret.
  rewrite ScanFacts.playwright_while_no_dialog. reflexivity.
Qed.

(** ** Waiting for the popup *)

Module PopupLoadFacts.
Import PopupLoad.

Section Proofs.
Context {H : Type} (poll : H -> Except bool * H).




End Proofs.
End PopupLoadFacts.


